(** * Stake transaction processor (cryptonote_core/stake_transaction_processor.cpp)

    A shallow embedding of the stake transaction processor of the Graft
    network node: the validity window of a stake transaction, the decoding of
    the staked amount, the validation of disqualification transactions, the
    per-block processing of stake transactions, the synchronisation loop
    (unroll of an alternative chain, forward application of new blocks) and
    the update handlers.

    Conventions.
    - [uint64_t] and [size_t] values are integers of [Z]; every arithmetic
      operation of the source that can leave the range [0, 2^64) is written
      with its wrap-around ([add64], [sub64]).
    - [crypto::hash], [crypto::public_key], keys and signatures are plain
      32/64-byte records in the source, compared bytewise; they are modelled
      by the integers their bytes denote.
    - The classes the processor drives but which live in other files (the
      blockchain, the codec and crypto routines, the stake transaction
      storage, the blockchain based list) are interfaces (type classes); the
      processor is written once, over any implementation of them.
    - Logging is an effect of the source: every [MWARNING], [MDEBUG] and
      [MCLOG] of a member function of the processor appends a record to the
      log kept in the processor state. *)

From Stdlib Require Import ZArith List Ascii String Bool Lia.
From stdpp Require Import base option list gmap strings.
Import ListNotations.

Local Open Scope Z_scope.

(** ** Machine integers *)

Definition U64_MODULUS : Z := 2 ^ 64.

(** Reduction of an integer to its [uint64_t] value. *)
Definition wrap64 (z : Z) : Z := z mod U64_MODULUS.

Definition add64 (a b : Z) : Z := wrap64 (a + b).
Definition sub64 (a b : Z) : Z := wrap64 (a - b).

Definition is_uint64 (z : Z) : Prop := 0 <= z < U64_MODULUS.

(** ** Plain data of the crypto layer *)

Definition hash := Z.
Definition public_key := Z.
Definition secret_key := Z.
Definition signature := Z.
Definition key_derivation := Z.
Definition rct_key := Z.

Record account_public_address := {
  m_spend_public_key : public_key;
  m_view_public_key : public_key
}.

(** ** Transactions *)

(** The target of an output is a variant; only [txout_to_key] matters to the
    processor ([typeid(txout_to_key) != target.type()] skips the others). *)
Inductive txout_target :=
| txout_to_key (key : public_key)
| txout_other.

Record tx_out := {
  amount : Z;
  target : txout_target
}.

Record ecdhTuple := {
  ecdh_mask : rct_key;
  ecdh_amount : rct_key
}.

Record rctSig := {
  ecdhInfo : list ecdhTuple;
  outPk : list rct_key         (* the [mask] of each [ctkey] *)
}.

Record transaction := {
  version : Z;
  unlock_time : Z;
  vout : list tx_out;
  extra : list Z;
  rct_signatures : rctSig
}.

Record block := {
  tx_hashes : list hash
}.

(** ** Configuration constants ([config::graft], [graft::generator])

    The header that fixes their values is not part of this file; the
    processor is parametric in them. *)

Class graft_config := {
  STAKE_VALIDATION_PERIOD : Z;
  TRUSTED_RESTAKING_PERIOD : Z;
  STAKE_MIN_UNLOCK_TIME : Z;
  STAKE_MAX_UNLOCK_TIME : Z;
  SUPERNODE_HISTORY_SIZE : Z;
  STAKE_TRANSACTION_PROCESSING_DB_VERSION : Z;
  REQUIRED_BBQS_VOTES : Z;
  REQUIRED_DISQUAL2_VOTES : Z;
  TIERS : nat
}.

(** The constants are [uint64_t] (or smaller unsigned) values. *)
Record graft_config_ok (cfg : graft_config) : Prop := {
  validation_period_range : is_uint64 STAKE_VALIDATION_PERIOD;
  restaking_period_range : is_uint64 TRUSTED_RESTAKING_PERIOD;
  min_unlock_range : is_uint64 STAKE_MIN_UNLOCK_TIME;
  max_unlock_range : is_uint64 STAKE_MAX_UNLOCK_TIME
}.

(** ** Stake transactions *)

Record stake_transaction := {
  stx_hash : hash;
  stx_amount : Z;
  stx_block_height : Z;
  stx_unlock_time : Z;
  supernode_public_id : string;
  supernode_public_address : account_public_address;
  supernode_signature : signature;
  tx_secret_key : secret_key
}.

Record stake_transaction_ok (s : stake_transaction) : Prop := {
  stx_block_height_range : is_uint64 (stx_block_height s);
  stx_unlock_time_range : is_uint64 (stx_unlock_time s)
}.

Section Validity.
Context {cfg : graft_config}.

Definition stake_first_valid_block (s : stake_transaction) : Z :=
  add64 (stx_block_height s) STAKE_VALIDATION_PERIOD.

Definition stake_last_valid_block (s : stake_transaction) : Z :=
  add64 (add64 (stx_block_height s) (stx_unlock_time s)) TRUSTED_RESTAKING_PERIOD.

(** [stake_transaction::is_valid] *)
Definition is_valid (s : stake_transaction) (block_index : Z) : bool :=
  if block_index <? stake_first_valid_block s then false
  else if block_index >=? stake_last_valid_block s then false
  else true.

(** The window as the specification writes it, over the integers. *)
Definition in_validity_window (s : stake_transaction) (b : Z) : Prop :=
  stx_block_height s + STAKE_VALIDATION_PERIOD <= b /\
  b < stx_block_height s + stx_unlock_time s + TRUSTED_RESTAKING_PERIOD.
End Validity.

(** ** Disqualification records *)

Record disqualification_item := {
  block_height_of : Z;
  block_hash_of : hash;
  id_of : public_key
}.

Record signer_item := {
  signer_id : public_key;
  sign : signature
}.

(** [tx_extra_graft_disqualification] *)
Record tx_extra_graft_disqualification := {
  item : disqualification_item;
  signers : list signer_item
}.

Record disqualification2_item := {
  payment_id : string;
  block_height_of2 : Z;
  block_hash_of2 : hash;
  ids : list public_key
}.

(** [tx_extra_graft_disqualification2] *)
Record tx_extra_graft_disqualification2 := {
  item2 : disqualification2_item;
  signers2 : list signer_item
}.

(** What the storage keeps of a version 123 transaction. *)
Record disqualification := {
  blob : string;
  block_index_of : Z;
  disq_id : public_key;
  id_str : string
}.

(** What the storage keeps of a version 124 transaction. *)
Record disqualification2_storage_item := {
  blob2 : string;
  block_index_of2 : Z
}.

(** ** Supernodes, tiers *)

(** Modelled from the spec: the element type of a tier of the blockchain
    based list, [{ supernode_public_id, stake_amount }] (its declaration is
    in blockchain_based_list.h). *)
Record tier_entry := {
  tier_supernode_public_id : string;
  tier_stake_amount : Z
}.

(** [BlockchainBasedList::supernode_tier_array]: one vector per tier. *)
Definition Tiers := list (list tier_entry).

(** [TI]: tier, index in the tier. *)
Definition TI := (nat * nat)%type.

(** Modelled from the spec: the aggregate stake of a supernode at a block
    (its declaration is in stake_transaction_storage.h). *)
Record supernode_stake := {
  stake_supernode_public_id : string;
  stake_amount : Z
}.

(** Modelled from the spec: a supernode disqualified at a block (its
    declaration is in stake_transaction_storage.h). *)
Record supernode_disqualification := {
  disqualified_id : public_key;
  disqualified_at : Z
}.

(** ** The collaborators of the processor *)

(** What [get_graft_stake_tx_extra_from_extra] extracts. *)
Record stake_tx_extra := {
  extra_supernode_public_id : string;
  extra_supernode_public_address : account_public_address;
  extra_supernode_signature : signature;
  extra_tx_secret_key : secret_key
}.

(** Parsing of the extra field and of identifiers.  A C++ routine that
    returns [bool] and fills an out-parameter is a function to [option]. *)
Class Codec := {
  graft_check_disqualification : transaction -> option tx_extra_graft_disqualification;
  graft_check_disqualification2 : transaction -> option tx_extra_graft_disqualification2;
  graft_get_disqualification : transaction -> option tx_extra_graft_disqualification;
  graft_get_disqualification2 : transaction -> option tx_extra_graft_disqualification2;
  get_graft_stake_tx_extra_from_extra : transaction -> option stake_tx_extra;
  dump_binary : tx_extra_graft_disqualification -> string;
  dump_binary2 : tx_extra_graft_disqualification2 -> string;
  get_transaction_prefix_hash : transaction -> hash;
  hex_to_pod : string -> option public_key;
  pod_to_hex : public_key -> string;
  get_account_address_as_str : Z -> bool -> account_public_address -> string
}.

(** The crypto and ringct routines.  [generate_key_derivation] can fail;
    [ecdhDecode] is [None] when the decoding throws. *)
Class Crypto := {
  check_key : public_key -> bool;
  cn_fast_hash : string -> hash;
  check_signature : hash -> public_key -> signature -> bool;
  generate_key_derivation : public_key -> secret_key -> option key_derivation;
  derive_public_key : key_derivation -> Z -> public_key -> public_key;
  derivation_to_scalar : key_derivation -> Z -> secret_key;
  sk2rct : secret_key -> rct_key;
  ecdhDecode : ecdhTuple -> rct_key -> option ecdhTuple;
  addKeys2 : rct_key -> rct_key -> rct_key -> rct_key;
  rct_H : rct_key;
  h2d : rct_key -> Z
}.

(** [graft::generator]: the seeded selection of the committees, over the
    indexes of a snapshot of the blockchain based list. *)
Class SampleGenerator := {
  select_BBQS_QCL : hash -> list (list TI) -> list TI * list TI;
  select_AuthSample : string -> list (list TI) -> list TI
}.

(** [Blockchain], as the processor reads it.  [get_block_id_by_height] is
    [None] where the source throws [BLOCK_DNE]; [get_block_by_hash] and
    [get_transactions] are [None] where they return [false]. *)
Class Blockchain := {
  get_current_blockchain_height : Z;
  get_hard_fork_version : Z -> Z;
  get_earliest_ideal_height_for_version : Z -> Z;
  get_block_id_by_height : Z -> option hash;
  get_block_by_hash : hash -> option block;
  get_transactions : list hash -> option (list transaction * list hash);
  get_db_height : Z;
  nettype : Z
}.

(** [StakeTransactionStorage], the member functions the processor calls;
    each is taken to return (none throws). *)
Class StakeStorage (sts : Type) := {
  storage_open : string -> Z -> sts;
  get_last_processed_block_index : sts -> Z;
  has_last_processed_block : sts -> bool;
  get_last_processed_block_hash : sts -> hash;
  get_tx_count : sts -> Z;
  add_tx : stake_transaction -> sts -> sts;
  add_disquals : list disqualification -> sts -> sts;
  add_disquals2 : list disqualification2_storage_item -> sts -> sts;
  update_supernode_stakes : Z -> sts -> sts;
  clear_supernode_stakes : sts -> sts;
  add_last_processed_block : Z -> hash -> sts -> sts;
  remove_last_processed_block : sts -> sts;
  storage_find_supernode_stake : Z -> string -> sts -> option supernode_stake;
  get_supernode_stakes : Z -> sts -> list supernode_stake;
  get_supernode_disqualiications : Z -> sts -> list supernode_disqualification;
  storage_need_store : sts -> bool;
  storage_store : sts -> sts
}.

(** [BlockchainBasedList], the member functions the processor calls; each
    is taken to return (none throws).  [apply_block] reads the storage. *)
Class BlockchainBasedList (sts bbl : Type) := {
  list_open : string -> Z -> bbl;
  block_height : bbl -> Z;
  history_depth : bbl -> Z;
  tiers : Z -> bbl -> Tiers;
  apply_block : Z -> hash -> sts -> bbl -> bbl;
  remove_latest_block : bbl -> bbl;
  list_need_store : bbl -> bool;
  list_store : bbl -> bbl
}.


(** ** Decoding the staked amount *)

Section Amount.
Context {crypto : Crypto}.

(** The RingCT branch of [get_transaction_amount] for output [n].  The
    amount is 0 when the derivation fails, when the commitment does not match
    and when [ecdhDecode] throws ([catch (...)]).  The source indexes
    [ecdhInfo] and [outPk] with [n] unchecked ([operator[]] of a vector): for
    a transaction with no such entry the behaviour is undefined, and no
    handler intercepts it; the result is then [None].  [outPk[n]] is only
    read once [ecdhDecode] has returned. *)
Definition rct_output_amount (tx : transaction) (address : account_public_address)
    (tx_key : secret_key) (n : Z) : option Z :=
  match generate_key_derivation (m_view_public_key address) tx_key with
  | None => Some 0
  | Some derivation =>
      let scalar1 := derivation_to_scalar derivation n in
      match ecdhInfo (rct_signatures tx) !! Z.to_nat n with
      | None => None
      | Some ecdh_info =>
          match ecdhDecode ecdh_info (sk2rct scalar1) with
          | None => Some 0
          | Some decoded =>
              match outPk (rct_signatures tx) !! Z.to_nat n with
              | None => None
              | Some C =>
                  let Ctmp := addKeys2 (ecdh_mask decoded) (ecdh_amount decoded) rct_H in
                  Some (if C =? Ctmp then h2d (ecdh_amount decoded) else 0)
              end
          end
      end
  end.

(** The loop over [tx.vout] of [get_transaction_amount], from output [n]
    on, with [received] so far; [None] when an index was out of range. *)
Fixpoint received_from (derivation : key_derivation) (tx : transaction)
    (address : account_public_address) (tx_key : secret_key)
    (outs : list tx_out) (n : Z) (received : Z) : option Z :=
  match outs with
  | [] => Some received
  | out :: rest =>
      match target out with
      | txout_other => received_from derivation tx address tx_key rest (n + 1) received
      | txout_to_key key =>
          let pubkey := derive_public_key derivation n (m_spend_public_key address) in
          if pubkey =? key then
            match (if version tx =? 1 then Some (amount out)
                   else rct_output_amount tx address tx_key n) with
            | None => None
            | Some amount =>
                received_from derivation tx address tx_key rest (n + 1) (add64 received amount)
            end
          else received_from derivation tx address tx_key rest (n + 1) received
      end
  end.

(** [get_transaction_amount] (its two log lines are not modelled); [None]
    when the behaviour of the source is undefined. *)
Definition get_transaction_amount (tx : transaction) (address : account_public_address)
    (tx_key : secret_key) : option Z :=
  match generate_key_derivation (m_view_public_key address) tx_key with
  | None => Some 0
  | Some derivation => received_from derivation tx address tx_key (vout tx) 0 0
  end.

End Amount.

(** ** Effects: state, exceptions, log

    A member function of the processor is a computation over the processor
    state that returns a value, throws, or stops the program.  The state
    reached when an exception is thrown is kept: what was written before the
    [throw] stays written. *)

Inductive exn :=
| BLOCK_DNE
| std_runtime_error (what_arg : string)
| std_exception (what_arg : string).

(** [e.what()] *)
Definition what (e : exn) : string :=
  match e with
  | BLOCK_DNE => "BLOCK_DNE"
  | std_runtime_error w => w
  | std_exception w => w
  end.

(** [Abort]: a failed [assert], or a dereference the language leaves
    undefined (a null [unique_ptr], an index out of range); no handler
    catches it.  [OutOfFuel]: the budget of a loop of the model ran out; no
    run of the source ends so. *)
Inductive outcome (A : Type) :=
| Val (a : A)
| Exc (e : exn)
| Abort (why : string)
| OutOfFuel.
Arguments Val {A} a.
Arguments Exc {A} e.
Arguments Abort {A} why.
Arguments OutOfFuel {A}.

Definition M (St A : Type) : Type := St -> outcome A * St.

Definition ret {St A : Type} (a : A) : M St A := fun p => (Val a, p).

Definition bind {St A B : Type} (m : M St A) (k : A -> M St B) : M St B :=
  fun p =>
    match m p with
    | (Val a, p') => k a p'
    | (Exc e, p') => (Exc e, p')
    | (Abort why, p') => (Abort why, p')
    | (OutOfFuel, p') => (OutOfFuel, p')
    end.

Definition raise {St A : Type} (e : exn) : M St A := fun p => (Exc e, p).
Definition abort {St A : Type} (why : string) : M St A := fun p => (Abort why, p).
Definition out_of_fuel {St A : Type} : M St A := fun p => (OutOfFuel, p).

(** [assert(c)] *)
Definition assert {St : Type} (c : bool) : M St unit :=
  if c then ret tt else abort "assertion failed".

(** [try { m } catch (BLOCK_DNE&) { h }] *)
Definition catch_BLOCK_DNE {St A : Type} (m : M St A) (h : M St A) : M St A :=
  fun p =>
    match m p with
    | (Exc BLOCK_DNE, p') => h p'
    | r => r
    end.

(** [try { m } catch (std::exception& e) { h e }]: every exception of the
    model derives from [std::exception]. *)
Definition catch_std_exception {St A : Type} (m : M St A) (h : exn -> M St A) : M St A :=
  fun p =>
    match m p with
    | (Exc e, p') => h e p'
    | r => r
    end.

Notation "'do' x <- m ; k" := (bind m (fun x => k))
  (at level 10, x name, m at level 100, k at level 200).
Notation "'do' ' pat <- m ; k" := (bind m (fun x => match x with pat => k end))
  (at level 10, pat pattern, m at level 100, k at level 200).
Notation "m1 >;> m2" := (bind m1 (fun _ => m2))
  (at level 100, m2 at level 200, right associativity).

Inductive log_record :=
| MWARNING (text : string) (args : list Z)
| MDEBUG (text : string) (args : list Z)
| MERROR (text : string) (args : list Z).

(** ** Update handlers

    A handler is a [std::function]; calling it returns or throws.  The calls
    made are recorded, in order, next to the log. *)

Inductive handler_result :=
| handler_returns
| handler_throws (what_arg : string).

Definition supernode_stakes_update_handler : Type :=
  Z -> list supernode_stake -> list supernode_disqualification -> handler_result.

Definition blockchain_based_list_update_handler : Type :=
  Z -> hash -> Tiers -> handler_result.

Inductive handler_call :=
| stakes_update_call (block_index : Z) (stakes : list supernode_stake)
    (disquals : list supernode_disqualification)
| blockchain_based_list_update_call (height : Z) (block_hash : hash) (snapshot : Tiers).

Definition STAKE_TRANSACTION_STORAGE_FILE_NAME : string := "stake_transactions.v2.bin".
Definition BLOCKCHAIN_BASED_LIST_FILE_NAME : string := "blockchain_based_list.v5.bin".

Definition SYNC_DEBUG_LOG_STEP : Z := 10000.
Definition MAX_ITERATIONS_COUNT : Z := 10000.

(** ** The processor *)

Section Processor.
Context {cfg : graft_config} {codec : Codec} {crypto : Crypto}
  {generator : SampleGenerator} {chain : Blockchain}.
Context {sts bbl : Type} {storage_ops : StakeStorage sts}
  {list_ops : BlockchainBasedList sts bbl}.

(** [StakeTransactionProcessor]: its data members, then the two records of
    its effects on the outside (log lines, handler calls; oldest first). *)
Record processor := {
  m_config_dir : string;
  m_storage : option sts;
  m_blockchain_based_list : option bbl;
  m_on_stakes_update : option supernode_stakes_update_handler;
  m_on_blockchain_based_list_update : option blockchain_based_list_update_handler;
  m_stakes_need_update : bool;
  m_blockchain_based_list_need_update : bool;
  logged : list log_record;
  handler_calls : list handler_call
}.

(** The constructor: both flags start set. *)
Definition new_processor : processor :=
  {| m_config_dir := EmptyString;
     m_storage := None;
     m_blockchain_based_list := None;
     m_on_stakes_update := None;
     m_on_blockchain_based_list_update := None;
     m_stakes_need_update := true;
     m_blockchain_based_list_need_update := true;
     logged := [];
     handler_calls := [] |}.

Definition with_config_dir (d : string) (p : processor) : processor :=
  {| m_config_dir := d;
     m_storage := m_storage p;
     m_blockchain_based_list := m_blockchain_based_list p;
     m_on_stakes_update := m_on_stakes_update p;
     m_on_blockchain_based_list_update := m_on_blockchain_based_list_update p;
     m_stakes_need_update := m_stakes_need_update p;
     m_blockchain_based_list_need_update := m_blockchain_based_list_need_update p;
     logged := logged p;
     handler_calls := handler_calls p |}.

Definition with_storage (s : option sts) (p : processor) : processor :=
  {| m_config_dir := m_config_dir p;
     m_storage := s;
     m_blockchain_based_list := m_blockchain_based_list p;
     m_on_stakes_update := m_on_stakes_update p;
     m_on_blockchain_based_list_update := m_on_blockchain_based_list_update p;
     m_stakes_need_update := m_stakes_need_update p;
     m_blockchain_based_list_need_update := m_blockchain_based_list_need_update p;
     logged := logged p;
     handler_calls := handler_calls p |}.

Definition with_blockchain_based_list (l : option bbl) (p : processor) : processor :=
  {| m_config_dir := m_config_dir p;
     m_storage := m_storage p;
     m_blockchain_based_list := l;
     m_on_stakes_update := m_on_stakes_update p;
     m_on_blockchain_based_list_update := m_on_blockchain_based_list_update p;
     m_stakes_need_update := m_stakes_need_update p;
     m_blockchain_based_list_need_update := m_blockchain_based_list_need_update p;
     logged := logged p;
     handler_calls := handler_calls p |}.

Definition with_on_stakes_update (h : option supernode_stakes_update_handler)
    (p : processor) : processor :=
  {| m_config_dir := m_config_dir p;
     m_storage := m_storage p;
     m_blockchain_based_list := m_blockchain_based_list p;
     m_on_stakes_update := h;
     m_on_blockchain_based_list_update := m_on_blockchain_based_list_update p;
     m_stakes_need_update := m_stakes_need_update p;
     m_blockchain_based_list_need_update := m_blockchain_based_list_need_update p;
     logged := logged p;
     handler_calls := handler_calls p |}.

Definition with_on_blockchain_based_list_update
    (h : option blockchain_based_list_update_handler) (p : processor) : processor :=
  {| m_config_dir := m_config_dir p;
     m_storage := m_storage p;
     m_blockchain_based_list := m_blockchain_based_list p;
     m_on_stakes_update := m_on_stakes_update p;
     m_on_blockchain_based_list_update := h;
     m_stakes_need_update := m_stakes_need_update p;
     m_blockchain_based_list_need_update := m_blockchain_based_list_need_update p;
     logged := logged p;
     handler_calls := handler_calls p |}.

Definition with_stakes_need_update (b : bool) (p : processor) : processor :=
  {| m_config_dir := m_config_dir p;
     m_storage := m_storage p;
     m_blockchain_based_list := m_blockchain_based_list p;
     m_on_stakes_update := m_on_stakes_update p;
     m_on_blockchain_based_list_update := m_on_blockchain_based_list_update p;
     m_stakes_need_update := b;
     m_blockchain_based_list_need_update := m_blockchain_based_list_need_update p;
     logged := logged p;
     handler_calls := handler_calls p |}.

Definition with_blockchain_based_list_need_update (b : bool) (p : processor) : processor :=
  {| m_config_dir := m_config_dir p;
     m_storage := m_storage p;
     m_blockchain_based_list := m_blockchain_based_list p;
     m_on_stakes_update := m_on_stakes_update p;
     m_on_blockchain_based_list_update := m_on_blockchain_based_list_update p;
     m_stakes_need_update := m_stakes_need_update p;
     m_blockchain_based_list_need_update := b;
     logged := logged p;
     handler_calls := handler_calls p |}.

Definition with_logged (r : log_record) (p : processor) : processor :=
  {| m_config_dir := m_config_dir p;
     m_storage := m_storage p;
     m_blockchain_based_list := m_blockchain_based_list p;
     m_on_stakes_update := m_on_stakes_update p;
     m_on_blockchain_based_list_update := m_on_blockchain_based_list_update p;
     m_stakes_need_update := m_stakes_need_update p;
     m_blockchain_based_list_need_update := m_blockchain_based_list_need_update p;
     logged := logged p ++ [r];
     handler_calls := handler_calls p |}.

Definition with_handler_call (c : handler_call) (p : processor) : processor :=
  {| m_config_dir := m_config_dir p;
     m_storage := m_storage p;
     m_blockchain_based_list := m_blockchain_based_list p;
     m_on_stakes_update := m_on_stakes_update p;
     m_on_blockchain_based_list_update := m_on_blockchain_based_list_update p;
     m_stakes_need_update := m_stakes_need_update p;
     m_blockchain_based_list_need_update := m_blockchain_based_list_need_update p;
     logged := logged p;
     handler_calls := handler_calls p ++ [c] |}.

Definition action (A : Type) : Type := M processor A.

Definition get : action processor := fun p => (Val p, p).
Definition modify (f : processor -> processor) : action unit := fun p => (Val tt, f p).

Definition warning (text : string) (args : list Z) : action unit := modify (with_logged (MWARNING text args)).
Definition debug (text : string) (args : list Z) : action unit := modify (with_logged (MDEBUG text args)).
Definition error (text : string) (args : list Z) : action unit := modify (with_logged (MERROR text args)).

(** [*m_storage]; dereferencing a null [unique_ptr] is undefined. *)
Definition storage : action sts :=
  fun p =>
    match m_storage p with
    | Some s => (Val s, p)
    | None => (Abort "m_storage is null", p)
    end.

(** [*m_blockchain_based_list] *)
Definition blockchain_based_list : action bbl :=
  fun p =>
    match m_blockchain_based_list p with
    | Some l => (Val l, p)
    | None => (Abort "m_blockchain_based_list is null", p)
    end.

(** A mutating member function called through [m_storage->]. *)
Definition on_storage (f : sts -> sts) : action unit :=
  do s <- storage; modify (with_storage (Some (f s))).

(** A mutating member function called through [m_blockchain_based_list->]. *)
Definition on_blockchain_based_list (f : bbl -> bbl) : action unit :=
  do l <- blockchain_based_list; modify (with_blockchain_based_list (Some (f l))).

(** [m_blockchain.get_block_id_by_height], throwing [BLOCK_DNE]. *)
Definition block_id_by_height (height : Z) : action hash :=
  match get_block_id_by_height height with
  | Some h => ret h
  | None => raise BLOCK_DNE
  end.

(** [StakeTransactionProcessor::find_supernode_stake] *)
Definition find_supernode_stake (block_number : Z) (id : string) (p : processor)
    : option supernode_stake :=
  match m_storage p with
  | None => None
  | Some s => storage_find_supernode_stake block_number id s
  end.

Definition storages_initialized (p : processor) : bool :=
  bool_decide (is_Some (m_storage p)) || bool_decide (is_Some (m_blockchain_based_list p)).

Definition ALREADY_INITIALIZED : string :=
  "StakeTransactionProcessor storages have been already initialized".

(** [StakeTransactionProcessor::init_storages] *)
Definition init_storages (config_dir : string) : action unit :=
  do p <- get;
  if storages_initialized p then raise (std_runtime_error ALREADY_INITIALIZED)
  else modify (with_config_dir config_dir).

Definition storage_file (config_dir name : string) : string :=
  if String.eqb config_dir EmptyString then config_dir
  else String.append config_dir (String.append "/" name).

(** [StakeTransactionProcessor::init_storages_impl] *)
Definition init_storages_impl : action unit :=
  do p <- get;
  if storages_initialized p then raise (std_runtime_error ALREADY_INITIALIZED)
  else
    let first_block_number :=
      get_earliest_ideal_height_for_version STAKE_TRANSACTION_PROCESSING_DB_VERSION in
    let first_block_number :=
      if first_block_number =? 0 then first_block_number else first_block_number - 1 in
    debug "Initialize stake processing storages. First block height is " [first_block_number] >;>
    modify (with_storage (Some (storage_open
      (storage_file (m_config_dir p) STAKE_TRANSACTION_STORAGE_FILE_NAME) first_block_number))) >;>
    modify (with_blockchain_based_list (Some (list_open
      (storage_file (m_config_dir p) BLOCKCHAIN_BASED_LIST_FILE_NAME) first_block_number))).

(** *** Committees

    [makeBBLindexes]: for each tier [t], the pairs [(t, 0) .. (t, size-1)]. *)
Definition makeBBLindexes (bbl_tiers : Tiers) : list (list TI) :=
  map (fun t => map (fun idx => (t, idx)) (seq 0 (length (nth t bbl_tiers []))))
      (seq 0 TIERS).

(** [fromIndexes]: the identifiers at the given places.  [bbl_tiers[t][i]]
    is unchecked in the source, and the decoding is under an [assert]. *)
Fixpoint fromIndexes (bbl_tiers : Tiers) (idxs : list TI) : action (list public_key) :=
  match idxs with
  | [] => ret []
  | (t, i) :: rest =>
      match bbl_tiers !! t ≫= (fun tier => tier !! i) with
      | None => abort "index out of range"
      | Some entry =>
          match hex_to_pod (tier_supernode_public_id entry) with
          | None => abort "assertion failed"
          | Some id => do res <- fromIndexes bbl_tiers rest; ret (id :: res)
          end
      end
  end.

(** [std::none_of(v.begin(), v.end(), [&](public_key& x) { return x == id; })] *)
Definition none_of (id : public_key) (v : list public_key) : bool :=
  negb (existsb (fun x => x =? id) v).

(** The text of a log record is the literal text of the source line, with
    [{}] where a value is streamed in; the values that are numbers, hashes or
    keys are the arguments of the record. *)
Definition IGNORE_DISQUALIFICATION : string :=
  "Ignore invalid disqualification transaction, tx_hash={}".
Definition IGNORE_DISQUALIFICATION2 : string :=
  "Ignore invalid disqualification2 transaction, tx_hash={}".

(** The loop over the signers: the first one outside [sample] is reported. *)
Fixpoint check_signers (text : string) (tx_hash : hash) (sample : list public_key)
    (sigs : list signer_item) : action bool :=
  match sigs with
  | [] => ret true
  | si :: rest =>
      if none_of (signer_id si) sample then
        warning text [tx_hash; signer_id si] >;> ret false
      else check_signers text tx_hash sample rest
  end.

(** The loop over the disqualified identifiers of a version 124
    transaction. *)
Fixpoint check_ids (tx_hash : hash) (auths : list public_key)
    (l : list public_key) : action bool :=
  match l with
  | [] => ret true
  | id :: rest =>
      if none_of id auths then
        warning (String.append IGNORE_DISQUALIFICATION2
                   "; disqualified id {} is not in the auth sample") [tx_hash; id] >;>
        ret false
      else check_ids tx_hash auths rest
  end.

(** [StakeTransactionProcessor::check_disqualification_transaction] *)
Definition check_disqualification_transaction (tx : transaction) (tx_hash : hash)
    : action bool :=
  assert (version tx =? 123) >;>
  match graft_check_disqualification tx with
  | None => warning IGNORE_DISQUALIFICATION [tx_hash] >;> ret false
  | Some disq_extra =>
      do b_hash <- block_id_by_height (block_height_of (item disq_extra));
      if negb (b_hash =? block_hash_of (item disq_extra)) then
        warning (String.append IGNORE_DISQUALIFICATION "; invalid block_hash ") [tx_hash] >;> ret false
      else
        do l <- blockchain_based_list;
        let depth := sub64 (block_height l) (block_height_of (item disq_extra)) in
        if history_depth l <=? depth then
          warning (String.append IGNORE_DISQUALIFICATION "; out of history ") [tx_hash] >;> ret false
        else if Z.of_nat (length (signers disq_extra)) <? REQUIRED_BBQS_VOTES then
          warning (String.append IGNORE_DISQUALIFICATION "; lack of signers ") [tx_hash] >;> ret false
        else
          let snapshot := tiers depth l in
          let bbl_idxs := makeBBLindexes snapshot in
          let '(bbqs_idxs, qcl_idxs) :=
            select_BBQS_QCL (block_hash_of (item disq_extra)) bbl_idxs in
          do bbqs <- fromIndexes snapshot bbqs_idxs;
          do qcl <- fromIndexes snapshot qcl_idxs;
          if none_of (id_of (item disq_extra)) qcl then
            warning (String.append IGNORE_DISQUALIFICATION "; disqualified id {} is not in QCL")
              [tx_hash; id_of (item disq_extra)] >;> ret false
          else check_signers (String.append IGNORE_DISQUALIFICATION "; signer id {} is not in BBQS")
              tx_hash bbqs (signers disq_extra)
  end.

(** [StakeTransactionProcessor::check_disqualification2_transaction] *)
Definition check_disqualification2_transaction (tx : transaction) (tx_hash : hash)
    : action bool :=
  assert (version tx =? 124) >;>
  match graft_check_disqualification2 tx with
  | None => warning IGNORE_DISQUALIFICATION2 [tx_hash] >;> ret false
  | Some disq_extra =>
      do b_hash <- block_id_by_height (block_height_of2 (item2 disq_extra));
      if negb (b_hash =? block_hash_of2 (item2 disq_extra)) then
        warning (String.append IGNORE_DISQUALIFICATION2 "; invalid block_hash ") [tx_hash] >;> ret false
      else
        do l <- blockchain_based_list;
        let depth := sub64 (block_height l) (block_height_of2 (item2 disq_extra)) in
        if history_depth l <=? depth then
          warning (String.append IGNORE_DISQUALIFICATION2 "; out of history ") [tx_hash] >;> ret false
        else if Z.of_nat (length (signers2 disq_extra)) <? REQUIRED_DISQUAL2_VOTES then
          warning (String.append IGNORE_DISQUALIFICATION2 "; lack of signers ") [tx_hash] >;> ret false
        else
          let snapshot := tiers depth l in
          let bbl_idxs := makeBBLindexes snapshot in
          let auths_idxs := select_AuthSample (payment_id (item2 disq_extra)) bbl_idxs in
          do auths <- fromIndexes snapshot auths_idxs;
          do ids_ok <- check_ids tx_hash auths (ids (item2 disq_extra));
          if ids_ok then
            check_signers
              (String.append IGNORE_DISQUALIFICATION2 "; signer id {} is not in the auth sample")
              tx_hash auths (signers2 disq_extra)
          else ret false
  end.

(** *** Transactions of a block *)

(** [StakeTransactionProcessor::process_disqualification_transaction]: the
    record is pushed onto the vector [disquals] of the caller. *)
Definition process_disqualification_transaction (tx : transaction) (tx_hash : hash)
    (block_index : Z) (disquals : list disqualification) : action (list disqualification) :=
  assert (version tx =? 123) >;>
  match graft_get_disqualification tx with
  | None =>
      warning "Ignore invalid disqualification transaction at block #{}, tx_hash={}"
        [block_index; tx_hash] >;>
      ret disquals
  | Some disq_extra =>
      let disq :=
        {| blob := dump_binary disq_extra;
           block_index_of := block_index;
           disq_id := id_of (item disq_extra);
           id_str := pod_to_hex (id_of (item disq_extra)) |} in
      debug "New disqualification transaction found at block #{}, tx_hash={}, supernode_id '{}'"
        [block_index; tx_hash; disq_id disq] >;>
      ret (disquals ++ [disq])
  end.

(** [StakeTransactionProcessor::process_disqualification2_transaction] *)
Definition process_disqualification2_transaction (tx : transaction) (tx_hash : hash)
    (block_index : Z) (disquals2 : list disqualification2_storage_item)
    : action (list disqualification2_storage_item) :=
  assert (version tx =? 124) >;>
  match graft_get_disqualification2 tx with
  | None =>
      warning "Ignore invalid disqualification2 transaction at block #{}, tx_hash={}"
        [block_index; tx_hash] >;>
      ret disquals2
  | Some disq_extra =>
      let disq := {| blob2 := dump_binary2 disq_extra; block_index_of2 := block_index |} in
      debug "New disqualification transaction found at block #{}, tx_hash={}, disqualified supernode ids {}"
        (block_index :: tx_hash :: ids (item2 disq_extra)) >;>
      ret (disquals2 ++ [disq])
  end.

(** [hex_to_pod(id, W) && check_key(W)] *)
Definition decode_public_id (id : string) : option public_key :=
  match hex_to_pod id with
  | Some W => if check_key W then Some W else None
  | None => None
  end.

(** The hash the supernode signs: the fast hash of the address as a string,
    [":"] and the public identifier. *)
Definition stake_signed_hash (e : stake_tx_extra) : hash :=
  let is_subaddress := false in
  let supernode_public_address_str :=
    get_account_address_as_str nettype is_subaddress (extra_supernode_public_address e) in
  let data :=
    String.append supernode_public_address_str
      (String.append ":" (extra_supernode_public_id e)) in
  cn_fast_hash data.

Definition IGNORE_STAKE : string :=
  "Ignore stake transaction at block #{}, tx_hash={}".

(** The body of the loop over the transactions of a block, for a
    transaction that is no disqualification (versions other than 123 and
    124): each failed check is a [continue]; where the decoding of the
    amount reads a vector out of range the behaviour is undefined. *)
Definition process_stake_transaction (block_index : Z) (tx : transaction) (tx_hash : hash)
    : action unit :=
  match get_graft_stake_tx_extra_from_extra tx with
  | None => ret tt
  | Some e =>
      match decode_public_id (extra_supernode_public_id e) with
      | None =>
          warning (String.append IGNORE_STAKE " because of invalid supernode public identifier '{}'")
            [block_index; tx_hash]
      | Some W =>
          if negb (check_signature (stake_signed_hash e) W (extra_supernode_signature e)) then
            warning (String.append IGNORE_STAKE
                       ", supernode_public_id '{}' because of invalid supernode signature (mismatch)")
              [block_index; tx_hash]
          else
            let unlock_time := sub64 (unlock_time tx) block_index in
            if unlock_time <? STAKE_MIN_UNLOCK_TIME then
              warning (String.append IGNORE_STAKE
                         ", supernode_public_id '{}' because unlock time {} is less than minimum allowed {}")
                [block_index; tx_hash; unlock_time; STAKE_MIN_UNLOCK_TIME]
            else if unlock_time >? STAKE_MAX_UNLOCK_TIME then
              warning (String.append IGNORE_STAKE
                         ", supernode_public_id '{}' because unlock time {} is greater than maximum allowed {}")
                [block_index; tx_hash; unlock_time; STAKE_MAX_UNLOCK_TIME]
            else
              match get_transaction_amount tx (extra_supernode_public_address e)
                      (extra_tx_secret_key e) with
              | None => abort "index out of range"
              | Some amount =>
                  if amount =? 0 then
                    warning (String.append IGNORE_STAKE
                               ", supernode_public_id '{}' because of error at parsing amount")
                      [block_index; tx_hash]
                  else
                    let stake_tx :=
                      {| stx_hash := tx_hash;
                         stx_amount := amount;
                         stx_block_height := block_index;
                         stx_unlock_time := unlock_time;
                         supernode_public_id := extra_supernode_public_id e;
                         supernode_public_address := extra_supernode_public_address e;
                         supernode_signature := extra_supernode_signature e;
                         tx_secret_key := extra_tx_secret_key e |} in
                    on_storage (add_tx stake_tx) >;>
                    debug "New stake transaction found at block #{}, tx_hash={}, supernode_public_id '{}', amount={}"
                      [block_index; tx_hash; amount]
              end
      end
  end.

(** The vectors [disquals] and [disquals2] of
    [process_block_stake_transaction]. *)
Definition batches : Type :=
  (list disqualification * list disqualification2_storage_item)%type.

(** One turn of the loop over the transactions of a block.  An exception
    thrown by the body is caught, logged, and the loop goes on; the vectors
    are only pushed onto by the last statement of the two disqualification
    routines, so they are as before when a body throws. *)
Definition process_transaction (block_index : Z) (block_hash : hash) (tx : transaction)
    (acc : batches) : action batches :=
  let tx_hash := get_transaction_prefix_hash tx in
  catch_std_exception
    (if version tx =? 123 then
       do disquals <- process_disqualification_transaction tx tx_hash block_index (fst acc);
       ret (disquals, snd acc)
     else if version tx =? 124 then
       do disquals2 <- process_disqualification2_transaction tx tx_hash block_index (snd acc);
       ret (fst acc, disquals2)
     else
       process_stake_transaction block_index tx tx_hash >;> ret acc)
    (fun e =>
       warning "Ignore transaction at block #{}, tx_hash={} because of error at parsing: {}"
         [block_index; tx_hash] >;>
       ret acc).

(** [for (const transaction& tx : txs)] *)
Fixpoint process_transactions (block_index : Z) (block_hash : hash)
    (txs : list transaction) (acc : batches) : action batches :=
  match txs with
  | [] => ret acc
  | tx :: rest =>
      do acc' <- process_transaction block_index block_hash tx acc;
      process_transactions block_index block_hash rest acc'
  end.

(** The report of the hashes [get_transactions] could not find. *)
Definition report_missed (block_index : Z) (missed_txs : list hash) : action unit :=
  if bool_decide (missed_txs = []) then ret tt
  else
    warning "Some transactions for block #{} have been missed:" [block_index] >;>
    fold_right (fun tx_hash k => warning "  {}" [tx_hash] >;> k) (ret tt) missed_txs.

(** The end of [process_block_stake_transaction]: the block is recorded as
    processed and the storage is saved on request. *)
Definition record_processed_block (block_index : Z) (block_hash : hash)
    (update_storage : bool) : action unit :=
  on_storage (add_last_processed_block block_index block_hash) >;>
  if update_storage then on_storage storage_store else ret tt.

(** [StakeTransactionProcessor::process_block_stake_transaction] *)
Definition process_block_stake_transaction (block_index : Z) (blk : block)
    (block_hash : hash) (update_storage : bool) : action unit :=
  do s <- storage;
  if block_index <=? get_last_processed_block_index s then ret tt
  else if get_hard_fork_version block_index >=? STAKE_TRANSACTION_PROCESSING_DB_VERSION then
    match get_transactions (tx_hashes blk) with
    | None => warning "Unable to get transactions for block #{}" [block_index]
    | Some (txs, missed_txs) =>
        report_missed block_index missed_txs >;>
        do '(disquals, disquals2) <- process_transactions block_index block_hash txs ([], []);
        on_storage (add_disquals disquals) >;>
        on_storage (add_disquals2 disquals2) >;>
        modify (with_stakes_need_update true) >;>
        on_storage (update_supernode_stakes block_index) >;>
        record_processed_block block_index block_hash update_storage
    end
  else record_processed_block block_index block_hash update_storage.

(** [StakeTransactionProcessor::process_block_blockchain_based_list] *)
Definition process_block_blockchain_based_list (block_index : Z) (blk : block)
    (block_hash : hash) (update_storage : bool) : action unit :=
  do l <- blockchain_based_list;
  let prev_block_height := block_height l in
  do s <- storage;
  on_blockchain_based_list (apply_block block_index block_hash s) >;>
  do l' <- blockchain_based_list;
  if list_need_store l' || negb (prev_block_height =? block_height l') then
    modify (with_blockchain_based_list_need_update true) >;>
    if update_storage then on_blockchain_based_list list_store else ret tt
  else ret tt.

(** [StakeTransactionProcessor::process_block] *)
Definition process_block (block_index : Z) (blk : block) (block_hash : hash)
    (update_storage : bool) : action unit :=
  process_block_stake_transaction block_index blk block_hash update_storage >;>
  process_block_blockchain_based_list block_index blk block_hash update_storage.

(** *** Update handlers *)

(** A call of [m_on_stakes_update]; calling an empty [std::function] throws
    [std::bad_function_call]. *)
Definition call_on_stakes_update (block_index : Z) (stakes : list supernode_stake)
    (disquals : list supernode_disqualification) : action unit :=
  do p <- get;
  match m_on_stakes_update p with
  | None => raise (std_exception "bad_function_call")
  | Some handler =>
      modify (with_handler_call (stakes_update_call block_index stakes disquals)) >;>
      match handler block_index stakes disquals with
      | handler_returns => ret tt
      | handler_throws w => raise (std_exception w)
      end
  end.

(** A call of [m_on_blockchain_based_list_update]. *)
Definition call_on_blockchain_based_list_update (height : Z) (block_hash : hash)
    (snapshot : Tiers) : action unit :=
  do p <- get;
  match m_on_blockchain_based_list_update p with
  | None => raise (std_exception "bad_function_call")
  | Some handler =>
      modify (with_handler_call (blockchain_based_list_update_call height block_hash snapshot)) >;>
      match handler height block_hash snapshot with
      | handler_returns => ret tt
      | handler_throws w => raise (std_exception w)
      end
  end.

(** [StakeTransactionProcessor::set_on_update_stakes_handler] *)
Definition set_on_update_stakes_handler (handler : option supernode_stakes_update_handler)
    : action unit :=
  modify (with_on_stakes_update handler).

(** [StakeTransactionProcessor::invoke_update_stakes_handler_impl] *)
Definition invoke_update_stakes_handler_impl (block_index : Z) : action unit :=
  catch_std_exception
    (do p <- get;
     match m_storage p with
     | None => ret tt
     | Some s =>
         call_on_stakes_update block_index (get_supernode_stakes block_index s)
           (get_supernode_disqualiications block_index s) >;>
         modify (with_stakes_need_update false)
     end)
    (fun e =>
       error (String.append
                "exception in StakeTransactionProcessor stake transactions update handler: "
                (what e)) []).

(** [StakeTransactionProcessor::invoke_update_stakes_handler] *)
Definition invoke_update_stakes_handler (force : bool) : action unit :=
  do p <- get;
  if negb (bool_decide (is_Some (m_on_stakes_update p))) then ret tt
  else if negb (m_stakes_need_update p) && negb force then ret tt
  else invoke_update_stakes_handler_impl (sub64 get_db_height 1).

(** [StakeTransactionProcessor::set_on_update_blockchain_based_list_handler] *)
Definition set_on_update_blockchain_based_list_handler
    (handler : option blockchain_based_list_update_handler) : action unit :=
  modify (with_on_blockchain_based_list_update handler).

(** The loop [for (size_t i = 0; i < depth; i++)] of
    [invoke_update_blockchain_based_list_handler_impl], from [i] on, with
    [n] turns left. *)
Fixpoint publish_snapshots (l : bbl) (height : Z) (i : Z) (n : nat) : action unit :=
  match n with
  | O => ret tt
  | S n' =>
      let block_height := sub64 height i in
      do block_hash <- block_id_by_height block_height;
      call_on_blockchain_based_list_update block_height block_hash (tiers i l) >;>
      publish_snapshots l height (i + 1) n'
  end.

(** The depth after the two clamps. *)
Definition clamp_depth (l : bbl) (depth : Z) : Z :=
  let depth := if depth >? history_depth l then history_depth l else depth in
  if depth >? SUPERNODE_HISTORY_SIZE then SUPERNODE_HISTORY_SIZE else depth.

(** [StakeTransactionProcessor::invoke_update_blockchain_based_list_handler_impl] *)
Definition invoke_update_blockchain_based_list_handler_impl (depth : Z) : action unit :=
  catch_std_exception
    (do p <- get;
     match m_blockchain_based_list p with
     | None => ret tt
     | Some l =>
         if block_height l =? 0 then ret tt
         else
           let depth := clamp_depth l depth in
           let height := block_height l in
           publish_snapshots l height 0 (Z.to_nat depth) >;>
           modify (with_blockchain_based_list_need_update false)
     end)
    (fun e =>
       error (String.append
                "exception in StakeTransactionProcessor blockchain based list update handler: "
                (what e)) []).

(** [StakeTransactionProcessor::invoke_update_blockchain_based_list_handler] *)
Definition invoke_update_blockchain_based_list_handler (force : bool) (depth : Z)
    : action unit :=
  do p <- get;
  if negb (bool_decide (is_Some (m_on_blockchain_based_list_update p))) then ret tt
  else
    let force := if depth >? 1 then true else force in
    if negb (m_blockchain_based_list_need_update p) && negb force then ret tt
    else invoke_update_blockchain_based_list_handler_impl depth.

(** *** Synchronisation *)

(** What the comparison of the last processed block with the blockchain
    gives: the hashes agree ([break]), they differ or the block is at or
    above the height (unroll), or the blockchain has no such block
    ([return]). *)
Inductive probe :=
| tail_agrees
| tail_differs
| block_missing.

Definition probe_last_processed_block (s : sts) (height : Z) : action probe :=
  let last_processed_block_index := get_last_processed_block_index s in
  if last_processed_block_index <? height then
    catch_BLOCK_DNE
      (let last_processed_block_hash := get_last_processed_block_hash s in
       do last_blockchain_block_hash <- block_id_by_height last_processed_block_index;
       if last_processed_block_hash =? last_blockchain_block_hash then ret tail_agrees
       else ret tail_differs)
      (ret block_missing)
  else ret tail_differs.

(** The second half of the body of the unroll loop. *)
Definition unroll_last_processed_block (last_processed_block_index stake_tx_count height : Z)
    : action unit :=
  warning "Stake transactions processing: unroll block {} (height={})"
    [last_processed_block_index; height] >;>
  on_storage remove_last_processed_block >;>
  do s <- storage;
  (if negb (stake_tx_count =? get_tx_count s) then on_storage clear_supernode_stakes
   else ret tt) >;>
  do l <- blockchain_based_list;
  if block_height l =? last_processed_block_index then
    on_blockchain_based_list remove_latest_block
  else ret tt.

(** How the unroll loop is left: by its condition or its [break], or by the
    [return] that leaves [synchronize]. *)
Inductive unroll_exit :=
| unroll_done
| unroll_wait.

Inductive unroll_status :=
| unroll_stop (e : unroll_exit)
| unroll_again.

(** The test and the body of
    [while (m_storage->has_last_processed_block())]. *)
Definition unroll_step (height : Z) : action unroll_status :=
  do s <- storage;
  if negb (has_last_processed_block s) then ret (unroll_stop unroll_done)
  else
    let stake_tx_count := get_tx_count s in
    let last_processed_block_index := get_last_processed_block_index s in
    do r <- probe_last_processed_block s height;
    match r with
    | tail_agrees => ret (unroll_stop unroll_done)
    | block_missing => ret (unroll_stop unroll_wait)
    | tail_differs =>
        unroll_last_processed_block last_processed_block_index stake_tx_count height >;>
        ret unroll_again
    end.

(** The unroll loop; [fuel] bounds the number of turns. *)
Fixpoint unroll (fuel : nat) (height : Z) : action unroll_exit :=
  match fuel with
  | O => out_of_fuel
  | S fuel' =>
      do r <- unroll_step height;
      match r with
      | unroll_stop e => ret e
      | unroll_again => unroll fuel' height
      end
  end.

(** The first block to apply: the one after the last processed block, or
    the one after the tip of the blockchain based list when that is lower. *)
Definition first_block_index_of (s : sts) (l : bbl) : Z :=
  let first_block_index := add64 (get_last_processed_block_index s) 1 in
  if first_block_index >? add64 (block_height l) 1 then add64 (block_height l) 1
  else first_block_index.

Definition last_block_index_for_sync_of (first_block_index height : Z) : Z :=
  let last_block_index := first_block_index in
  let last_block_index_for_sync := height in
  if sub64 last_block_index_for_sync last_block_index >? MAX_ITERATIONS_COUNT then
    add64 first_block_index MAX_ITERATIONS_COUNT
  else last_block_index_for_sync.

(** The number of turns [for (; last_block_index < last_block_index_for_sync;
    last_block_index++)] takes when nothing leaves it early. *)
Definition sync_iterations (first_block_index height : Z) : nat :=
  Z.to_nat (last_block_index_for_sync_of first_block_index height - first_block_index).

(** The body of the forward loop; [false] is its [break]. *)
Definition apply_block_at (last_block_index height : Z) : action bool :=
  (if (last_block_index mod SYNC_DEBUG_LOG_STEP =? 0) || (last_block_index =? sub64 height 1)
   then debug "RTA block sync {}/{}" [last_block_index; sub64 height 1]
   else ret tt) >;>
  catch_BLOCK_DNE
    (do block_hash <- block_id_by_height last_block_index;
     match get_block_by_hash block_hash with
     | None =>
         warning "Block with hash {} has not been found" [block_hash] >;>
         raise (std_runtime_error "Error at parsing blockchain. Block hash has not been found")
     | Some blk => process_block last_block_index blk block_hash false >;> ret true
     end)
    (ret false).

(** The forward loop, with [n] turns left; it returns the final
    [last_block_index]. *)
Fixpoint apply_new_blocks (n : nat) (last_block_index height : Z) : action Z :=
  match n with
  | O => ret last_block_index
  | S n' =>
      do go_on <- apply_block_at last_block_index height;
      if go_on then apply_new_blocks n' (add64 last_block_index 1) height
      else ret last_block_index
  end.

(** What [synchronize] does once the forward loop is over. *)
Definition store_and_publish (first_block_index last_block_index height : Z) : action unit :=
  do l <- blockchain_based_list;
  (if list_need_store l then on_blockchain_based_list list_store else ret tt) >;>
  do s <- storage;
  (if storage_need_store s then on_storage storage_store else ret tt) >;>
  if last_block_index =? height then
    do p <- get;
    (if m_stakes_need_update p && bool_decide (is_Some (m_on_stakes_update p)) then
       invoke_update_stakes_handler_impl (sub64 last_block_index 1)
     else ret tt) >;>
    do p <- get;
    (if m_blockchain_based_list_need_update p
        && bool_decide (is_Some (m_on_blockchain_based_list_update p)) then
       invoke_update_blockchain_based_list_handler_impl
         (sub64 last_block_index first_block_index)
     else ret tt) >;>
    if negb (first_block_index =? last_block_index) then debug "Stake transactions sync OK" []
    else ret tt
  else ret tt.

(** The part of [synchronize] after the unroll loop. *)
Definition apply_new (height : Z) : action unit :=
  do s <- storage;
  do l <- blockchain_based_list;
  let first_block_index := first_block_index_of s l in
  do last_block_index <-
    apply_new_blocks (sync_iterations first_block_index height) first_block_index height;
  store_and_publish first_block_index last_block_index height.

(** [StakeTransactionProcessor::synchronize]; the two locks it takes have no
    counterpart in a sequential model. *)
Definition synchronize (fuel : nat) : action unit :=
  let height := get_current_blockchain_height in
  if (height =? 0)
     || (get_hard_fork_version (sub64 height 1) <? STAKE_TRANSACTION_PROCESSING_DB_VERSION)
  then ret tt
  else
    do p <- get;
    (if negb (bool_decide (is_Some (m_storage p)))
        || negb (bool_decide (is_Some (m_blockchain_based_list p)))
     then init_storages_impl else ret tt) >;>
    catch_std_exception
      (do e <- unroll fuel height;
       match e with
       | unroll_wait => ret tt
       | unroll_done => apply_new height
       end)
      (fun e => warning (what e) []).

End Processor.

(** ** The two stores, from their descriptions

    The classes [StakeTransactionStorage] and [BlockchainBasedList] are
    defined in other files.  The models below follow the specification of
    the stores; they give the processor something to run on, and the
    theorems about the processor hold for every implementation of the two
    interfaces. *)

Module StorageModel.
Section WithConfig.
Context {cfg : graft_config}.

(** Modelled from the spec: the state of the stake transaction storage
    ([StakeTransactionStorage], stake_transaction_storage.h/.cpp): the
    accepted stake transactions, the two sequences of disqualifications, the
    chain of processed blocks (kept newest first: the head is the last
    processed block), the per-block index of supernode stakes and the
    need-store mark.  [first_block_number] is the seed given at creation; the
    specification does not say what the last processed index of an empty chain
    is, the model answers with the seed. *)
Record state := {
  txs : list stake_transaction;
  disquals_v1 : list disqualification;
  disquals_v2 : list disqualification2_storage_item;
  processed_chain : list (Z * hash);
  supernode_stakes : gmap Z (gmap string Z);
  first_block_number : Z;
  dirty : bool
}.

(** Modelled from the spec: a storage created with a seed holds nothing (a
    file to load from is outside the model). *)
Definition open (file : string) (first : Z) : state :=
  {| txs := []; disquals_v1 := []; disquals_v2 := []; processed_chain := [];
     supernode_stakes := ∅; first_block_number := first; dirty := false |}.

(** Modelled from the spec: [get_last_processed_block_index], the index of
    the tip of the chain of processed blocks (the seed when it is empty). *)
Definition last_index (s : state) : Z :=
  match processed_chain s with
  | (idx, _) :: _ => idx
  | [] => first_block_number s
  end.

(** Modelled from the spec: [get_last_processed_block_hash], the hash of
    the tip (the null hash when the chain is empty). *)
Definition last_hash (s : state) : hash :=
  match processed_chain s with
  | (_, h) :: _ => h
  | [] => 0
  end.

(** Modelled from the spec: [has_last_processed_block]. *)
Definition has_last (s : state) : bool :=
  match processed_chain s with
  | _ :: _ => true
  | [] => false
  end.

(** Modelled from the spec: [get_tx_count], the number of stake
    transactions held. *)
Definition tx_count (s : state) : Z := Z.of_nat (length (txs s)).

(** Modelled from the spec: [add_tx] appends; a second insert of the same
    [tx_hash] is ignored. *)
Definition add (tx : stake_transaction) (s : state) : state :=
  if existsb (fun t => stx_hash t =? stx_hash tx) (txs s) then s
  else
    {| txs := txs s ++ [tx]; disquals_v1 := disquals_v1 s; disquals_v2 := disquals_v2 s;
       processed_chain := processed_chain s; supernode_stakes := supernode_stakes s;
       first_block_number := first_block_number s; dirty := true |}.

(** Modelled from the spec: [add_disquals] appends a batch. *)
Definition add_v1 (batch : list disqualification) (s : state) : state :=
  {| txs := txs s; disquals_v1 := disquals_v1 s ++ batch; disquals_v2 := disquals_v2 s;
     processed_chain := processed_chain s; supernode_stakes := supernode_stakes s;
     first_block_number := first_block_number s; dirty := true |}.

(** Modelled from the spec: [add_disquals2] appends a batch. *)
Definition add_v2 (batch : list disqualification2_storage_item) (s : state) : state :=
  {| txs := txs s; disquals_v1 := disquals_v1 s; disquals_v2 := disquals_v2 s ++ batch;
     processed_chain := processed_chain s; supernode_stakes := supernode_stakes s;
     first_block_number := first_block_number s; dirty := true |}.

(** Modelled from the spec: [add_last_processed_block] pushes onto the chain
    of processed blocks. *)
Definition push (idx : Z) (h : hash) (s : state) : state :=
  {| txs := txs s; disquals_v1 := disquals_v1 s; disquals_v2 := disquals_v2 s;
     processed_chain := (idx, h) :: processed_chain s; supernode_stakes := supernode_stakes s;
     first_block_number := first_block_number s; dirty := true |}.

(** Modelled from the spec: [remove_last_processed_block] pops the tip and
    removes the stake transactions and the disqualifications of that block. *)
Definition pop (s : state) : state :=
  match processed_chain s with
  | [] => s
  | (idx, _) :: rest =>
      {| txs := List.filter (fun t => negb (stx_block_height t =? idx)) (txs s);
         disquals_v1 := List.filter (fun d => negb (block_index_of d =? idx)) (disquals_v1 s);
         disquals_v2 := List.filter (fun d => negb (block_index_of2 d =? idx)) (disquals_v2 s);
         processed_chain := rest; supernode_stakes := supernode_stakes s;
         first_block_number := first_block_number s; dirty := true |}
  end.

(** Modelled from the spec: [clear_supernode_stakes] drops the per-block
    stake index. *)
Definition clear (s : state) : state :=
  {| txs := txs s; disquals_v1 := disquals_v1 s; disquals_v2 := disquals_v2 s;
     processed_chain := processed_chain s; supernode_stakes := ∅;
     first_block_number := first_block_number s; dirty := dirty s |}.

(** Modelled from the spec: the stakes at a block, the amounts of the
    transactions valid there added up under the identifier of their
    supernode. *)
Definition stakes_at (block_index : Z) (l : list stake_transaction) : gmap string Z :=
  foldl (fun (m : gmap string Z) t =>
           if is_valid t block_index then
             <[supernode_public_id t := default 0 (m !! supernode_public_id t) + stx_amount t]> m
           else m)
        ∅ l.

(** Modelled from the spec: [update_supernode_stakes] rebuilds the index at
    a block by a scan of the stake transactions. *)
Definition update (block_index : Z) (s : state) : state :=
  {| txs := txs s; disquals_v1 := disquals_v1 s; disquals_v2 := disquals_v2 s;
     processed_chain := processed_chain s;
     supernode_stakes := <[block_index := stakes_at block_index (txs s)]> (supernode_stakes s);
     first_block_number := first_block_number s; dirty := dirty s |}.

(** Modelled from the spec: [find_supernode_stake], a lookup in the index. *)
Definition find (block_index : Z) (id : string) (s : state) : option supernode_stake :=
  m ← supernode_stakes s !! block_index;
  a ← m !! id;
  Some {| stake_supernode_public_id := id; stake_amount := a |}.

(** Modelled from the spec: [get_supernode_stakes], the index at a block as
    a sequence. *)
Definition stakes (block_index : Z) (s : state) : list supernode_stake :=
  match supernode_stakes s !! block_index with
  | None => []
  | Some m =>
      map (fun kv => {| stake_supernode_public_id := fst kv; stake_amount := snd kv |})
          (map_to_list m)
  end.

(** Modelled from the spec: [get_supernode_disqualiications], the view of
    the disqualifications for the stakes handler.  The specification names it
    without describing it; the model lists the version 123 records of the
    blocks up to [block_index]. *)
Definition disqualifications (block_index : Z) (s : state) : list supernode_disqualification :=
  map (fun d => {| disqualified_id := disq_id d; disqualified_at := block_index_of d |})
      (List.filter (fun d => block_index_of d <=? block_index) (disquals_v1 s)).

(** Modelled from the spec: [store] clears the need-store mark that every
    mutation sets. *)
Definition save (s : state) : state :=
  {| txs := txs s; disquals_v1 := disquals_v1 s; disquals_v2 := disquals_v2 s;
     processed_chain := processed_chain s; supernode_stakes := supernode_stakes s;
     first_block_number := first_block_number s; dirty := false |}.

#[export] Instance ops : StakeStorage state := {|
  storage_open := open;
  get_last_processed_block_index := last_index;
  has_last_processed_block := has_last;
  get_last_processed_block_hash := last_hash;
  get_tx_count := tx_count;
  add_tx := add;
  add_disquals := add_v1;
  add_disquals2 := add_v2;
  update_supernode_stakes := update;
  clear_supernode_stakes := clear;
  add_last_processed_block := push;
  remove_last_processed_block := pop;
  storage_find_supernode_stake := find;
  get_supernode_stakes := stakes;
  get_supernode_disqualiications := disqualifications;
  storage_need_store := dirty;
  storage_store := save
|}.


End WithConfig.
End StorageModel.

Module ListModel.
Section WithStorage.
Context {cfg : graft_config} {sts : Type} {storage_ops : StakeStorage sts}.

(** The construction of the tier arrays from the stakes and the
    disqualifications at a block is left to the domain by the specification;
    the model takes it as given. *)
Context (make_tiers : list supernode_stake -> list supernode_disqualification -> Tiers).

(** Modelled from the spec: the state of the blockchain based list
    ([BlockchainBasedList], blockchain_based_list.h/.cpp): the history of
    snapshots (index, hash, tiers), newest first, of at most
    [SUPERNODE_HISTORY_SIZE] entries. *)
Record state := {
  history : list (Z * hash * Tiers);
  first_block_number : Z;
  dirty : bool
}.

(** Modelled from the spec: a list created with a seed has no snapshot (a
    file to load from is outside the model). *)
Definition open (file : string) (first : Z) : state :=
  {| history := []; first_block_number := first; dirty := false |}.

(** Modelled from the spec: [block_height()] is the index of the tip (of
    the seed, for an empty history). *)
Definition height (l : state) : Z :=
  match history l with
  | (idx, _, _) :: _ => idx
  | [] => first_block_number l
  end.

(** Modelled from the spec: [history_depth()] is
    [min(len(history), window)]. *)
Definition depth (l : state) : Z :=
  Z.min (Z.of_nat (length (history l))) SUPERNODE_HISTORY_SIZE.

(** Modelled from the spec: [tiers(depth)] is the snapshot at a depth, 0
    being the tip. *)
Definition snapshot (d : Z) (l : state) : Tiers :=
  match history l !! Z.to_nat d with
  | Some (_, _, t) => t
  | None => []
  end.

(** Modelled from the spec: [apply_block] pushes the snapshot computed for
    the block and drops the oldest one when the window is exceeded. *)
Definition apply (idx : Z) (h : hash) (s : sts) (l : state) : state :=
  let t := make_tiers (get_supernode_stakes idx s) (get_supernode_disqualiications idx s) in
  {| history := take (Z.to_nat SUPERNODE_HISTORY_SIZE) ((idx, h, t) :: history l);
     first_block_number := first_block_number l;
     dirty := true |}.

(** Modelled from the spec: [remove_latest_block] pops the tip snapshot. *)
Definition remove (l : state) : state :=
  {| history := tail (history l); first_block_number := first_block_number l; dirty := true |}.

(** Modelled from the spec: [store] clears the need-store mark. *)
Definition save (l : state) : state :=
  {| history := history l; first_block_number := first_block_number l; dirty := false |}.

Definition ops : BlockchainBasedList sts state := {|
  list_open := open;
  block_height := height;
  history_depth := depth;
  tiers := snapshot;
  apply_block := apply;
  remove_latest_block := remove;
  list_need_store := dirty;
  list_store := save
|}.

End WithStorage.
End ListModel.

(** ** A small network to run the processor on *)

Module Scenario.

Definition config : graft_config := {|
  STAKE_VALIDATION_PERIOD := 6;
  TRUSTED_RESTAKING_PERIOD := 6;
  STAKE_MIN_UNLOCK_TIME := 10;
  STAKE_MAX_UNLOCK_TIME := 1000;
  SUPERNODE_HISTORY_SIZE := 100;
  STAKE_TRANSACTION_PROCESSING_DB_VERSION := 13;
  REQUIRED_BBQS_VOTES := 2;
  REQUIRED_DISQUAL2_VOTES := 2;
  TIERS := 2
|}.

Definition hex_digit_value (c : ascii) : option Z :=
  let n := Z.of_nat (nat_of_ascii c) in
  if (48 <=? n) && (n <=? 57) then Some (n - 48)
  else if (97 <=? n) && (n <=? 102) then Some (n - 87)
  else None.

Fixpoint hex_value (s : string) (acc : Z) : option Z :=
  match s with
  | EmptyString => Some acc
  | String c rest =>
      match hex_digit_value c with
      | Some d => hex_value rest (16 * acc + d)
      | None => None
      end
  end.

Definition hex_digit (d : Z) : ascii :=
  ascii_of_nat (Z.to_nat (if d <? 10 then 48 + d else 87 + d)).

(** Keys of the scenario are single bytes, written as two hex digits. *)
Definition byte_to_hex (z : Z) : string :=
  String (hex_digit ((z / 16) mod 16)) (String (hex_digit (z mod 16)) EmptyString).

Definition signers_of (l : list Z) : list signer_item :=
  map (fun k => {| signer_id := k; sign := 0 |}) l.

(** The extra field of the scenario: a tag, then the fields. *)
Definition parse_stake (tx : transaction) : option stake_tx_extra :=
  match extra tx with
  | [1; id; spend; view; sig; key] =>
      Some {| extra_supernode_public_id := byte_to_hex id;
              extra_supernode_public_address :=
                {| m_spend_public_key := spend; m_view_public_key := view |};
              extra_supernode_signature := sig;
              extra_tx_secret_key := key |}
  | _ => None
  end.

Definition parse_disqualification (tx : transaction) : option tx_extra_graft_disqualification :=
  match extra tx with
  | 2 :: height :: h :: id :: sigs =>
      Some {| item := {| block_height_of := height; block_hash_of := h; id_of := id |};
              signers := signers_of sigs |}
  | _ => None
  end.

Definition parse_disqualification2 (tx : transaction) : option tx_extra_graft_disqualification2 :=
  match extra tx with
  | 3 :: height :: h :: id1 :: id2 :: sigs =>
      Some {| item2 := {| payment_id := "payment"; block_height_of2 := height;
                          block_hash_of2 := h; ids := [id1; id2] |};
              signers2 := signers_of sigs |}
  | _ => None
  end.

Definition codec : Codec := {|
  graft_check_disqualification := parse_disqualification;
  graft_check_disqualification2 := parse_disqualification2;
  graft_get_disqualification := parse_disqualification;
  graft_get_disqualification2 := parse_disqualification2;
  get_graft_stake_tx_extra_from_extra := parse_stake;
  dump_binary := fun d => byte_to_hex (id_of (item d));
  dump_binary2 := fun d => payment_id (item2 d);
  get_transaction_prefix_hash := fun tx => 1000 + unlock_time tx + 7 * version tx;
  hex_to_pod := fun s => hex_value s 0;
  pod_to_hex := byte_to_hex;
  get_account_address_as_str := fun net sub a => byte_to_hex (m_spend_public_key a)
|}.

Definition crypto : Crypto := {|
  check_key := fun W => 0 <? W;
  cn_fast_hash := fun s => Z.of_nat (String.length s);
  check_signature := fun h W sig => sig =? h + W;
  generate_key_derivation := fun view key => if key =? 0 then None else Some (view + key);
  derive_public_key := fun d n spend => d + n + spend;
  derivation_to_scalar := fun d n => d + n;
  sk2rct := fun k => k;
  ecdhDecode := fun t k =>
    Some {| ecdh_mask := ecdh_mask t - k; ecdh_amount := ecdh_amount t - k |};
  addKeys2 := fun a b H => a + b * H;
  rct_H := 7;
  h2d := fun k => k
|}.

(** The committees of the scenario: the first tier signs, the second tier
    can be disqualified; the auth sample is everybody. *)
Definition generator : SampleGenerator := {|
  select_BBQS_QCL := fun seed idxs => (nth 0%nat idxs [], nth 1%nat idxs []);
  select_AuthSample := fun seed idxs => concat idxs
|}.

(** A blockchain: the blocks by height (block [i] has hash [100 + i]), the
    transactions by hash, the version of the hard fork, and whether the
    transaction database answers. *)
Record chain_data := {
  chain_blocks : list block;
  chain_txs : list (hash * transaction);
  chain_version : Z;
  chain_db_ok : bool
}.

Definition find_tx (c : chain_data) (h : hash) : option transaction :=
  snd <$> List.find (fun kv => fst kv =? h) (chain_txs c).

Definition chain_get_transactions (c : chain_data) (hashes : list hash)
    : option (list transaction * list hash) :=
  if chain_db_ok c then
    Some (omap (find_tx c) hashes,
          List.filter (fun h => negb (bool_decide (is_Some (find_tx c h)))) hashes)
  else None.

Definition chain (c : chain_data) : Blockchain := {|
  get_current_blockchain_height := Z.of_nat (length (chain_blocks c));
  get_hard_fork_version := fun _ => chain_version c;
  get_earliest_ideal_height_for_version := fun _ => 0;
  get_block_id_by_height := fun i =>
    if (0 <=? i) && (i <? Z.of_nat (length (chain_blocks c))) then Some (100 + i) else None;
  get_block_by_hash := fun h => chain_blocks c !! Z.to_nat (h - 100);
  get_transactions := chain_get_transactions c;
  get_db_height := Z.of_nat (length (chain_blocks c));
  nettype := 0
|}.

(** One tier array for the list model: every staked supernode that is not
    disqualified, in the first tier when its stake reaches 500, in the second
    otherwise. *)
Definition make_tiers (stakes : list supernode_stake)
    (disquals : list supernode_disqualification) : Tiers :=
  let entries :=
    map (fun s => {| tier_supernode_public_id := stake_supernode_public_id s;
                     tier_stake_amount := stake_amount s |})
        (List.filter
           (fun s => negb (existsb
                             (fun d => String.eqb (byte_to_hex (disqualified_id d))
                                                  (stake_supernode_public_id s))
                             disquals))
           stakes) in
  [List.filter (fun e => 500 <=? tier_stake_amount e) entries;
   List.filter (fun e => tier_stake_amount e <? 500) entries].

Definition storage_state : Type := @StorageModel.state.
Definition list_state : Type := @ListModel.state.

Definition storage_ops : StakeStorage storage_state := @StorageModel.ops config.
Definition list_ops : BlockchainBasedList storage_state list_state :=
  @ListModel.ops config storage_state storage_ops make_tiers.

Definition state : Type := @processor storage_state list_state.

(** A stake of the scenario, found at block 1 and unlocked 15 blocks later. *)
Definition sample_stake : stake_transaction := {|
  stx_hash := 1023;
  stx_amount := 1000;
  stx_block_height := 1;
  stx_unlock_time := 15;
  supernode_public_id := "aa";
  supernode_public_address := {| m_spend_public_key := 5; m_view_public_key := 3 |};
  supernode_signature := 175;
  tx_secret_key := 2
|}.

(** A stake whose unlock time is in the accepted range, found ten blocks
    below the top of the 64-bit range. *)
Definition late_stake : stake_transaction := {|
  stx_hash := 1;
  stx_amount := 1000;
  stx_block_height := 2 ^ 64 - 10;
  stx_unlock_time := 10;
  supernode_public_id := "aa";
  supernode_public_address := {| m_spend_public_key := 5; m_view_public_key := 3 |};
  supernode_signature := 0;
  tx_secret_key := 2
|}.


(** *** Transactions, blocks and states of the scenario *)

(** A stake of 1000 for the supernode [aa], unlocked 15 blocks after block
    1: a pre-RingCT transaction with one output to the stake address. *)
Definition stake1 : transaction := {|
  version := 1;
  unlock_time := 16;
  vout := [{| amount := 1000; target := txout_to_key 10 |}];
  extra := [1; 170; 5; 3; 175; 2];
  rct_signatures := {| ecdhInfo := []; outPk := [] |}
|}.

Definition stake1_extra : stake_tx_extra := {|
  extra_supernode_public_id := "aa";
  extra_supernode_public_address := {| m_spend_public_key := 5; m_view_public_key := 3 |};
  extra_supernode_signature := 175;
  extra_tx_secret_key := 2
|}.

(** The same transaction with an unlock time below the block it is in. *)
Definition stake_underflow : transaction := {|
  version := 1;
  unlock_time := 5;
  vout := [{| amount := 1000; target := txout_to_key 10 |}];
  extra := [1; 170; 5; 3; 175; 2];
  rct_signatures := {| ecdhInfo := []; outPk := [] |}
|}.

(** A disqualification of [cc] at block 2, signed by [aa] and [bb]. *)
Definition disq1 : transaction := {|
  version := 123;
  unlock_time := 0;
  vout := [];
  extra := [2; 2; 102; 204; 170; 187];
  rct_signatures := {| ecdhInfo := []; outPk := [] |}
|}.

(** A version 124 disqualification of [cc] and [bb], signed by [aa] and
    [bb]; and one that names [11], which is in no tier. *)
Definition disq2 : transaction := {|
  version := 124;
  unlock_time := 0;
  vout := [];
  extra := [3; 2; 102; 204; 187; 170; 187];
  rct_signatures := {| ecdhInfo := []; outPk := [] |}
|}.

Definition disq2_outside : transaction := {|
  version := 124;
  unlock_time := 0;
  vout := [];
  extra := [3; 2; 102; 204; 17; 170; 187];
  rct_signatures := {| ecdhInfo := []; outPk := [] |}
|}.

(** Three blocks; the second holds [stake1]. *)
Definition blocks1 : list block :=
  [{| tx_hashes := [] |}; {| tx_hashes := [1023] |}; {| tx_hashes := [] |}].

Definition chain1 : chain_data := {|
  chain_blocks := blocks1;
  chain_txs := [(1023, stake1)];
  chain_version := 13;
  chain_db_ok := true
|}.

(** The same blockchain, the transaction database failing. *)
Definition chain_db_down : chain_data := {|
  chain_blocks := blocks1;
  chain_txs := [(1023, stake1)];
  chain_version := 13;
  chain_db_ok := false
|}.

Definition empty_storage : storage_state := StorageModel.open EmptyString 0.
Definition empty_list : list_state := ListModel.open EmptyString 0.

(** A processor with both stores open and empty. *)
Definition ready : state :=
  with_blockchain_based_list (Some empty_list) (with_storage (Some empty_storage) new_processor).

(** A storage that processed blocks 1 and 2, and a list that only applied
    block 1. *)
Definition storage_at_2 : storage_state :=
  StorageModel.push 2 102 (StorageModel.push 1 101 empty_storage).

Definition list_at_1 : list_state := {|
  ListModel.history := [(1, 101, [[]; []])];
  ListModel.first_block_number := 0;
  ListModel.dirty := false
|}.

Definition lagging : state :=
  with_blockchain_based_list (Some list_at_1) (with_storage (Some storage_at_2) new_processor).

(** A storage whose last processed block is not the block 2 of the chain,
    and the list that went with it. *)
Definition storage_forked : storage_state :=
  StorageModel.push 2 999 (StorageModel.push 1 101 empty_storage).

Definition list_forked : list_state := {|
  ListModel.history := [(2, 999, [[]; []]); (1, 101, [[]; []])];
  ListModel.first_block_number := 0;
  ListModel.dirty := false
|}.

Definition forked : state :=
  with_blockchain_based_list (Some list_forked) (with_storage (Some storage_forked) new_processor).

(** A list whose tip, at block 2, has [aa] and [bb] in the first tier and
    [cc] in the second. *)
Definition tiers_at_2 : Tiers :=
  [[{| tier_supernode_public_id := "aa"; tier_stake_amount := 1000 |};
    {| tier_supernode_public_id := "bb"; tier_stake_amount := 600 |}];
   [{| tier_supernode_public_id := "cc"; tier_stake_amount := 100 |}]].

Definition list_staffed : list_state := {|
  ListModel.history := [(2, 102, tiers_at_2)];
  ListModel.first_block_number := 0;
  ListModel.dirty := false
|}.

Definition staffed : state :=
  with_blockchain_based_list (Some list_staffed) (with_storage (Some storage_at_2) new_processor).


(** The two blockchains as the processor sees them. *)
Definition net1 : Blockchain := chain chain1.
Definition net_db_down : Blockchain := chain chain_db_down.

(** [synchronize] over a blockchain of the scenario. *)
Definition synchronize_on (c : chain_data) (fuel : nat) (p : state) : outcome unit * state :=
  @synchronize config codec crypto (chain c) storage_state list_state storage_ops list_ops
    fuel p.


(** Handlers that return, and handlers that throw. *)
Definition quiet_stakes_handler : supernode_stakes_update_handler :=
  fun _ _ _ => handler_returns.
Definition failing_stakes_handler : supernode_stakes_update_handler :=
  fun _ _ _ => handler_throws "observer failed".
Definition quiet_list_handler : blockchain_based_list_update_handler :=
  fun _ _ _ => handler_returns.
Definition failing_list_handler : blockchain_based_list_update_handler :=
  fun _ _ _ => handler_throws "observer failed".

Definition watched : state :=
  with_on_blockchain_based_list_update (Some quiet_list_handler)
    (with_on_stakes_update (Some quiet_stakes_handler) staffed).

Definition watched_failing : state :=
  with_on_blockchain_based_list_update (Some failing_list_handler)
    (with_on_stakes_update (Some failing_stakes_handler) staffed).


(** *** More transactions, blockchains and states *)

(** The stake of [stake1] as a RingCT transaction: the amount is in the
    tuple of output 0, and the commitment of the output opens to it. *)
Definition stake_rct : transaction := {|
  version := 2;
  unlock_time := 16;
  vout := [{| amount := 0; target := txout_to_key 10 |}];
  extra := [1; 170; 5; 3; 175; 2];
  rct_signatures := {| ecdhInfo := [{| ecdh_mask := 6; ecdh_amount := 1005 |}];
                       outPk := [7001] |}
|}.

(** A stake record on a transaction that pays somebody else. *)
Definition stake_elsewhere : transaction := {|
  version := 1;
  unlock_time := 16;
  vout := [{| amount := 1000; target := txout_to_key 11 |};
           {| amount := 5; target := txout_other |}];
  extra := [1; 170; 5; 3; 175; 2];
  rct_signatures := {| ecdhInfo := []; outPk := [] |}
|}.

(** The blockchain of [chain1] before the hard fork. *)
Definition chain_old : chain_data := {|
  chain_blocks := blocks1;
  chain_txs := [(1023, stake1)];
  chain_version := 12;
  chain_db_ok := true
|}.

Definition net_old : Blockchain := chain chain_old.

(** The blockchain of [chain1] with the hashes of its blocks but not the
    blocks, and with nothing but its height. *)
Definition net_pruned : Blockchain := {|
  get_current_blockchain_height := 3;
  get_hard_fork_version := fun _ => 13;
  get_earliest_ideal_height_for_version := fun _ => 0;
  get_block_id_by_height := fun i => if (0 <=? i) && (i <? 3) then Some (100 + i) else None;
  get_block_by_hash := fun _ => None;
  get_transactions := chain_get_transactions chain1;
  get_db_height := 3;
  nettype := 0
|}.

Definition net_behind : Blockchain := {|
  get_current_blockchain_height := 3;
  get_hard_fork_version := fun _ => 13;
  get_earliest_ideal_height_for_version := fun _ => 0;
  get_block_id_by_height := fun _ => None;
  get_block_by_hash := fun _ => None;
  get_transactions := chain_get_transactions chain1;
  get_db_height := 3;
  nettype := 0
|}.

(** The storage at block 2 once saved, and a processor up to date with
    [chain1] whose stakes are published and whose list is not. *)
Definition storage_saved : storage_state := StorageModel.save storage_at_2.

Definition up_to_date : state :=
  with_stakes_need_update false
    (with_on_blockchain_based_list_update (Some quiet_list_handler)
       (with_on_stakes_update (Some quiet_stakes_handler)
          (with_blockchain_based_list (Some list_staffed)
             (with_storage (Some storage_saved) new_processor)))).

(** A processor with a storage and no list. *)
Definition half_open : state := with_storage (Some empty_storage) new_processor.

End Scenario.

(** ** The vocabulary of the specification *)

Section Vocabulary.
Context {cfg : graft_config} {codec : Codec} {crypto : Crypto}
  {generator : SampleGenerator} {chain : Blockchain}.
Context {sts bbl : Type} {storage_ops : StakeStorage sts}
  {list_ops : BlockchainBasedList sts bbl}.

(** The record of an accepted stake: found at [block_index], with the prefix
    hash of the transaction, the decoded amount and the adjusted unlock
    time. *)
Definition stake_record (block_index : Z) (tx : transaction) (e : stake_tx_extra)
    (amount : Z) : stake_transaction :=
  {| stx_hash := get_transaction_prefix_hash tx;
     stx_amount := amount;
     stx_block_height := block_index;
     stx_unlock_time := sub64 (unlock_time tx) block_index;
     supernode_public_id := extra_supernode_public_id e;
     supernode_public_address := extra_supernode_public_address e;
     supernode_signature := extra_supernode_signature e;
     tx_secret_key := extra_tx_secret_key e |}.

(** The conditions under which a transaction is a stake, in the words of the
    specification: the extra field carries a stake record [e]; the public
    identifier decodes to a valid key; the signature verifies under that key
    over the fast hash of [address_string || ":" || id]; the adjusted unlock
    time is within the allowed range; the amount is decoded and is not zero. *)
Definition stake_acceptable (block_index : Z) (tx : transaction) (e : stake_tx_extra) : Prop :=
  get_graft_stake_tx_extra_from_extra tx = Some e /\
  (exists W : public_key,
     hex_to_pod (extra_supernode_public_id e) = Some W /\
     check_key W = true /\
     check_signature
       (cn_fast_hash
          (String.append
             (get_account_address_as_str nettype false (extra_supernode_public_address e))
             (String.append ":" (extra_supernode_public_id e))))
       W (extra_supernode_signature e) = true) /\
  STAKE_MIN_UNLOCK_TIME <= sub64 (unlock_time tx) block_index <= STAKE_MAX_UNLOCK_TIME /\
  exists amount : Z,
    get_transaction_amount tx (extra_supernode_public_address e) (extra_tx_secret_key e)
      = Some amount /\
    amount <> 0.

(** A transaction whose RingCT data has an entry for each of its outputs
    (or that has no RingCT data to read, being of version 1): on such a
    transaction [get_transaction_amount] indexes no vector out of range. *)
Definition rct_in_range (tx : transaction) : Prop :=
  version tx = 1 \/
  (length (vout tx) <= length (ecdhInfo (rct_signatures tx)) /\
   length (vout tx) <= length (outPk (rct_signatures tx)))%nat.

(** The identifiers at the given places of a snapshot, when every place
    exists and every identifier decodes. *)
Fixpoint ids_at (bbl_tiers : Tiers) (idxs : list TI) : option (list public_key) :=
  match idxs with
  | [] => Some []
  | (t, i) :: rest =>
      tier ← bbl_tiers !! t;
      entry ← tier !! i;
      id ← hex_to_pod (tier_supernode_public_id entry);
      res ← ids_at bbl_tiers rest;
      Some (id :: res)
  end.

(** The committees for a version 123 record: the snapshot is the one at
    [depth = block_height() - disq.block_height], the seed is the block
    hash. *)
Definition BBQS_QCL (l : bbl) (d : tx_extra_graft_disqualification)
    : option (list public_key * list public_key) :=
  let depth := sub64 (block_height l) (block_height_of (item d)) in
  let snapshot := tiers depth l in
  let idxs := select_BBQS_QCL (block_hash_of (item d)) (makeBBLindexes snapshot) in
  bbqs ← ids_at snapshot (fst idxs);
  qcl ← ids_at snapshot (snd idxs);
  Some (bbqs, qcl).

(** The conditions on a decoded version 123 record. *)
Definition disqualification_accepted (l : bbl) (d : tx_extra_graft_disqualification) : Prop :=
  get_block_id_by_height (block_height_of (item d)) = Some (block_hash_of (item d)) /\
  sub64 (block_height l) (block_height_of (item d)) < history_depth l /\
  REQUIRED_BBQS_VOTES <= Z.of_nat (length (signers d)) /\
  exists bbqs qcl : list public_key,
    BBQS_QCL l d = Some (bbqs, qcl) /\
    In (id_of (item d)) qcl /\
    Forall (fun si => In (signer_id si) bbqs) (signers d).

(** The auth sample for a version 124 record: same snapshot, the seed is the
    payment identifier. *)
Definition AuthSample (l : bbl) (d : tx_extra_graft_disqualification2)
    : option (list public_key) :=
  let depth := sub64 (block_height l) (block_height_of2 (item2 d)) in
  let snapshot := tiers depth l in
  ids_at snapshot (select_AuthSample (payment_id (item2 d)) (makeBBLindexes snapshot)).

(** The conditions on a decoded version 124 record. *)
Definition disqualification2_accepted (l : bbl) (d : tx_extra_graft_disqualification2) : Prop :=
  get_block_id_by_height (block_height_of2 (item2 d)) = Some (block_hash_of2 (item2 d)) /\
  sub64 (block_height l) (block_height_of2 (item2 d)) < history_depth l /\
  REQUIRED_DISQUAL2_VOTES <= Z.of_nat (length (signers2 d)) /\
  exists auths : list public_key,
    AuthSample l d = Some auths /\
    Forall (fun id => In id auths) (ids (item2 d)) /\
    Forall (fun si => In (signer_id si) auths) (signers2 d).

(** The state after some more log records; what a member function that only
    reads and logs does to the processor. *)
Definition with_log (l : list log_record) (p : @processor sts bbl) : @processor sts bbl :=
  fold_left (fun q r => with_logged r q) l p.

Definition logs_only (p p' : @processor sts bbl) : Prop :=
  exists l : list log_record, p' = with_log l p.


(** What the loop over the transactions of a block does to the processor:
    the storage and the log change, nothing else. *)
Definition storage_and_log_only (p p' : @processor sts bbl) : Prop :=
  exists (s' : sts) (l : list log_record), p' = with_log l (with_storage (Some s') p).

(** The blockchain based list after [process_block_blockchain_based_list]:
    the block is applied, and the list is saved when it changed and the
    caller asked for it. *)
Definition list_changed (block_index : Z) (block_hash : hash) (s : sts) (l : bbl) : bool :=
  let l' := apply_block block_index block_hash s l in
  list_need_store l' || negb (block_height l =? block_height l').

Definition list_after (block_index : Z) (block_hash : hash) (update_storage : bool)
    (s : sts) (l : bbl) : bbl :=
  let l' := apply_block block_index block_hash s l in
  if list_changed block_index block_hash s l && update_storage then list_store l' else l'.

(** The storage once a block is recorded as processed. *)
Definition recorded (block_index : Z) (block_hash : hash) (update_storage : bool) (s : sts)
    : sts :=
  let s' := add_last_processed_block block_index block_hash s in
  if update_storage then storage_store s' else s'.


(** The number of turns of the forward loop that went through
    [process_block] (a turn left by [break] or by an exception applies no
    block): the counter runs along [apply_new_blocks]. *)
Fixpoint blocks_processed (n : nat) (last_block_index height : Z) (p : @processor sts bbl)
    : nat :=
  match n with
  | O => O
  | S n' =>
      match apply_block_at last_block_index height p with
      | (Val true, p') => S (blocks_processed n' (add64 last_block_index 1) height p')
      | _ => O
      end
  end.


(** The records of the unroll of one block. *)
Definition unrolled_storage (s : sts) : sts :=
  let s' := remove_last_processed_block s in
  if get_tx_count s =? get_tx_count s' then s' else clear_supernode_stakes s'.

Definition unrolled_list (s : sts) (l : bbl) : bbl :=
  if block_height l =? get_last_processed_block_index s then remove_latest_block l else l.


(** A computation that never runs out of fuel: it has no loop of the model
    with a budget in it. *)
Definition fuel_free {A : Type} (m : M (@processor sts bbl) A) : Prop :=
  forall p, fst (m p) <> OutOfFuel.



(** The state after some more handler calls. *)
Definition with_calls (cs : list handler_call) (p : @processor sts bbl) : @processor sts bbl :=
  fold_left (fun q c => with_handler_call c q) cs p.

Definition STAKES_HANDLER_EXCEPTION : string :=
  "exception in StakeTransactionProcessor stake transactions update handler: ".
Definition LIST_HANDLER_EXCEPTION : string :=
  "exception in StakeTransactionProcessor blockchain based list update handler: ".




(** *** Vocabulary for the remaining functions *)

(** Whether output [n] of a transaction is an output to the address, under
    a key derivation: its target is a key, the one derived for [n]. *)
Definition owned_output (derivation : key_derivation) (address : account_public_address)
    (n : Z) (out : tx_out) : bool :=
  match target out with
  | txout_to_key key => derive_public_key derivation n (m_spend_public_key address) =? key
  | txout_other => false
  end.

(** What an owned output adds to the amount: its plain amount in a version 1
    transaction, the decoded RingCT amount otherwise; [None] where the
    source reads a vector out of range. *)
Definition output_amount (tx : transaction) (address : account_public_address)
    (tx_key : secret_key) (n : Z) (out : tx_out) : option Z :=
  if version tx =? 1 then Some (amount out) else rct_output_amount tx address tx_key n.

(** The sum, over the integers, of what the owned outputs add, from output
    [n] on; [None] when one of them is not defined. *)
Fixpoint owned_sum (derivation : key_derivation) (tx : transaction)
    (address : account_public_address) (tx_key : secret_key) (outs : list tx_out) (n : Z)
    : option Z :=
  match outs with
  | [] => Some 0
  | out :: rest =>
      if owned_output derivation address n out then
        match output_amount tx address tx_key n out,
              owned_sum derivation tx address tx_key rest (n + 1) with
        | Some a, Some r => Some (a + r)
        | _, _ => None
        end
      else owned_sum derivation tx address tx_key rest (n + 1)
  end.

(** What one transaction of a block adds to the vector [disquals]: the
    record of a version 123 transaction whose extra field decodes. *)
Definition disqualification_of (block_index : Z) (tx : transaction) : option disqualification :=
  if version tx =? 123 then
    match graft_get_disqualification tx with
    | Some disq_extra =>
        Some {| blob := dump_binary disq_extra;
                block_index_of := block_index;
                disq_id := id_of (item disq_extra);
                id_str := pod_to_hex (id_of (item disq_extra)) |}
    | None => None
    end
  else None.

(** What it adds to the vector [disquals2]. *)
Definition disqualification2_of (block_index : Z) (tx : transaction)
    : option disqualification2_storage_item :=
  if (version tx =? 124) && negb (version tx =? 123) then
    match graft_get_disqualification2 tx with
    | Some disq_extra =>
        Some {| blob2 := dump_binary2 disq_extra; block_index_of2 := block_index |}
    | None => None
    end
  else None.

(** The stake record it hands to [add_tx]: the one of a transaction of
    another version that passes every check of the loop body. *)
Definition stake_of (block_index : Z) (tx : transaction) : option stake_transaction :=
  if (version tx =? 123) || (version tx =? 124) then None
  else
    match get_graft_stake_tx_extra_from_extra tx with
    | None => None
    | Some e =>
        match decode_public_id (extra_supernode_public_id e) with
        | None => None
        | Some W =>
            if check_signature (stake_signed_hash e) W (extra_supernode_signature e)
               && (STAKE_MIN_UNLOCK_TIME <=? sub64 (unlock_time tx) block_index)
               && (sub64 (unlock_time tx) block_index <=? STAKE_MAX_UNLOCK_TIME)
            then
              match get_transaction_amount tx (extra_supernode_public_address e)
                      (extra_tx_secret_key e) with
              | Some amount =>
                  if amount =? 0 then None else Some (stake_record block_index tx e amount)
              | None => None
              end
            else None
        end
    end.

(** The storage after the stakes of a block were added, in the order of the
    block. *)
Definition add_stakes (stakes : list stake_transaction) (s : sts) : sts :=
  fold_left (fun s' stake_tx => add_tx stake_tx s') stakes s.


(** The two stores are opened together: both are there, or neither. *)
Definition stores_open (p : @processor sts bbl) : Prop :=
  is_Some (m_storage p) /\ is_Some (m_blockchain_based_list p).

Definition stores_paired (p : @processor sts bbl) : Prop :=
  (m_storage p = None /\ m_blockchain_based_list p = None) \/ stores_open p.

(** What a computation that publishes nothing leaves of the processor: the
    handlers and the calls made of them are as before, a need-update flag
    that was set is still set, and the log has only grown. *)
Definition publishes_nothing (p p' : @processor sts bbl) : Prop :=
  handler_calls p' = handler_calls p /\
  m_on_stakes_update p' = m_on_stakes_update p /\
  m_on_blockchain_based_list_update p' = m_on_blockchain_based_list_update p /\
  (m_stakes_need_update p = true -> m_stakes_need_update p' = true) /\
  (m_blockchain_based_list_need_update p = true ->
   m_blockchain_based_list_need_update p' = true) /\
  exists lg, logged p' = logged p ++ lg.

Definition quiet {A : Type} (m : M (@processor sts bbl) A) : Prop :=
  forall p, publishes_nothing p (snd (m p)).


End Vocabulary.

(** * Properties *)

(** ** Machine integers *)

Lemma wrap64_range z : is_uint64 (wrap64 z).
Proof. unfold is_uint64, wrap64, U64_MODULUS. apply Z.mod_pos_bound. lia. Qed.

Lemma wrap64_small z : is_uint64 z -> wrap64 z = z.
Proof. unfold is_uint64, wrap64. intros Hz. apply Z.mod_small. exact Hz. Qed.

Lemma sub64_underflow a b :
  is_uint64 a -> is_uint64 b -> a < b -> sub64 a b = a - b + U64_MODULUS.
Proof.
  unfold is_uint64, sub64, wrap64, U64_MODULUS. intros Ha Hb Hlt.
  symmetry. apply (Z.mod_unique _ _ (-1)); lia.
Qed.


Lemma add64_exact a b :
  0 <= a -> 0 <= b -> a + b < U64_MODULUS -> add64 a b = a + b.
Proof. unfold add64, wrap64. intros Ha Hb Hlt. apply Z.mod_small. lia. Qed.

(** ** The validity window *)

Section ValidityFacts.
Context {cfg : graft_config}.

(** What [is_valid] computes, for every stake transaction and block: the
    two bounds are the sums of the source, reduced to 64 bits. *)
Lemma is_valid_wrapped (s : stake_transaction) (b : Z) :
  is_valid s b = true <->
  stake_first_valid_block s <= b /\ b < stake_last_valid_block s.
Proof.
  unfold is_valid.
  destruct (Z.ltb_spec b (stake_first_valid_block s)) as [Hlo | Hlo].
  - split; [discriminate | lia].
  - destruct (Z.geb_spec b (stake_last_valid_block s)) as [Hhi | Hhi].
    + split; [discriminate | lia].
    + split; [lia | reflexivity].
Qed.

Lemma stake_bounds_exact (s : stake_transaction) :
  graft_config_ok cfg -> stake_transaction_ok s ->
  stx_block_height s + STAKE_VALIDATION_PERIOD < U64_MODULUS ->
  stx_block_height s + stx_unlock_time s + TRUSTED_RESTAKING_PERIOD < U64_MODULUS ->
  stake_first_valid_block s = stx_block_height s + STAKE_VALIDATION_PERIOD /\
  stake_last_valid_block s =
    stx_block_height s + stx_unlock_time s + TRUSTED_RESTAKING_PERIOD.
Proof.
  intros [HV HT _ _] [Hh Hu] H1 H2.
  unfold stake_first_valid_block, stake_last_valid_block, is_uint64 in *.
  rewrite (add64_exact (stx_block_height s) (stx_unlock_time s)) by lia.
  rewrite !add64_exact by lia. split; reflexivity.
Qed.

(** C2, as amended: when neither sum leaves the 64-bit range, [is_valid s b]
    holds exactly when
    [block_height + STAKE_VALIDATION_PERIOD <= b
       < block_height + unlock_time + TRUSTED_RESTAKING_PERIOD]. *)
Theorem is_valid_window (s : stake_transaction) (b : Z) :
  graft_config_ok cfg -> stake_transaction_ok s ->
  stx_block_height s + STAKE_VALIDATION_PERIOD < U64_MODULUS ->
  stx_block_height s + stx_unlock_time s + TRUSTED_RESTAKING_PERIOD < U64_MODULUS ->
  is_valid s b = true <-> in_validity_window s b.
Proof.
  intros Hcfg Hs H1 H2.
  destruct (stake_bounds_exact s Hcfg Hs H1 H2) as [Hfirst Hlast].
  rewrite is_valid_wrapped, Hfirst, Hlast. unfold in_validity_window. tauto.
Qed.

End ValidityFacts.

Lemma scenario_config_ok : graft_config_ok Scenario.config.
Proof. split; unfold is_uint64, U64_MODULUS; simpl; lia. Qed.

Lemma is_valid_window_witness :
  @is_valid Scenario.config Scenario.sample_stake 7 = true <->
  @in_validity_window Scenario.config Scenario.sample_stake 7.
Proof.
  apply (@is_valid_window Scenario.config Scenario.sample_stake 7).
  - exact scenario_config_ok.
  - split; unfold is_uint64, U64_MODULUS; simpl; lia.
  - unfold U64_MODULUS; simpl; lia.
  - unfold U64_MODULUS; simpl; lia.
Defined.

(** C2, as stated, fails where the upper bound wraps: the block
    [2^64 - 3] is inside the window over the integers, and [is_valid] is
    false there. *)
Lemma is_valid_window_wraps :
  stake_transaction_ok Scenario.late_stake /\
  @in_validity_window Scenario.config Scenario.late_stake (2 ^ 64 - 3) /\
  @is_valid Scenario.config Scenario.late_stake (2 ^ 64 - 3) = false.
Proof.
  split; [| split].
  - split; unfold is_uint64, U64_MODULUS; simpl; lia.
  - unfold in_validity_window; simpl; lia.
  - vm_compute. reflexivity.
Qed.

(** ** The processor *)

Section ProcessorFacts.
Context {cfg : graft_config} {codec : Codec} {crypto : Crypto}
  {generator : SampleGenerator} {chain : Blockchain}.
Context {sts bbl : Type} {storage_ops : StakeStorage sts}
  {list_ops : BlockchainBasedList sts bbl}.

Abbreviation state := (@processor sts bbl).

(** *** Log records only *)

Lemma logs_only_refl (p : state) : logs_only p p.
Proof. exists []. reflexivity. Qed.

Lemma logs_only_logged (r : log_record) (p : state) : logs_only p (with_logged r p).
Proof. exists [r]. reflexivity. Qed.

Lemma logs_only_trans (p q r : state) : logs_only p q -> logs_only q r -> logs_only p r.
Proof.
  intros [l1 ->] [l2 ->]. exists (l1 ++ l2).
  unfold with_log. rewrite fold_left_app. reflexivity.
Qed.

Lemma with_log_fields (l : list log_record) (p : state) :
  m_config_dir (with_log l p) = m_config_dir p /\
  m_storage (with_log l p) = m_storage p /\
  m_blockchain_based_list (with_log l p) = m_blockchain_based_list p /\
  m_on_stakes_update (with_log l p) = m_on_stakes_update p /\
  m_on_blockchain_based_list_update (with_log l p) = m_on_blockchain_based_list_update p /\
  m_stakes_need_update (with_log l p) = m_stakes_need_update p /\
  m_blockchain_based_list_need_update (with_log l p) = m_blockchain_based_list_need_update p /\
  handler_calls (with_log l p) = handler_calls p /\
  logged (with_log l p) = logged p ++ l.
Proof.
  revert p. induction l as [| r l IH]; intros p.
  - simpl. rewrite app_nil_r. repeat split.
  - unfold with_log in *. simpl. specialize (IH (with_logged r p)).
    destruct IH as (H1 & H2 & H3 & H4 & H5 & H6 & H7 & H8 & H9).
    rewrite H1, H2, H3, H4, H5, H6, H7, H8, H9. simpl.
    rewrite <- app_assoc. repeat split.
Qed.

Lemma logs_only_storage (p p' : state) : logs_only p p' -> m_storage p' = m_storage p.
Proof. intros [l ->]. apply with_log_fields. Qed.

Lemma logs_only_list (p p' : state) :
  logs_only p p' -> m_blockchain_based_list p' = m_blockchain_based_list p.
Proof. intros [l ->]. apply with_log_fields. Qed.

(** *** Stake transactions *)

Lemma decode_public_id_Some (id : string) (W : public_key) :
  decode_public_id id = Some W <-> hex_to_pod id = Some W /\ check_key W = true.
Proof.
  unfold decode_public_id. destruct (hex_to_pod id) as [W' |].
  - destruct (check_key W') eqn:Hk.
    + split; [intros [= ->]; auto | intros [[= ->] _]; reflexivity].
    + split; [discriminate | intros [[= ->] Hk']; congruence].
  - split; [discriminate | intros [[=] _]].
Qed.

(** On a transaction whose RingCT data has an entry per output the amount
    is decoded without reading a vector out of range. *)
Lemma rct_output_amount_in_range (tx : transaction) (address : account_public_address)
    (tx_key : secret_key) (i : nat) :
  (i < length (ecdhInfo (rct_signatures tx)))%nat ->
  (i < length (outPk (rct_signatures tx)))%nat ->
  is_Some (rct_output_amount tx address tx_key (Z.of_nat i)).
Proof.
  intros Hinfo Hpk. unfold rct_output_amount. rewrite !Nat2Z.id.
  destruct (generate_key_derivation (m_view_public_key address) tx_key); [| eauto].
  destruct (lookup_lt_is_Some_2 _ _ Hinfo) as [ecdh_info Hi].
  rewrite Hi. destruct (ecdhDecode ecdh_info _); [| eauto].
  match goal with |- is_Some (match ?x with _ => _ end) => destruct x eqn:HC end; [eauto |].
  apply lookup_ge_None_1 in HC. unfold rct_key in *. lia.
Qed.

Lemma received_from_in_range (derivation : key_derivation) (tx : transaction)
    (address : account_public_address) (tx_key : secret_key) (outs : list tx_out)
    (i : nat) (received : Z) :
  version tx = 1 \/
  (i + length outs <= length (ecdhInfo (rct_signatures tx)) /\
   i + length outs <= length (outPk (rct_signatures tx)))%nat ->
  is_Some (received_from derivation tx address tx_key outs (Z.of_nat i) received).
Proof.
  revert i received. induction outs as [| out rest IH]; intros i received Hrange;
    cbn [received_from]; [eauto |].
  assert (Hnext : forall r, is_Some (received_from derivation tx address tx_key rest
                                       (Z.of_nat i + 1) r)).
  { intros r. replace (Z.of_nat i + 1) with (Z.of_nat (S i)) by lia. apply IH.
    destruct Hrange as [Hv | [Hinfo Hpk]]; [left; exact Hv | right].
    cbn [length] in Hinfo, Hpk. lia. }
  destruct (target out) as [key |]; [| apply Hnext].
  destruct (derive_public_key derivation (Z.of_nat i) (m_spend_public_key address) =? key);
    [| apply Hnext].
  destruct (Z.eqb_spec (version tx) 1) as [Hv | Hv]; [apply Hnext |].
  destruct Hrange as [Hv' | [Hinfo Hpk]]; [contradiction |]. cbn [length] in Hinfo, Hpk.
  destruct (rct_output_amount_in_range tx address tx_key i ltac:(lia) ltac:(lia)) as [a ->].
  apply Hnext.
Qed.

Lemma get_transaction_amount_in_range (tx : transaction) (address : account_public_address)
    (tx_key : secret_key) :
  rct_in_range tx -> is_Some (get_transaction_amount tx address tx_key).
Proof.
  intros Hrange. unfold get_transaction_amount.
  destruct (generate_key_derivation (m_view_public_key address) tx_key); [| eauto].
  apply (received_from_in_range _ tx address tx_key (vout tx) O 0). exact Hrange.
Qed.

(** A transaction that meets the conditions is handed to [add_tx], with the
    record the specification describes. *)
Lemma process_stake_transaction_accepts (block_index : Z) (tx : transaction)
    (e : stake_tx_extra) (amount : Z) (p : state) (s : sts) :
  stake_acceptable block_index tx e ->
  get_transaction_amount tx (extra_supernode_public_address e) (extra_tx_secret_key e)
    = Some amount ->
  m_storage p = Some s ->
  process_stake_transaction block_index tx (get_transaction_prefix_hash tx) p =
  (Val tt,
   with_logged
     (MDEBUG "New stake transaction found at block #{}, tx_hash={}, supernode_public_id '{}', amount={}"
        [block_index; get_transaction_prefix_hash tx; amount])
     (with_storage (Some (add_tx (stake_record block_index tx e amount) s)) p)).
Proof.
  intros (He & (W & Hhex & Hkey & Hsig) & [Hmin Hmax] & (amount' & Hamount' & Hnonzero))
    Hamount Hs.
  rewrite Hamount in Hamount'. injection Hamount' as <-.
  unfold process_stake_transaction. rewrite He.
  assert (Hdec : decode_public_id (extra_supernode_public_id e) = Some W)
    by (apply decode_public_id_Some; auto).
  rewrite Hdec. unfold stake_signed_hash. rewrite Hsig. cbn [negb].
  destruct (Z.ltb_spec (sub64 (unlock_time tx) block_index) STAKE_MIN_UNLOCK_TIME)
    as [Hlt | _]; [lia |].
  destruct (Z.gtb_spec (sub64 (unlock_time tx) block_index) STAKE_MAX_UNLOCK_TIME)
    as [Hgt | _]; [lia |].
  rewrite Hamount.
  destruct (Z.eqb_spec amount 0) as [Hzero | _]; [contradiction |].
  unfold on_storage, storage, debug, modify, bind. cbv beta. rewrite Hs. reflexivity.
Qed.

(** A transaction that fails a condition leaves everything but the log as
    it was: here one whose adjusted unlock time is out of range, for which
    the amount is not decoded at all. *)
Lemma process_stake_transaction_out_of_range (block_index : Z) (tx : transaction)
    (tx_hash : hash) (p : state) :
  ~ STAKE_MIN_UNLOCK_TIME <= sub64 (unlock_time tx) block_index <= STAKE_MAX_UNLOCK_TIME ->
  exists p', process_stake_transaction block_index tx tx_hash p = (Val tt, p') /\
             logs_only p p'.
Proof.
  intros Hout. unfold process_stake_transaction.
  destruct (get_graft_stake_tx_extra_from_extra tx) as [e |];
    [| eexists; split; [reflexivity | apply logs_only_refl]].
  destruct (decode_public_id (extra_supernode_public_id e)) as [W |];
    [| eexists; split; [reflexivity | apply logs_only_logged]].
  destruct (check_signature (stake_signed_hash e) W (extra_supernode_signature e));
    [| eexists; split; [reflexivity | apply logs_only_logged]].
  cbn [negb].
  destruct (Z.ltb_spec (sub64 (unlock_time tx) block_index) STAKE_MIN_UNLOCK_TIME)
    as [Hlt | Hmin];
    [eexists; split; [reflexivity | apply logs_only_logged] |].
  destruct (Z.gtb_spec (sub64 (unlock_time tx) block_index) STAKE_MAX_UNLOCK_TIME)
    as [Hgt | Hmax];
    [eexists; split; [reflexivity | apply logs_only_logged] |].
  exfalso. apply Hout. lia.
Qed.

(** And one that fails any condition, where the amount can be decoded. *)
Lemma process_stake_transaction_rejects (block_index : Z) (tx : transaction)
    (tx_hash : hash) (p : state) :
  rct_in_range tx ->
  (forall e, ~ stake_acceptable block_index tx e) ->
  exists p', process_stake_transaction block_index tx tx_hash p = (Val tt, p') /\
             logs_only p p'.
Proof.
  intros Hrange Hno. unfold process_stake_transaction.
  destruct (get_graft_stake_tx_extra_from_extra tx) as [e |] eqn:He;
    [| eexists; split; [reflexivity | apply logs_only_refl]].
  destruct (decode_public_id (extra_supernode_public_id e)) as [W |] eqn:Hdec;
    [| eexists; split; [reflexivity | apply logs_only_logged]].
  apply decode_public_id_Some in Hdec. destruct Hdec as [Hhex Hkey].
  destruct (check_signature (stake_signed_hash e) W (extra_supernode_signature e)) eqn:Hsig;
    [| eexists; split; [reflexivity | apply logs_only_logged]].
  cbn [negb].
  destruct (Z.ltb_spec (sub64 (unlock_time tx) block_index) STAKE_MIN_UNLOCK_TIME)
    as [Hlt | Hmin];
    [eexists; split; [reflexivity | apply logs_only_logged] |].
  destruct (Z.gtb_spec (sub64 (unlock_time tx) block_index) STAKE_MAX_UNLOCK_TIME)
    as [Hgt | Hmax];
    [eexists; split; [reflexivity | apply logs_only_logged] |].
  destruct (get_transaction_amount_in_range tx (extra_supernode_public_address e)
              (extra_tx_secret_key e) Hrange) as [amount Hamount].
  rewrite Hamount.
  destruct (Z.eqb_spec amount 0) as [Hzero | Hnonzero];
    [eexists; split; [reflexivity | apply logs_only_logged] |].
  exfalso. apply (Hno e). unfold stake_acceptable.
  split; [exact He |]. split; [exists W; auto |]. split; [lia |].
  exists amount. auto.
Qed.


(** The two disqualification routines push onto the vectors of the caller
    and log; the processor is otherwise untouched. *)
Lemma process_transaction_disqualification (block_index : Z) (block_hash : hash)
    (tx : transaction) (acc : batches) (p : state) :
  version tx = 123 \/ version tx = 124 ->
  exists acc' p',
    process_transaction block_index block_hash tx acc p = (Val acc', p') /\
    logs_only p p'.
Proof.
  intros Hv. unfold process_transaction, catch_std_exception.
  destruct (Z.eqb_spec (version tx) 123) as [H123 | H123].
  - unfold process_disqualification_transaction, assert, bind, ret.
    rewrite H123. cbn [Z.eqb Pos.eqb].
    destruct (graft_get_disqualification tx); cbn;
      do 2 eexists; (split; [reflexivity | apply logs_only_logged]).
  - destruct (Z.eqb_spec (version tx) 124) as [H124 | H124]; [| lia].
    unfold process_disqualification2_transaction, assert, bind, ret.
    rewrite H124. cbn [Z.eqb Pos.eqb].
    destruct (graft_get_disqualification2 tx); cbn;
      do 2 eexists; (split; [reflexivity | apply logs_only_logged]).
Qed.

Lemma process_transaction_stake (block_index : Z) (block_hash : hash)
    (tx : transaction) (acc : batches) (p p' : state) :
  version tx <> 123 -> version tx <> 124 ->
  process_stake_transaction block_index tx (get_transaction_prefix_hash tx) p = (Val tt, p') ->
  process_transaction block_index block_hash tx acc p = (Val acc, p').
Proof.
  intros H123 H124 Hrun. unfold process_transaction, catch_std_exception, bind, ret.
  destruct (Z.eqb_spec (version tx) 123) as [| _]; [contradiction |].
  destruct (Z.eqb_spec (version tx) 124) as [| _]; [contradiction |].
  rewrite Hrun. reflexivity.
Qed.

(** C3: at block [block_index], a transaction whose version is neither 123
    nor 124, and whose RingCT data has an entry for each output (the source
    reads [ecdhInfo[n]] and [outPk[n]] unchecked), is handed to [add_tx] of
    the storage exactly when it meets the conditions of a stake
    ([stake_acceptable]): when it does, the storage becomes [add_tx r] of
    what it was, for the record [r] with [block_height = block_index], [hash]
    the prefix hash, [amount] the decoded amount and [unlock_time] the
    adjusted value; when it does not, the storage is what it was. *)
Theorem stake_appended_iff (block_index : Z) (block_hash : hash) (tx : transaction)
    (acc : batches) (p : state) (s : sts) :
  version tx <> 123 -> version tx <> 124 -> m_storage p = Some s ->
  rct_in_range tx ->
  (forall e, stake_acceptable block_index tx e ->
     exists amount,
       get_transaction_amount tx (extra_supernode_public_address e) (extra_tx_secret_key e)
         = Some amount /\
       amount <> 0 /\
       let r := stake_record block_index tx e amount in
       (exists p', process_transaction block_index block_hash tx acc p = (Val acc, p') /\
                   m_storage p' = Some (add_tx r s)) /\
       stx_block_height r = block_index /\
       stx_hash r = get_transaction_prefix_hash tx /\
       stx_amount r = amount /\
       stx_unlock_time r = sub64 (unlock_time tx) block_index) /\
  ((forall e, ~ stake_acceptable block_index tx e) ->
     exists p', process_transaction block_index block_hash tx acc p = (Val acc, p') /\
                m_storage p' = Some s).
Proof.
  intros H123 H124 Hs Hrange. split.
  - intros e Hacc. pose proof Hacc as (_ & _ & _ & amount & Hamount & Hnonzero).
    exists amount. split; [exact Hamount |]. split; [exact Hnonzero |].
    intros r. split; [| repeat split].
    eexists. split.
    + apply process_transaction_stake; [assumption | assumption |].
      apply (process_stake_transaction_accepts block_index tx e amount p s Hacc Hamount Hs).
    + reflexivity.
  - intros Hno.
    destruct (process_stake_transaction_rejects block_index tx
                (get_transaction_prefix_hash tx) p Hrange Hno) as (p' & Hrun & Hlogs).
    exists p'. split.
    + apply process_transaction_stake; assumption.
    + rewrite (logs_only_storage p p' Hlogs). exact Hs.
Qed.

(** C10: the adjusted unlock time is the difference modulo [2^64]; when the
    unlock time of the transaction is below the block index, and the block
    index is below [2^64 - STAKE_MAX_UNLOCK_TIME], the difference wraps to a
    value above [STAKE_MAX_UNLOCK_TIME]: the transaction meets the conditions
    of a stake for no record, and the storage is left as it was. *)
Theorem unlock_time_underflow_rejected (block_index : Z) (block_hash : hash)
    (tx : transaction) (acc : batches) (p : state) :
  is_uint64 (unlock_time tx) -> is_uint64 block_index ->
  unlock_time tx < block_index ->
  block_index < U64_MODULUS - STAKE_MAX_UNLOCK_TIME ->
  sub64 (unlock_time tx) block_index = U64_MODULUS - (block_index - unlock_time tx) /\
  STAKE_MAX_UNLOCK_TIME < sub64 (unlock_time tx) block_index /\
  (forall e, ~ stake_acceptable block_index tx e) /\
  exists acc' p',
    process_transaction block_index block_hash tx acc p = (Val acc', p') /\
    logs_only p p'.
Proof.
  intros Hu Hb Hlt Hmax.
  assert (Hwrap : sub64 (unlock_time tx) block_index =
                  U64_MODULUS - (block_index - unlock_time tx))
    by (rewrite sub64_underflow by assumption; lia).
  assert (Hout : STAKE_MAX_UNLOCK_TIME < sub64 (unlock_time tx) block_index)
    by (rewrite Hwrap; unfold is_uint64 in *; lia).
  assert (Hno : forall e, ~ stake_acceptable block_index tx e)
    by (intros e (_ & _ & [_ Hle] & _); lia).
  repeat split; try assumption.
  destruct (Z.eq_dec (version tx) 123) as [H123 | H123];
    [apply process_transaction_disqualification; auto |].
  destruct (Z.eq_dec (version tx) 124) as [H124 | H124];
    [apply process_transaction_disqualification; auto |].
  destruct (process_stake_transaction_out_of_range block_index tx
              (get_transaction_prefix_hash tx) p ltac:(lia)) as (p' & Hrun & Hlogs).
  exists acc, p'. split; [apply process_transaction_stake; assumption | assumption].
Qed.

(** The primitives of the effects, unfolded until a value, an exception or a
    stuck test shows. *)
Ltac run :=
  repeat progress
    (unfold assert, block_id_by_height, blockchain_based_list, storage, on_storage,
       on_blockchain_based_list, warning, debug, error, modify, get, raise, abort,
       out_of_fuel, ret, bind, catch_BLOCK_DNE, catch_std_exception;
     cbn [fst snd negb andb orb Z.eqb Pos.eqb]).

Ltac logs_done :=
  do 2 eexists; split; [reflexivity |];
  split; [first [apply logs_only_refl | apply logs_only_logged] |].

(** *** Disqualification transactions *)

Lemma none_of_false (id : public_key) (v : list public_key) :
  none_of id v = false <-> In id v.
Proof.
  unfold none_of. rewrite negb_false_iff, existsb_exists. split.
  - intros (x & Hin & Heq). apply Z.eqb_eq in Heq. subst x. exact Hin.
  - intros Hin. exists id. split; [exact Hin | apply Z.eqb_refl].
Qed.

Lemma none_of_true (id : public_key) (v : list public_key) :
  none_of id v = true <-> ~ In id v.
Proof.
  rewrite <- none_of_false. destruct (none_of id v); split; congruence.
Qed.

(** [fromIndexes] reads the snapshot: it gives the identifiers [ids_at]
    describes, stops the program where there are none, and leaves the
    processor as it was. *)
Lemma fromIndexes_run (bbl_tiers : Tiers) (idxs : list TI) (p : state) :
  match ids_at bbl_tiers idxs with
  | Some l => fromIndexes bbl_tiers idxs p = (Val l, p)
  | None => exists why, fromIndexes bbl_tiers idxs p = (Abort why, p)
  end.
Proof.
  induction idxs as [| [t i] rest IH]; [reflexivity |].
  cbn [ids_at fromIndexes].
  destruct (bbl_tiers !! t) as [tier |]; cbn; [| eexists; reflexivity].
  destruct (tier !! i) as [entry |]; cbn; [| eexists; reflexivity].
  destruct (hex_to_pod (tier_supernode_public_id entry)) as [id |]; cbn;
    [| eexists; reflexivity].
  unfold bind. destruct (ids_at bbl_tiers rest) as [res |]; cbn.
  - rewrite IH. reflexivity.
  - destruct IH as [why ->]. eexists; reflexivity.
Qed.

Lemma check_signers_run (text : string) (tx_hash : hash) (sample : list public_key)
    (sigs : list signer_item) (p : state) :
  exists b p',
    check_signers text tx_hash sample sigs p = (Val b, p') /\
    logs_only p p' /\
    (b = true <-> Forall (fun si => In (signer_id si) sample) sigs).
Proof.
  induction sigs as [| si rest IH]; cbn [check_signers].
  - exists true, p. repeat split; [apply logs_only_refl | constructor].
  - destruct (none_of (signer_id si) sample) eqn:Hnone.
    + exists false, (with_logged (MWARNING text [tx_hash; signer_id si]) p).
      split; [reflexivity |]. split; [apply logs_only_logged |].
      split; [discriminate |]. intros Hall. inversion Hall as [| ? ? Hin _]; subst.
      apply none_of_true in Hnone. contradiction.
    + destruct IH as (b & p' & Hrun & Hlogs & Hb). exists b, p'.
      split; [exact Hrun |]. split; [exact Hlogs |]. rewrite Hb.
      apply none_of_false in Hnone. split.
      * intros Hall. constructor; assumption.
      * intros Hall. inversion Hall; assumption.
Qed.

Lemma check_ids_run (tx_hash : hash) (auths : list public_key) (l : list public_key)
    (p : state) :
  exists b p',
    check_ids tx_hash auths l p = (Val b, p') /\
    logs_only p p' /\
    (b = true <-> Forall (fun id => In id auths) l).
Proof.
  induction l as [| id rest IH]; cbn [check_ids].
  - exists true, p. repeat split; [apply logs_only_refl | constructor].
  - destruct (none_of id auths) eqn:Hnone.
    + eexists false, _. split; [reflexivity |]. split; [apply logs_only_logged |].
      split; [discriminate |]. intros Hall. inversion Hall as [| ? ? Hin _]; subst.
      apply none_of_true in Hnone. contradiction.
    + destruct IH as (b & p' & Hrun & Hlogs & Hb). exists b, p'.
      split; [exact Hrun |]. split; [exact Hlogs |]. rewrite Hb.
      apply none_of_false in Hnone. split.
      * intros Hall. constructor; assumption.
      * intros Hall. inversion Hall; assumption.
Qed.

(** The checks that follow the decoding of a version 123 record. *)
Lemma check_disqualification_decoded (tx : transaction) (tx_hash : hash) (p : state)
    (l : bbl) (d : tx_extra_graft_disqualification) :
  version tx = 123 -> m_blockchain_based_list p = Some l ->
  graft_check_disqualification tx = Some d ->
  exists o p',
    check_disqualification_transaction tx tx_hash p = (o, p') /\
    logs_only p p' /\
    (o = Val true <-> disqualification_accepted l d).
Proof.
  intros Hv Hl Hd. unfold check_disqualification_transaction, disqualification_accepted.
  rewrite Hv, Hd. run.
  destruct (get_block_id_by_height (block_height_of (item d))) as [b_hash |]; run;
    [| logs_done; split; [discriminate | intros [[=] _]]].
  destruct (Z.eqb_spec b_hash (block_hash_of (item d))) as [-> | Hne]; run;
    [| logs_done; split; [discriminate | intros [[= ?] _]; contradiction]].
  rewrite Hl.
  destruct (Z.leb_spec (history_depth l)
              (sub64 (block_height l) (block_height_of (item d)))) as [Hdepth | Hdepth]; run;
    [logs_done; split; [discriminate | intros (_ & ? & _); lia] |].
  destruct (Z.ltb_spec (Z.of_nat (length (signers d))) REQUIRED_BBQS_VOTES)
    as [Hfew | Hvotes]; run;
    [logs_done; split; [discriminate | intros (_ & _ & ? & _); lia] |].
  unfold BBQS_QCL.
  set (snapshot := tiers (sub64 (block_height l) (block_height_of (item d))) l).
  destruct (select_BBQS_QCL (block_hash_of (item d)) (makeBBLindexes snapshot))
    as [bbqs_idxs qcl_idxs]. cbn [fst snd].
  pose proof (fromIndexes_run snapshot bbqs_idxs p) as Hbbqs.
  destruct (ids_at snapshot bbqs_idxs) as [bbqs |]; cbn [mbind option_bind];
    [| destruct Hbbqs as [why ->]; logs_done;
       split; [discriminate | intros (_ & _ & _ & ? & ? & [=] & _)]].
  rewrite Hbbqs.
  pose proof (fromIndexes_run snapshot qcl_idxs p) as Hqcl.
  destruct (ids_at snapshot qcl_idxs) as [qcl |]; cbn [mbind option_bind];
    [| destruct Hqcl as [why ->]; logs_done;
       split; [discriminate | intros (_ & _ & _ & ? & ? & [=] & _)]].
  rewrite Hqcl.
  destruct (none_of (id_of (item d)) qcl) eqn:Hnone; run.
  - logs_done.
    split; [discriminate |]. intros (_ & _ & _ & bbqs' & qcl' & [= <- <-] & Hin & _).
    apply none_of_true in Hnone. contradiction.
  - apply none_of_false in Hnone.
    destruct (check_signers_run
                (String.append IGNORE_DISQUALIFICATION "; signer id {} is not in BBQS")
                tx_hash bbqs (signers d) p) as (b & p' & Hrun & Hlogs & Hb).
    exists (Val b), p'. split; [exact Hrun |]. split; [exact Hlogs |]. split.
    + intros [= ->]. repeat split; try assumption; try lia.
      exists bbqs, qcl. repeat split; [assumption | apply Hb; reflexivity].
    + intros (_ & _ & _ & bbqs' & qcl' & [= <- <-] & _ & Hall).
      f_equal. apply Hb. exact Hall.
Qed.

(** C1: a version 123 transaction passes
    [check_disqualification_transaction] exactly when its extra field decodes
    to a record, the blockchain has the hash of the record at the height of
    the record, the depth [block_height() - disq.block_height] (a [size_t])
    is below [history_depth()], there are at least [REQUIRED_BBQS_VOTES]
    signers, the disqualified identifier is in the QCL and every signer is in
    the BBQS selected from the snapshot at that depth with the block hash as
    seed.  The check writes log records and nothing else. *)
Theorem check_disqualification_iff (tx : transaction) (tx_hash : hash) (p : state) (l : bbl) :
  version tx = 123 -> m_blockchain_based_list p = Some l ->
  (fst (check_disqualification_transaction tx tx_hash p) = Val true <->
   exists d, graft_check_disqualification tx = Some d /\ disqualification_accepted l d) /\
  logs_only p (snd (check_disqualification_transaction tx tx_hash p)).
Proof.
  intros Hv Hl.
  destruct (graft_check_disqualification tx) as [d |] eqn:Hd.
  - destruct (check_disqualification_decoded tx tx_hash p l d Hv Hl Hd)
      as (o & p' & Hrun & Hlogs & Ho).
    rewrite Hrun. cbn [fst snd]. split; [| exact Hlogs]. rewrite Ho. split.
    + intros Hacc. exists d. auto.
    + intros (d' & [= <-] & Hacc). exact Hacc.
  - unfold check_disqualification_transaction. rewrite Hv, Hd. run.
    split; [| apply logs_only_logged].
    split; [discriminate | intros (d & [=] & _)].
Qed.

(** The checks that follow the decoding of a version 124 record. *)
Lemma check_disqualification2_decoded (tx : transaction) (tx_hash : hash) (p : state)
    (l : bbl) (d : tx_extra_graft_disqualification2) :
  version tx = 124 -> m_blockchain_based_list p = Some l ->
  graft_check_disqualification2 tx = Some d ->
  exists o p',
    check_disqualification2_transaction tx tx_hash p = (o, p') /\
    logs_only p p' /\
    (o = Val true <-> disqualification2_accepted l d) /\
    (forall auths id,
       get_block_id_by_height (block_height_of2 (item2 d)) = Some (block_hash_of2 (item2 d)) ->
       sub64 (block_height l) (block_height_of2 (item2 d)) < history_depth l ->
       REQUIRED_DISQUAL2_VOTES <= Z.of_nat (length (signers2 d)) ->
       AuthSample l d = Some auths -> In id (ids (item2 d)) -> ~ In id auths ->
       o = Val false).
Proof.
  intros Hv Hl Hd. unfold check_disqualification2_transaction, disqualification2_accepted.
  rewrite Hv, Hd. run.
  destruct (get_block_id_by_height (block_height_of2 (item2 d))) as [b_hash |]; run;
    [| logs_done; split; [split; [discriminate | intros [[=] _]] | intros ? ? [=]]].
  destruct (Z.eqb_spec b_hash (block_hash_of2 (item2 d))) as [-> | Hne]; run;
    [| logs_done; split; [split; [discriminate | intros [[= ?] _]; contradiction]
                         | intros ? ? [= ?]; contradiction]].
  rewrite Hl.
  destruct (Z.leb_spec (history_depth l)
              (sub64 (block_height l) (block_height_of2 (item2 d)))) as [Hdepth | Hdepth]; run;
    [logs_done; split; [split; [discriminate | intros (_ & ? & _); lia]
                       | intros ? ? _ ?; lia] |].
  destruct (Z.ltb_spec (Z.of_nat (length (signers2 d))) REQUIRED_DISQUAL2_VOTES)
    as [Hfew | Hvotes]; run;
    [logs_done; split; [split; [discriminate | intros (_ & _ & ? & _); lia]
                       | intros ? ? _ _ ?; lia] |].
  unfold AuthSample.
  set (snapshot := tiers (sub64 (block_height l) (block_height_of2 (item2 d))) l).
  set (auths_idxs := select_AuthSample (payment_id (item2 d)) (makeBBLindexes snapshot)).
  pose proof (fromIndexes_run snapshot auths_idxs p) as Hauths.
  destruct (ids_at snapshot auths_idxs) as [auths |];
    [| destruct Hauths as [why ->]; logs_done;
       split; [split; [discriminate | intros (_ & _ & _ & ? & [=] & _)]
              | intros ? ? _ _ _ [=]]].
  rewrite Hauths.
  destruct (check_ids_run tx_hash auths (ids (item2 d)) p) as (ok & p1 & Hrun1 & Hlogs1 & Hok).
  rewrite Hrun1. destruct ok.
  - destruct (check_signers_run
                (String.append IGNORE_DISQUALIFICATION2
                   "; signer id {} is not in the auth sample")
                tx_hash auths (signers2 d) p1) as (b & p2 & Hrun2 & Hlogs2 & Hb).
    exists (Val b), p2. split; [exact Hrun2 |].
    split; [apply (logs_only_trans p p1 p2); assumption |]. split.
    + split.
      * intros [= ->]. repeat split; try assumption; try lia.
        exists auths. repeat split; [apply Hok | apply Hb]; reflexivity.
      * intros (_ & _ & _ & auths' & [= <-] & _ & Hall). f_equal. apply Hb. exact Hall.
    + intros auths' id _ _ _ [= <-] Hin Hout. exfalso.
      assert (Hall : Forall (fun id => In id auths) (ids (item2 d))) by (apply Hok; reflexivity).
      rewrite Forall_forall in Hall. apply Hout, Hall. apply list_elem_of_In. exact Hin.
  - exists (Val false), p1. split; [reflexivity |]. split; [exact Hlogs1 |]. split.
    + split; [discriminate |]. intros (_ & _ & _ & auths' & [= <-] & Hall & _).
      apply Hok in Hall. discriminate.
    + reflexivity.
Qed.

(** C7: a version 124 transaction passes
    [check_disqualification2_transaction] exactly when its extra field
    decodes to a record, the blockchain has the hash of the record at the
    height of the record, the depth is below [history_depth()], there are at
    least [REQUIRED_DISQUAL2_VOTES] signers, and every disqualified
    identifier and every signer is in the auth sample selected from the
    snapshot at that depth with the payment identifier as seed.  A record
    that passes the earlier checks and names an identifier outside the auth
    sample is answered [false].  In every case the check writes log records
    and nothing else: the stores, the flags and the handlers are as before. *)
Theorem check_disqualification2_iff (tx : transaction) (tx_hash : hash) (p : state) (l : bbl) :
  version tx = 124 -> m_blockchain_based_list p = Some l ->
  (fst (check_disqualification2_transaction tx tx_hash p) = Val true <->
   exists d, graft_check_disqualification2 tx = Some d /\ disqualification2_accepted l d) /\
  (forall d auths id,
     graft_check_disqualification2 tx = Some d ->
     get_block_id_by_height (block_height_of2 (item2 d)) = Some (block_hash_of2 (item2 d)) ->
     sub64 (block_height l) (block_height_of2 (item2 d)) < history_depth l ->
     REQUIRED_DISQUAL2_VOTES <= Z.of_nat (length (signers2 d)) ->
     AuthSample l d = Some auths -> In id (ids (item2 d)) -> ~ In id auths ->
     fst (check_disqualification2_transaction tx tx_hash p) = Val false) /\
  logs_only p (snd (check_disqualification2_transaction tx tx_hash p)).
Proof.
  intros Hv Hl.
  destruct (graft_check_disqualification2 tx) as [d |] eqn:Hd.
  - destruct (check_disqualification2_decoded tx tx_hash p l d Hv Hl Hd)
      as (o & p' & Hrun & Hlogs & Ho & Hout).
    rewrite Hrun. cbn [fst snd]. split; [| split; [| exact Hlogs]].
    + rewrite Ho. split.
      * intros Hacc. exists d. auto.
      * intros (d' & [= <-] & Hacc). exact Hacc.
    + intros d' auths id [= <-]. apply Hout.
  - unfold check_disqualification2_transaction. rewrite Hv, Hd. run.
    split; [| split; [| apply logs_only_logged]].
    + split; [discriminate | intros (d & [=] & _)].
    + intros d auths id [=].
Qed.

(** *** The transactions of a block *)

Lemma with_storage_with_log (x : option sts) (l : list log_record) (p : state) :
  with_storage x (with_log l p) = with_log l (with_storage x p).
Proof.
  revert p. induction l as [| r l IH]; intros p; [reflexivity |].
  unfold with_log in *. cbn [fold_left]. rewrite IH. reflexivity.
Qed.

Lemma with_log_app (l1 l2 : list log_record) (p : state) :
  with_log l2 (with_log l1 p) = with_log (l1 ++ l2) p.
Proof. unfold with_log. rewrite fold_left_app. reflexivity. Qed.

Lemma with_storage_same (s : sts) (p : state) :
  m_storage p = Some s -> with_storage (Some s) p = p.
Proof. intros Hs. destruct p. cbn in *. subst. reflexivity. Qed.

Lemma storage_and_log_only_fields (p p' : state) :
  storage_and_log_only p p' ->
  is_Some (m_storage p') /\
  m_config_dir p' = m_config_dir p /\
  m_blockchain_based_list p' = m_blockchain_based_list p /\
  m_on_stakes_update p' = m_on_stakes_update p /\
  m_on_blockchain_based_list_update p' = m_on_blockchain_based_list_update p /\
  m_stakes_need_update p' = m_stakes_need_update p /\
  m_blockchain_based_list_need_update p' = m_blockchain_based_list_need_update p /\
  handler_calls p' = handler_calls p /\
  exists l, logged p' = logged p ++ l.
Proof.
  intros (s' & l & ->).
  destruct (with_log_fields l (with_storage (Some s') p))
    as (H1 & H2 & H3 & H4 & H5 & H6 & H7 & H8 & H9).
  rewrite H1, H2, H3, H4, H5, H6, H7, H8, H9. cbn.
  repeat split; eauto.
Qed.

Lemma storage_and_log_only_of_logs (p p' : state) (s : sts) :
  m_storage p = Some s -> logs_only p p' -> storage_and_log_only p p'.
Proof.
  intros Hs [l ->]. exists s, l. rewrite (with_storage_same s p Hs). reflexivity.
Qed.

Lemma storage_and_log_only_trans (p q r : state) :
  storage_and_log_only p q -> storage_and_log_only q r -> storage_and_log_only p r.
Proof.
  intros (s1 & l1 & ->) (s2 & l2 & ->). exists s2, (l1 ++ l2).
  rewrite with_storage_with_log, with_log_app. reflexivity.
Qed.

(** The body for a stake candidate returns, with the storage in place. *)
Lemma process_stake_transaction_run (block_index : Z) (tx : transaction) (tx_hash : hash)
    (p : state) (s : sts) :
  rct_in_range tx ->
  m_storage p = Some s ->
  exists p', process_stake_transaction block_index tx tx_hash p = (Val tt, p') /\
             storage_and_log_only p p'.
Proof.
  intros Hrange Hs.
  assert (Hlog : forall r, storage_and_log_only p (with_logged r p))
    by (intros r; apply (storage_and_log_only_of_logs p _ s Hs), logs_only_logged).
  unfold process_stake_transaction.
  destruct (get_graft_stake_tx_extra_from_extra tx) as [e |];
    [| exists p; split; [reflexivity |];
       apply (storage_and_log_only_of_logs p p s Hs), logs_only_refl].
  destruct (decode_public_id (extra_supernode_public_id e)) as [W |];
    [| eexists; split; [reflexivity | apply Hlog]].
  destruct (check_signature (stake_signed_hash e) W (extra_supernode_signature e));
    cbn [negb]; [| eexists; split; [reflexivity | apply Hlog]].
  destruct (sub64 (unlock_time tx) block_index <? STAKE_MIN_UNLOCK_TIME);
    [eexists; split; [reflexivity | apply Hlog] |].
  destruct (sub64 (unlock_time tx) block_index >? STAKE_MAX_UNLOCK_TIME);
    [eexists; split; [reflexivity | apply Hlog] |].
  destruct (get_transaction_amount_in_range tx (extra_supernode_public_address e)
              (extra_tx_secret_key e) Hrange) as [amount ->].
  destruct (amount =? 0);
    [eexists; split; [reflexivity | apply Hlog] |].
  run. rewrite Hs. eexists. split; [reflexivity |]. eexists _, [_]. reflexivity.
Qed.

(** One turn of the loop: it returns, with the storage in place. *)
Lemma process_transaction_run (block_index : Z) (block_hash : hash) (tx : transaction)
    (acc : batches) (p : state) (s : sts) :
  rct_in_range tx ->
  m_storage p = Some s ->
  exists acc' p',
    process_transaction block_index block_hash tx acc p = (Val acc', p') /\
    storage_and_log_only p p'.
Proof.
  intros Hrange Hs.
  destruct (Z.eq_dec (version tx) 123) as [H123 | H123];
    [destruct (process_transaction_disqualification block_index block_hash tx acc p)
       as (acc' & p' & Hrun & Hlogs); [auto |];
     exists acc', p'; split; [exact Hrun | apply (storage_and_log_only_of_logs p p' s); assumption] |].
  destruct (Z.eq_dec (version tx) 124) as [H124 | H124];
    [destruct (process_transaction_disqualification block_index block_hash tx acc p)
       as (acc' & p' & Hrun & Hlogs); [auto |];
     exists acc', p'; split; [exact Hrun | apply (storage_and_log_only_of_logs p p' s); assumption] |].
  destruct (process_stake_transaction_run block_index tx (get_transaction_prefix_hash tx) p s
              Hrange Hs) as (p' & Hrun & Hframe).
  exists acc, p'. split; [apply process_transaction_stake; assumption | exact Hframe].
Qed.

(** The loop over the transactions returns, with the storage in place. *)
Lemma process_transactions_run (block_index : Z) (block_hash : hash) (txs : list transaction)
    (acc : batches) (p : state) (s : sts) :
  Forall rct_in_range txs ->
  m_storage p = Some s ->
  exists acc' p',
    process_transactions block_index block_hash txs acc p = (Val acc', p') /\
    storage_and_log_only p p'.
Proof.
  revert acc p s. induction txs as [| tx rest IH]; intros acc p s Hrange Hs.
  - exists acc, p. split; [reflexivity |].
    apply (storage_and_log_only_of_logs p p s Hs), logs_only_refl.
  - apply Forall_cons_1 in Hrange. destruct Hrange as [Htx Hrest].
    destruct (process_transaction_run block_index block_hash tx acc p s Htx Hs)
      as (acc1 & p1 & Hrun1 & Hframe1).
    destruct (storage_and_log_only_fields p p1 Hframe1) as ([s1 Hs1] & _).
    destruct (IH acc1 p1 s1 Hrest Hs1) as (acc2 & p2 & Hrun2 & Hframe2).
    exists acc2, p2. split.
    + cbn [process_transactions]. unfold bind. rewrite Hrun1. exact Hrun2.
    + apply (storage_and_log_only_trans p p1 p2); assumption.
Qed.

(** The report of the missed hashes: the header, then one record per
    hash. *)
Lemma report_missed_run (block_index : Z) (missed_txs : list hash) (p : state) :
  exists l,
    report_missed block_index missed_txs p = (Val tt, with_log l p) /\
    (missed_txs <> [] ->
       In (MWARNING "Some transactions for block #{} have been missed:" [block_index]) l) /\
    (forall tx_hash, In tx_hash missed_txs -> In (MWARNING "  {}" [tx_hash]) l).
Proof.
  unfold report_missed. destruct (bool_decide_reflect (missed_txs = [])) as [-> | Hne].
  - exists []. split; [reflexivity |]. split; [congruence | intros ? []].
  - match goal with
    | |- context [fold_right ?g ?b missed_txs] => set (f := g); set (z := b)
    end.
    assert (Hfold : forall q : state,
              exists l,
                fold_right f z missed_txs q = (Val tt, with_log l q) /\
                forall tx_hash, In tx_hash missed_txs -> In (MWARNING "  {}" [tx_hash]) l).
    { clear Hne. induction missed_txs as [| h rest IH]; intros q.
      - exists []. split; [reflexivity | intros ? []].
      - cbn [fold_right]. unfold f at 1. run.
        destruct (IH (with_logged (MWARNING "  {}" [h]) q)) as (l & Hrun & Hin).
        exists (MWARNING "  {}" [h] :: l). split; [exact Hrun |].
        intros x [<- | Hx]; [left; reflexivity | right; apply Hin; exact Hx]. }
    run.
    destruct (Hfold (with_logged
                       (MWARNING "Some transactions for block #{} have been missed:"
                          [block_index]) p)) as (l & Hrun & Hin).
    exists (MWARNING "Some transactions for block #{} have been missed:" [block_index] :: l).
    split; [exact Hrun |]. split; [intros _; left; reflexivity |].
    intros x Hx. right. apply Hin. exact Hx.
Qed.

(** *** Blocks *)

Ltac fields :=
  cbn [m_config_dir m_storage m_blockchain_based_list m_on_stakes_update
       m_on_blockchain_based_list_update m_stakes_need_update
       m_blockchain_based_list_need_update logged handler_calls
       with_config_dir with_storage with_blockchain_based_list with_on_stakes_update
       with_on_blockchain_based_list_update with_stakes_need_update
       with_blockchain_based_list_need_update with_logged with_handler_call].

(** [process_block_blockchain_based_list] applies the block to the list,
    whatever the storage made of it. *)
Lemma process_block_blockchain_based_list_run (block_index : Z) (blk : block)
    (block_hash : hash) (update_storage : bool) (p : state) (s : sts) (l : bbl) :
  m_storage p = Some s -> m_blockchain_based_list p = Some l ->
  exists p',
    process_block_blockchain_based_list block_index blk block_hash update_storage p =
      (Val tt, p') /\
    m_blockchain_based_list p' = Some (list_after block_index block_hash update_storage s l) /\
    m_blockchain_based_list_need_update p' =
      m_blockchain_based_list_need_update p || list_changed block_index block_hash s l /\
    m_storage p' = m_storage p /\
    m_stakes_need_update p' = m_stakes_need_update p /\
    logged p' = logged p /\
    handler_calls p' = handler_calls p.
Proof.
  intros Hs Hl. unfold process_block_blockchain_based_list, list_after, list_changed.
  repeat progress (run; fields; rewrite ?Hl, ?Hs).
  destruct (list_need_store (apply_block block_index block_hash s l)
            || negb (block_height l =? block_height (apply_block block_index block_hash s l)));
    [destruct update_storage |]; repeat progress (run; fields);
    (eexists; split; [reflexivity |]; fields;
     rewrite ?orb_true_r, ?orb_false_r; repeat split; assumption).
Qed.

(** C4, as amended: for a block index at or below the last processed one,
    [process_block] leaves the storage, its flag and the log as they were,
    and still applies the block to the blockchain based list: the list
    becomes what [apply_block] makes of it (saved when it changed and the
    caller asked for it), and its flag is set when it changed. *)
Theorem process_block_already_processed (block_index : Z) (blk : block) (block_hash : hash)
    (update_storage : bool) (p : state) (s : sts) (l : bbl) :
  m_storage p = Some s -> m_blockchain_based_list p = Some l ->
  block_index <= get_last_processed_block_index s ->
  exists p',
    process_block block_index blk block_hash update_storage p = (Val tt, p') /\
    m_storage p' = Some s /\
    m_stakes_need_update p' = m_stakes_need_update p /\
    logged p' = logged p /\
    handler_calls p' = handler_calls p /\
    m_blockchain_based_list p' = Some (list_after block_index block_hash update_storage s l) /\
    m_blockchain_based_list_need_update p' =
      m_blockchain_based_list_need_update p || list_changed block_index block_hash s l.
Proof.
  intros Hs Hl Hle.
  destruct (process_block_blockchain_based_list_run block_index blk block_hash
              update_storage p s l Hs Hl) as (p' & Hrun & Hl' & Hflag & Hs' & Hsf & Hlog & Hcalls).
  exists p'. split.
  - unfold process_block, process_block_stake_transaction. run. rewrite Hs.
    destruct (Z.leb_spec block_index (get_last_processed_block_index s)) as [_ | Hgt]; [| lia].
    exact Hrun.
  - rewrite Hs' in *. repeat split; assumption.
Qed.

(** When the transactions of a new block cannot be fetched,
    [process_block_stake_transaction] logs and returns: the block is not
    recorded as processed. *)
Lemma process_block_stake_transaction_fetch_failure (block_index : Z) (blk : block)
    (block_hash : hash) (update_storage : bool) (p : state) (s : sts) :
  m_storage p = Some s ->
  get_last_processed_block_index s < block_index ->
  STAKE_TRANSACTION_PROCESSING_DB_VERSION <= get_hard_fork_version block_index ->
  get_transactions (tx_hashes blk) = None ->
  process_block_stake_transaction block_index blk block_hash update_storage p =
  (Val tt, with_logged (MWARNING "Unable to get transactions for block #{}" [block_index]) p).
Proof.
  intros Hs Hnew Hfork Hget. unfold process_block_stake_transaction. run. rewrite Hs.
  destruct (Z.leb_spec block_index (get_last_processed_block_index s)) as [Hle | _]; [lia |].
  destruct (Z.geb_spec (get_hard_fork_version block_index)
              STAKE_TRANSACTION_PROCESSING_DB_VERSION) as [_ | Hlt]; [| lia].
  rewrite Hget. reflexivity.
Qed.

(** When the transactions of a new block are fetched, whatever hashes were
    missed, the block is recorded as processed. *)
Lemma process_block_stake_transaction_fetched (block_index : Z) (blk : block)
    (block_hash : hash) (update_storage : bool) (p : state) (s : sts)
    (txs : list transaction) (missed_txs : list hash) :
  m_storage p = Some s ->
  get_last_processed_block_index s < block_index ->
  STAKE_TRANSACTION_PROCESSING_DB_VERSION <= get_hard_fork_version block_index ->
  get_transactions (tx_hashes blk) = Some (txs, missed_txs) ->
  Forall rct_in_range txs ->
  exists (s' : sts) (disquals : list disqualification)
         (disquals2 : list disqualification2_storage_item) (p' : state),
    process_block_stake_transaction block_index blk block_hash update_storage p =
      (Val tt, p') /\
    m_storage p' =
      Some (recorded block_index block_hash update_storage
              (update_supernode_stakes block_index
                 (add_disquals2 disquals2 (add_disquals disquals s')))) /\
    m_stakes_need_update p' = true /\
    m_blockchain_based_list p' = m_blockchain_based_list p /\
    (missed_txs <> [] ->
       In (MWARNING "Some transactions for block #{} have been missed:" [block_index])
          (logged p')) /\
    (forall tx_hash, In tx_hash missed_txs -> In (MWARNING "  {}" [tx_hash]) (logged p')).
Proof.
  intros Hs Hnew Hfork Hget Hrange.
  destruct (report_missed_run block_index missed_txs p) as (lm & Hmissed & Hhead & Heach).
  assert (Hs1 : m_storage (with_log lm p) = Some s)
    by (rewrite <- Hs; apply with_log_fields).
  destruct (process_transactions_run block_index block_hash txs ([], []) (with_log lm p) s
              Hrange Hs1)
    as ([disquals disquals2] & p2 & Hloop & s2 & l2 & Hp2).
  destruct (with_log_fields l2 (with_storage (Some s2) (with_log lm p)))
    as (_ & Hs2 & Hl2 & _ & _ & _ & _ & _ & Hlog2).
  rewrite <- Hp2 in Hs2, Hl2, Hlog2. cbn [m_storage with_storage] in Hs2.
  cbn [m_blockchain_based_list with_storage logged] in Hl2, Hlog2.
  destruct (with_log_fields lm p) as (_ & _ & Hl1 & _ & _ & _ & _ & _ & Hlog1).
  rewrite Hl1 in Hl2. rewrite Hlog1 in Hlog2.
  exists s2, disquals, disquals2.
  unfold process_block_stake_transaction, record_processed_block, recorded. run. rewrite Hs.
  destruct (Z.leb_spec block_index (get_last_processed_block_index s)) as [Hle | _]; [lia |].
  destruct (Z.geb_spec (get_hard_fork_version block_index)
              STAKE_TRANSACTION_PROCESSING_DB_VERSION) as [_ | Hlt]; [| lia].
  rewrite Hget, Hmissed, Hloop, Hs2. fields.
  assert (Hin : forall r, In r lm -> In r (logged p2))
    by (intros r Hr; rewrite Hlog2, !in_app_iff; auto).
  destruct update_storage; run; fields;
    (eexists; split; [reflexivity |]; fields;
     repeat split; [exact Hl2 | intros Hne; apply Hin, Hhead, Hne
                   | intros x Hx; apply Hin, Heach, Hx]).
Qed.

(** C5, as amended: in [process_block] for a new block at or above the
    hard-fork threshold, what becomes of the block depends on the fetch of
    its transactions.  When [get_transactions] answers (and the RingCT data
    of the transactions it gives has an entry per output), the hashes it
    missed are logged and the block is recorded as processed:
    [add_last_processed_block] is executed on the storage reached by the loop
    over the transactions, the two batches of disqualifications and the
    update of the supernode stakes.  When [get_transactions] fails, a warning
    is logged and the storage is left as it was: the block is not recorded
    as processed; the block is still applied to the blockchain based
    list. *)
Theorem process_block_records_block (block_index : Z) (blk : block) (block_hash : hash)
    (update_storage : bool) (p : state) (s : sts) (l : bbl) :
  m_storage p = Some s -> m_blockchain_based_list p = Some l ->
  get_last_processed_block_index s < block_index ->
  STAKE_TRANSACTION_PROCESSING_DB_VERSION <= get_hard_fork_version block_index ->
  match get_transactions (tx_hashes blk) with
  | Some (txs, missed_txs) =>
      Forall rct_in_range txs ->
      exists (s' : sts) (disquals : list disqualification)
             (disquals2 : list disqualification2_storage_item) (p' : state),
        process_block block_index blk block_hash update_storage p = (Val tt, p') /\
        m_storage p' =
          Some (recorded block_index block_hash update_storage
                  (update_supernode_stakes block_index
                     (add_disquals2 disquals2 (add_disquals disquals s')))) /\
        (missed_txs <> [] ->
           In (MWARNING "Some transactions for block #{} have been missed:" [block_index])
              (logged p')) /\
        (forall tx_hash, In tx_hash missed_txs -> In (MWARNING "  {}" [tx_hash]) (logged p'))
  | None =>
      exists p' : state,
        process_block block_index blk block_hash update_storage p = (Val tt, p') /\
        m_storage p' = Some s /\
        logged p' =
          logged p ++ [MWARNING "Unable to get transactions for block #{}" [block_index]] /\
        m_blockchain_based_list p' =
          Some (list_after block_index block_hash update_storage s l)
  end.
Proof.
  intros Hs Hl Hnew Hfork.
  destruct (get_transactions (tx_hashes blk)) as [[txs missed_txs] |] eqn:Hget.
  - intros Hrange.
    destruct (process_block_stake_transaction_fetched block_index blk block_hash update_storage
                p s txs missed_txs Hs Hnew Hfork Hget Hrange)
      as (s' & disquals & disquals2 & p1 & Hrun1 & Hs1 & _ & Hl1 & Hhead & Heach).
    rewrite Hl in Hl1.
    destruct (process_block_blockchain_based_list_run block_index blk block_hash
                update_storage p1 _ l Hs1 Hl1)
      as (p2 & Hrun2 & _ & _ & Hs2 & _ & Hlog2 & _).
    exists s', disquals, disquals2, p2. split.
    + unfold process_block, bind. rewrite Hrun1. exact Hrun2.
    + rewrite Hs2, Hlog2. repeat split; assumption.
  - pose proof (process_block_stake_transaction_fetch_failure block_index blk block_hash
                  update_storage p s Hs Hnew Hfork Hget) as Hrun1.
    set (p1 := with_logged
                 (MWARNING "Unable to get transactions for block #{}" [block_index]) p) in *.
    destruct (process_block_blockchain_based_list_run block_index blk block_hash
                update_storage p1 s l Hs Hl)
      as (p2 & Hrun2 & Hl2 & _ & Hs2 & _ & Hlog2 & _).
    exists p2. split; [unfold process_block, bind; rewrite Hrun1; exact Hrun2 |].
    split; [rewrite Hs2; exact Hs |]. split; [rewrite Hlog2; reflexivity | exact Hl2].
Qed.

(** *** The unroll loop *)

Lemma probe_last_processed_block_run (s : sts) (height : Z) (p : state) :
  probe_last_processed_block s height p =
  (Val (if get_last_processed_block_index s <? height then
          match get_block_id_by_height (get_last_processed_block_index s) with
          | Some h => if get_last_processed_block_hash s =? h then tail_agrees else tail_differs
          | None => block_missing
          end
        else tail_differs), p).
Proof.
  unfold probe_last_processed_block.
  destruct (get_last_processed_block_index s <? height); [| reflexivity].
  run. destruct (get_block_id_by_height (get_last_processed_block_index s)) as [h |]; run;
    [| reflexivity].
  destruct (get_last_processed_block_hash s =? h); reflexivity.
Qed.

(** The unroll of the last processed block: the tip of the storage goes,
    the stakes are cleared when the count of stake transactions changed, the
    tip of the list goes when it is that block. *)
Lemma unroll_last_processed_block_run (height : Z) (p : state) (s : sts) (l : bbl) :
  m_storage p = Some s -> m_blockchain_based_list p = Some l ->
  exists p',
    unroll_last_processed_block (get_last_processed_block_index s) (get_tx_count s) height p =
      (Val tt, p') /\
    m_storage p' = Some (unrolled_storage s) /\
    m_blockchain_based_list p' = Some (unrolled_list s l) /\
    logged p' = logged p ++
      [MWARNING "Stake transactions processing: unroll block {} (height={})"
         [get_last_processed_block_index s; height]] /\
    m_stakes_need_update p' = m_stakes_need_update p /\
    m_blockchain_based_list_need_update p' = m_blockchain_based_list_need_update p /\
    m_on_stakes_update p' = m_on_stakes_update p /\
    m_on_blockchain_based_list_update p' = m_on_blockchain_based_list_update p /\
    handler_calls p' = handler_calls p.
Proof.
  intros Hs Hl. unfold unroll_last_processed_block, unrolled_storage, unrolled_list.
  repeat progress (run; fields; rewrite ?Hs, ?Hl).
  destruct (get_tx_count s =? get_tx_count (remove_last_processed_block s));
    repeat progress (run; fields; rewrite ?Hs, ?Hl);
    destruct (block_height l =? get_last_processed_block_index s);
    repeat progress (run; fields; rewrite ?Hs, ?Hl);
    (eexists; split; [reflexivity |]; fields; repeat split; assumption).
Qed.

(** With both stores open, on a blockchain at or above the threshold,
    [synchronize] is its [try] block. *)
Lemma synchronize_open (fuel : nat) (q : state) :
  get_current_blockchain_height <> 0 ->
  STAKE_TRANSACTION_PROCESSING_DB_VERSION
    <= get_hard_fork_version (sub64 get_current_blockchain_height 1) ->
  is_Some (m_storage q) -> is_Some (m_blockchain_based_list q) ->
  synchronize fuel q =
  catch_std_exception
    (do e <- unroll fuel get_current_blockchain_height;
     match e with
     | unroll_wait => ret tt
     | unroll_done => apply_new get_current_blockchain_height
     end)
    (fun e => warning (what e) []) q.
Proof.
  intros Hne Hfork Hs Hl. unfold synchronize.
  destruct (Z.eqb_spec get_current_blockchain_height 0) as [| _]; [contradiction |].
  destruct (Z.ltb_spec (get_hard_fork_version (sub64 get_current_blockchain_height 1))
              STAKE_TRANSACTION_PROCESSING_DB_VERSION) as [| _]; [lia |].
  cbn [orb]. unfold bind at 1, get. unfold bind at 1.
  rewrite (bool_decide_eq_true_2 _ Hs), (bool_decide_eq_true_2 _ Hl). reflexivity.
Qed.

(** C6: the unroll loop of [synchronize], on a storage that has a last
    processed block of index [lpi] and hash [lph].  The turn for that block
    stops the loop exactly when [lpi] is below the height and the blockchain
    has [lph] at [lpi], and the loop is then left with nothing removed.  When
    [lpi] is below the height and the blockchain has no block at [lpi]
    ([BLOCK_DNE]), the loop is left for a [return], the processor untouched,
    and [synchronize] returns that processor: no block is applied.  Otherwise
    the tip of the storage is removed, [clear_supernode_stakes] is called
    exactly when the count of stake transactions changed, the tip of the list
    is removed exactly when [block_height()] is [lpi], and the loop, and
    [synchronize] with it, goes on from the processor so reached. *)
Theorem unroll_cases (fuel : nat) (height : Z) (p : state) (s : sts) (l : bbl) :
  m_storage p = Some s -> m_blockchain_based_list p = Some l ->
  has_last_processed_block s = true ->
  let lpi := get_last_processed_block_index s in
  let lph := get_last_processed_block_hash s in
  let synchronizing :=
    height = get_current_blockchain_height /\ height <> 0 /\
    STAKE_TRANSACTION_PROCESSING_DB_VERSION <= get_hard_fork_version (sub64 height 1) in
  (fst (unroll_step height p) = Val (unroll_stop unroll_done) <->
   lpi < height /\ get_block_id_by_height lpi = Some lph) /\
  (lpi < height /\ get_block_id_by_height lpi = Some lph ->
   unroll (S fuel) height p = (Val unroll_done, p)) /\
  (lpi < height /\ get_block_id_by_height lpi = None ->
   unroll (S fuel) height p = (Val unroll_wait, p) /\
   (synchronizing -> synchronize (S fuel) p = (Val tt, p))) /\
  (~ (lpi < height /\ get_block_id_by_height lpi = Some lph) ->
   ~ (lpi < height /\ get_block_id_by_height lpi = None) ->
   exists p',
     m_storage p' =
       Some (let s' := remove_last_processed_block s in
             if get_tx_count s =? get_tx_count s' then s' else clear_supernode_stakes s') /\
     m_blockchain_based_list p' =
       Some (if block_height l =? lpi then remove_latest_block l else l) /\
     logged p' = logged p ++
       [MWARNING "Stake transactions processing: unroll block {} (height={})" [lpi; height]] /\
     unroll (S fuel) height p = unroll fuel height p' /\
     (synchronizing -> synchronize (S fuel) p = synchronize fuel p')).
Proof.
  intros Hs Hl Hlast lpi lph synchronizing.
  assert (Hstep : unroll_step height p =
            (do r <- probe_last_processed_block s height;
             match r with
             | tail_agrees => ret (unroll_stop unroll_done)
             | block_missing => ret (unroll_stop unroll_wait)
             | tail_differs =>
                 unroll_last_processed_block lpi (get_tx_count s) height >;> ret unroll_again
             end) p).
  { unfold unroll_step. unfold bind at 1, storage. rewrite Hs, Hlast. reflexivity. }
  unfold bind at 1 in Hstep. rewrite probe_last_processed_block_run in Hstep.
  fold lpi lph in Hstep.
  destruct (unroll_last_processed_block_run height p s l Hs Hl)
    as (p' & Hrun & Hs' & Hl' & Hlog & _).
  fold lpi in Hrun, Hlog. unfold unrolled_storage in Hs'. unfold unrolled_list in Hl'.
  fold lpi in Hl'.
  assert (Hagain : unroll_step height p = (Val unroll_again, p') \/
                   lpi < height /\
                   (get_block_id_by_height lpi = Some lph \/ get_block_id_by_height lpi = None)).
  { destruct (Z.ltb_spec lpi height) as [Hlt | Hge].
    - destruct (get_block_id_by_height lpi) as [h |] eqn:Hh; [| right; auto].
      destruct (Z.eqb_spec lph h) as [Heq | Hne];
        [right; split; [exact Hlt | left; congruence] |].
      left. rewrite Hstep. unfold bind. rewrite Hrun. reflexivity.
    - left. rewrite Hstep. unfold bind. rewrite Hrun. reflexivity. }
  assert (Hstop : lpi < height /\ get_block_id_by_height lpi = Some lph ->
                  unroll_step height p = (Val (unroll_stop unroll_done), p)).
  { intros [Hlt Hh]. rewrite Hstep, Hh.
    destruct (Z.ltb_spec lpi height) as [_ | Hge]; [| lia]. rewrite Z.eqb_refl. reflexivity. }
  assert (Hwait : lpi < height /\ get_block_id_by_height lpi = None ->
                  unroll_step height p = (Val (unroll_stop unroll_wait), p)).
  { intros [Hlt Hh]. rewrite Hstep, Hh.
    destruct (Z.ltb_spec lpi height) as [_ | Hge]; [| lia]. reflexivity. }
  assert (Hloop : forall r q, unroll_step height p = (Val r, q) ->
            unroll (S fuel) height p =
            match r with
            | unroll_stop e => (Val e, q)
            | unroll_again => unroll fuel height q
            end).
  { intros r q Hr. cbn [unroll]. unfold bind. rewrite Hr. destruct r; reflexivity. }
  assert (Hopen : is_Some (m_storage p) /\ is_Some (m_blockchain_based_list p))
    by (rewrite Hs, Hl; eauto).
  assert (Hopen' : is_Some (m_storage p') /\ is_Some (m_blockchain_based_list p'))
    by (rewrite Hs', Hl'; eauto).
  split; [| split; [| split]].
  - split; [| intros Hc; rewrite (Hstop Hc); reflexivity].
    intros Hdone. destruct Hagain as [Hrun' | [Hlt [Hh | Hh]]].
    + rewrite Hrun' in Hdone. discriminate.
    + auto.
    + rewrite (Hwait (conj Hlt Hh)) in Hdone. discriminate.
  - intros Hc. apply (Hloop _ _ (Hstop Hc)).
  - intros Hc. pose proof (Hloop _ _ (Hwait Hc)) as Hleft. split; [exact Hleft |].
    intros (-> & Hne & Hfork).
    rewrite (synchronize_open (S fuel) p Hne Hfork (proj1 Hopen) (proj2 Hopen)).
    unfold catch_std_exception, bind. rewrite Hleft. reflexivity.
  - intros Hnstop Hnwait. exists p'.
    assert (Hrun' : unroll_step height p = (Val unroll_again, p')).
    { destruct Hagain as [Hrun' | [Hlt [Hh | Hh]]]; [exact Hrun' | |].
      - exfalso. apply Hnstop. auto.
      - exfalso. apply Hnwait. auto. }
    pose proof (Hloop _ _ Hrun') as Hon.
    split; [exact Hs' |]. split; [exact Hl' |]. split; [exact Hlog |].
    split; [exact Hon |].
    intros (-> & Hne & Hfork).
    rewrite (synchronize_open (S fuel) p Hne Hfork (proj1 Hopen) (proj2 Hopen)).
    rewrite (synchronize_open fuel p' Hne Hfork (proj1 Hopen') (proj2 Hopen')).
    unfold catch_std_exception, bind. rewrite Hon. reflexivity.
Qed.

(** *** Termination *)

Lemma fuel_free_ret {A : Type} (a : A) : fuel_free (ret a : M state A).
Proof. intros p. discriminate. Qed.

Lemma fuel_free_raise {A : Type} (e : exn) : fuel_free (raise e : M state A).
Proof. intros p. discriminate. Qed.

Lemma fuel_free_abort {A : Type} (why : string) : fuel_free (abort why : M state A).
Proof. intros p. discriminate. Qed.

Lemma fuel_free_modify (f : state -> state) : fuel_free (modify f).
Proof. intros p. discriminate. Qed.

Lemma fuel_free_get : fuel_free (get : M state state).
Proof. intros p. discriminate. Qed.

Lemma fuel_free_storage : fuel_free (storage : M state sts).
Proof. intros p. unfold storage. destruct (m_storage p); discriminate. Qed.

Lemma fuel_free_blockchain_based_list : fuel_free (blockchain_based_list : M state bbl).
Proof.
  intros p. unfold blockchain_based_list. destruct (m_blockchain_based_list p); discriminate.
Qed.

Lemma fuel_free_bind {A B : Type} (m : M state A) (k : A -> M state B) :
  fuel_free m -> (forall a, fuel_free (k a)) -> fuel_free (bind m k).
Proof.
  intros Hm Hk p. unfold bind. specialize (Hm p).
  destruct (m p) as [[a | e | why |] p']; cbn in *; try discriminate; [apply Hk | congruence].
Qed.

Lemma fuel_free_catch_BLOCK_DNE {A : Type} (m h : M state A) :
  fuel_free m -> fuel_free h -> fuel_free (catch_BLOCK_DNE m h).
Proof.
  intros Hm Hh p. unfold catch_BLOCK_DNE. specialize (Hm p).
  destruct (m p) as [[a | [] | why |] p']; cbn in *; try discriminate;
    [apply Hh | congruence].
Qed.

Lemma fuel_free_catch_std_exception {A : Type} (m : M state A) (h : exn -> M state A) :
  fuel_free m -> (forall e, fuel_free (h e)) -> fuel_free (catch_std_exception m h).
Proof.
  intros Hm Hh p. unfold catch_std_exception. specialize (Hm p).
  destruct (m p) as [[a | e | why |] p']; cbn in *; try discriminate;
    [apply Hh | congruence].
Qed.

Create HintDb fuel discriminated.
#[local] Hint Resolve fuel_free_ret fuel_free_raise fuel_free_abort fuel_free_modify
  fuel_free_get fuel_free_storage fuel_free_blockchain_based_list : fuel.

(** A computation put together from the primitives, tests and matches has
    no budget in it. *)
Ltac fuel_free_step :=
  first
    [ progress intros
    | solve [eauto with fuel]
    | apply fuel_free_bind
    | apply fuel_free_catch_BLOCK_DNE
    | apply fuel_free_catch_std_exception
    | match goal with
      | |- fuel_free (if ?c then _ else _) => destruct c
      | |- fuel_free (match ?x with _ => _ end) => destruct x
      | |- fuel_free (let '(_, _) := ?x in _) => destruct x
      end
    | progress unfold assert, warning, debug, error, on_storage, on_blockchain_based_list,
        block_id_by_height, out_of_fuel ].

Ltac fuel_free := repeat fuel_free_step.









(** A turn of the unroll loop that asks for another one has removed the last
    processed block of the storage. *)
Lemma unroll_step_again (height : Z) (p p' : state) :
  unroll_step height p = (Val unroll_again, p') ->
  exists s, m_storage p = Some s /\ has_last_processed_block s = true /\
            m_storage p' = Some (unrolled_storage s).
Proof.
  unfold unroll_step. unfold bind at 1, storage.
  destruct (m_storage p) as [s |] eqn:Hs; [| discriminate].
  destruct (has_last_processed_block s) eqn:Hlast; cbn [negb]; [| discriminate].
  unfold bind at 1. rewrite probe_last_processed_block_run.
  destruct (m_blockchain_based_list p) as [l |] eqn:Hl.
  - destruct (unroll_last_processed_block_run height p s l Hs Hl) as (q & Hrun & Hq & _).
    destruct (if get_last_processed_block_index s <? height then _ else _);
      try discriminate.
    unfold bind. rewrite Hrun. intros [= <-]. exists s. auto.
  - destruct (if get_last_processed_block_index s <? height then _ else _);
      try discriminate.
    unfold unroll_last_processed_block.
    repeat progress (run; fields; rewrite ?Hs, ?Hl).
    destruct (get_tx_count s =? get_tx_count (remove_last_processed_block s));
      repeat progress (run; fields; rewrite ?Hs, ?Hl); discriminate.
Qed.




(** *** The forward loop *)




(** A [BLOCK_DNE] at the block to apply leaves the forward loop at once. *)
Lemma apply_new_blocks_BLOCK_DNE (n : nat) (last_block_index height : Z) (p : state) :
  get_block_id_by_height last_block_index = None ->
  exists p',
    apply_new_blocks (S n) last_block_index height p = (Val last_block_index, p') /\
    logs_only p p' /\
    blocks_processed (S n) last_block_index height p = O.
Proof.
  intros Hdne. cbn [apply_new_blocks blocks_processed]. unfold bind at 1.
  assert (Hat : exists p', apply_block_at last_block_index height p = (Val false, p') /\
                           logs_only p p').
  { unfold apply_block_at.
    destruct ((last_block_index mod SYNC_DEBUG_LOG_STEP =? 0)
              || (last_block_index =? sub64 height 1));
      run; rewrite Hdne; run;
      (eexists; split; [reflexivity | first [apply logs_only_refl | apply logs_only_logged]]). }
  destruct Hat as (p' & -> & Hlogs). exists p'. repeat split. exact Hlogs.
Qed.




(** *** Update handlers *)









(** X16: where the index cannot wrap, the forward loop, when it ends
    without an exception, ends at the first block plus the number of blocks
    it handed to [process_block]: every turn that is not left by [break]
    processes one block and moves on by one. *)
Lemma apply_new_blocks_last (n : nat) (last_block_index height : Z) (p p' : state)
    (last : Z) :
  0 <= last_block_index -> last_block_index + Z.of_nat n < U64_MODULUS ->
  apply_new_blocks n last_block_index height p = (Val last, p') ->
  last = last_block_index + Z.of_nat (blocks_processed n last_block_index height p).
Proof.
  revert last_block_index p. induction n as [| n IH]; intros i p Hi Hn;
    cbn [apply_new_blocks blocks_processed].
  - intros [= <- _]. lia.
  - unfold bind. destruct (apply_block_at i height p) as [[[|] | e | why |] p1];
      try discriminate.
    + rewrite add64_exact by lia. intros Hrun.
      rewrite (IH (i + 1) p1 ltac:(lia) ltac:(lia) Hrun). lia.
    + intros [= <- _]. lia.
Qed.


(** *** The staked amount *)

Lemma wrap64_add_l (a b : Z) : wrap64 (wrap64 a + b) = wrap64 (a + b).
Proof. unfold wrap64. apply Zplus_mod_idemp_l. Qed.

Lemma received_from_sum (derivation : key_derivation) (tx : transaction)
    (address : account_public_address) (tx_key : secret_key) (outs : list tx_out)
    (n received : Z) :
  is_uint64 received ->
  received_from derivation tx address tx_key outs n received =
  match owned_sum derivation tx address tx_key outs n with
  | Some total => Some (wrap64 (received + total))
  | None => None
  end.
Proof.
  revert n received. induction outs as [| out rest IH]; intros n received Hr;
    cbn [received_from owned_sum].
  - rewrite Z.add_0_r. f_equal. symmetry. apply wrap64_small. exact Hr.
  - unfold owned_output, output_amount. destruct (target out) as [key |].
    + destruct (derive_public_key derivation n (m_spend_public_key address) =? key).
      * destruct (if version tx =? 1 then Some (amount out)
                  else rct_output_amount tx address tx_key n) as [a |]; [| reflexivity].
        rewrite IH by apply wrap64_range. unfold add64.
        destruct (owned_sum derivation tx address tx_key rest (n + 1)) as [r |];
          [| reflexivity].
        rewrite wrap64_add_l. do 2 f_equal. lia.
      * apply IH. exact Hr.
    + apply IH. exact Hr.
Qed.

(** X1: where [get_transaction_amount] is defined, it is 0 when the key
    derivation fails, and otherwise the sum of what the outputs to the address
    add (the plain amount in a version 1 transaction, the decoded RingCT
    amount otherwise), reduced modulo [2^64]; outputs to other keys and
    outputs that are no key add nothing, and the result is a 64-bit value.
    It is undefined exactly when an output to the address has no amount
    defined (a vector read out of range), which does not happen on a
    transaction whose RingCT data has an entry for each output. *)
Theorem get_transaction_amount_sum (tx : transaction) (address : account_public_address)
    (tx_key : secret_key) :
  get_transaction_amount tx address tx_key =
    match generate_key_derivation (m_view_public_key address) tx_key with
    | None => Some 0
    | Some derivation =>
        match owned_sum derivation tx address tx_key (vout tx) 0 with
        | Some total => Some (wrap64 total)
        | None => None
        end
    end /\
  (forall amount, get_transaction_amount tx address tx_key = Some amount -> is_uint64 amount) /\
  (rct_in_range tx -> is_Some (get_transaction_amount tx address tx_key)).
Proof.
  split; [| split].
  - unfold get_transaction_amount.
    destruct (generate_key_derivation (m_view_public_key address) tx_key) as [derivation |];
      [| reflexivity].
    rewrite received_from_sum by (unfold is_uint64, U64_MODULUS; lia). reflexivity.
  - unfold get_transaction_amount.
    destruct (generate_key_derivation (m_view_public_key address) tx_key) as [derivation |].
    + rewrite received_from_sum by (unfold is_uint64, U64_MODULUS; lia).
      destruct (owned_sum derivation tx address tx_key (vout tx) 0); [| discriminate].
      intros amount [= <-]. apply wrap64_range.
    + intros amount [= <-]. unfold is_uint64, U64_MODULUS. lia.
  - apply get_transaction_amount_in_range.
Qed.

(** X2: the RingCT branch counts an output only when everything checks: a
    nonzero amount for output [n] means that the derivation succeeded, that
    the transaction has an ECDH tuple and a commitment for [n], that the tuple
    decodes under the scalar derived for [n], and that the commitment equals
    the one rebuilt from the decoded mask and amount; the amount is then the
    decoded one. *)
Theorem rct_output_amount_nonzero (tx : transaction) (address : account_public_address)
    (tx_key : secret_key) (n : Z) (amount : Z) :
  rct_output_amount tx address tx_key n = Some amount -> amount <> 0 ->
  exists (derivation : key_derivation) (ecdh_info decoded : ecdhTuple) (C : rct_key),
    generate_key_derivation (m_view_public_key address) tx_key = Some derivation /\
    ecdhInfo (rct_signatures tx) !! Z.to_nat n = Some ecdh_info /\
    ecdhDecode ecdh_info (sk2rct (derivation_to_scalar derivation n)) = Some decoded /\
    outPk (rct_signatures tx) !! Z.to_nat n = Some C /\
    C = addKeys2 (ecdh_mask decoded) (ecdh_amount decoded) rct_H /\
    amount = h2d (ecdh_amount decoded).
Proof.
  unfold rct_output_amount.
  destruct (generate_key_derivation (m_view_public_key address) tx_key) as [derivation |]
    eqn:Hd; [| congruence].
  destruct (ecdhInfo (rct_signatures tx) !! Z.to_nat n) as [ecdh_info |] eqn:Hinfo;
    [| congruence].
  destruct (ecdhDecode ecdh_info (sk2rct (derivation_to_scalar derivation n)))
    as [decoded |] eqn:Hdec; [| congruence].
  destruct (outPk (rct_signatures tx) !! Z.to_nat n) as [C |] eqn:HoutPk; [| congruence].
  destruct (Z.eqb_spec C (addKeys2 (ecdh_mask decoded) (ecdh_amount decoded) rct_H))
    as [HC | HC]; [| congruence].
  intros [= <-] _. exists derivation, ecdh_info, decoded, C.
  split; [reflexivity |]. split; [reflexivity |]. split; [exact Hdec |].
  split; [reflexivity |]. split; [exact HC | reflexivity].
Qed.

Lemma owned_sum_none (derivation : key_derivation) (tx : transaction)
    (address : account_public_address) (tx_key : secret_key) (outs : list tx_out) (n : Z) :
  (forall (i : nat) (out : tx_out),
     outs !! i = Some out -> owned_output derivation address (n + Z.of_nat i) out = false) ->
  owned_sum derivation tx address tx_key outs n = Some 0.
Proof.
  revert n. induction outs as [| out rest IH]; intros n Hnone; cbn [owned_sum]; [reflexivity |].
  pose proof (Hnone 0%nat out eq_refl) as H0. rewrite Z.add_0_r in H0. rewrite H0.
  apply IH. intros i o Hi.
  replace (n + 1 + Z.of_nat i) with (n + Z.of_nat (S i)) by lia.
  apply Hnone. exact Hi.
Qed.

(** A stake record whose amount decodes to 0 only adds to the log. *)
Lemma process_stake_transaction_no_amount (block_index : Z) (tx : transaction)
    (e : stake_tx_extra) (tx_hash : hash) (p : state) :
  get_graft_stake_tx_extra_from_extra tx = Some e ->
  get_transaction_amount tx (extra_supernode_public_address e) (extra_tx_secret_key e)
    = Some 0 ->
  exists p', process_stake_transaction block_index tx tx_hash p = (Val tt, p') /\
             logs_only p p'.
Proof.
  intros He Hzero. unfold process_stake_transaction. rewrite He.
  destruct (decode_public_id (extra_supernode_public_id e)) as [W |];
    [| eexists; split; [reflexivity | apply logs_only_logged]].
  destruct (check_signature (stake_signed_hash e) W (extra_supernode_signature e));
    [| eexists; split; [reflexivity | apply logs_only_logged]].
  cbn [negb].
  destruct (sub64 (unlock_time tx) block_index <? STAKE_MIN_UNLOCK_TIME);
    [eexists; split; [reflexivity | apply logs_only_logged] |].
  destruct (sub64 (unlock_time tx) block_index >? STAKE_MAX_UNLOCK_TIME);
    [eexists; split; [reflexivity | apply logs_only_logged] |].
  rewrite Hzero. cbn. eexists. split; [reflexivity | apply logs_only_logged].
Qed.

(** X3: a transaction that carries a stake record but has no output to the
    address of the record (under the derivation of its secret key) decodes to
    the amount 0 and is not added to the storage: the turn of the loop only
    logs. *)
Theorem stake_without_owned_output_rejected (block_index : Z) (block_hash : hash)
    (tx : transaction) (e : stake_tx_extra) (acc : batches) (p : state) :
  version tx <> 123 -> version tx <> 124 ->
  get_graft_stake_tx_extra_from_extra tx = Some e ->
  (forall (derivation : key_derivation) (i : nat) (out : tx_out),
     generate_key_derivation (m_view_public_key (extra_supernode_public_address e))
       (extra_tx_secret_key e) = Some derivation ->
     vout tx !! i = Some out ->
     owned_output derivation (extra_supernode_public_address e) (Z.of_nat i) out = false) ->
  get_transaction_amount tx (extra_supernode_public_address e) (extra_tx_secret_key e)
    = Some 0 /\
  exists p',
    process_transaction block_index block_hash tx acc p = (Val acc, p') /\
    logs_only p p'.
Proof.
  intros H123 H124 He Hnone.
  assert (Hzero : get_transaction_amount tx (extra_supernode_public_address e)
                    (extra_tx_secret_key e) = Some 0).
  { unfold get_transaction_amount.
    destruct (generate_key_derivation (m_view_public_key (extra_supernode_public_address e))
                (extra_tx_secret_key e)) as [derivation |] eqn:Hd; [| reflexivity].
    rewrite received_from_sum by (unfold is_uint64, U64_MODULUS; lia).
    rewrite owned_sum_none; [reflexivity |].
    intros i out Hi. apply (Hnone derivation i out eq_refl Hi). }
  split; [exact Hzero |].
  destruct (process_stake_transaction_no_amount block_index tx e
              (get_transaction_prefix_hash tx) p He Hzero) as (p' & Hrun & Hlogs).
  exists p'. split; [apply process_transaction_stake; assumption | exact Hlogs].
Qed.


(** *** The indexes of a snapshot *)

Lemma makeBBLindexes_length (bbl_tiers : Tiers) :
  length (makeBBLindexes bbl_tiers) = TIERS.
Proof. unfold makeBBLindexes. rewrite length_map, length_seq. reflexivity. Qed.

(** Every index [makeBBLindexes] produces is a place of the snapshot, in one
    of the first [TIERS] tiers. *)
Lemma makeBBLindexes_in_range (bbl_tiers : Tiers) (t i : nat) :
  In (t, i) (concat (makeBBLindexes bbl_tiers)) ->
  (t < TIERS)%nat /\
  exists tier entry, bbl_tiers !! t = Some tier /\ tier !! i = Some entry.
Proof.
  unfold makeBBLindexes. rewrite in_concat. intros (v & Hv & Hin).
  apply in_map_iff in Hv. destruct Hv as (t' & <- & Ht').
  apply in_map_iff in Hin. destruct Hin as (i' & [= <- <-] & Hi').
  apply in_seq in Ht'. apply in_seq in Hi'. split; [lia |].
  destruct (nth_lookup_or_length bbl_tiers t' []) as [Htier | Hlen].
  - destruct (lookup_lt_is_Some_2 (nth t' bbl_tiers []) i' ltac:(lia)) as [entry Hentry].
    exists (nth t' bbl_tiers []), entry. auto.
  - rewrite (nth_overflow _ _ Hlen) in Hi'. simpl in Hi'. lia.
Qed.

Lemma ids_at_in_range (bbl_tiers : Tiers) (idxs : list TI) :
  (forall t i, In (t, i) idxs ->
     exists tier entry, bbl_tiers !! t = Some tier /\ tier !! i = Some entry /\
                        is_Some (hex_to_pod (tier_supernode_public_id entry))) ->
  exists ids, ids_at bbl_tiers idxs = Some ids /\ length ids = length idxs.
Proof.
  induction idxs as [| [t i] rest IH]; intros Hall.
  - exists []. split; reflexivity.
  - destruct (Hall t i (or_introl eq_refl)) as (tier & entry & Ht & Hi & [id Hid]).
    destruct IH as (ids & Hids & Hlen); [intros t' i' Hin; apply Hall; right; exact Hin |].
    exists (id :: ids). cbn [ids_at]. rewrite Ht. cbn. rewrite Hi. cbn. rewrite Hid. cbn.
    rewrite Hids. cbn. split; [reflexivity | rewrite Hlen; reflexivity].
Qed.

(** X4: on a snapshot whose identifiers all decode, [fromIndexes] returns
    for every selection made of indexes that [makeBBLindexes] produced: no
    index is out of range, no decoding fails, and there is one identifier per
    index; the processor is left as it was. *)
Theorem fromIndexes_of_makeBBLindexes (bbl_tiers : Tiers) (idxs : list TI) (p : state) :
  (forall t i, In (t, i) idxs -> In (t, i) (concat (makeBBLindexes bbl_tiers))) ->
  (forall tier entry, In tier bbl_tiers -> In entry tier ->
     is_Some (hex_to_pod (tier_supernode_public_id entry))) ->
  exists ids,
    fromIndexes bbl_tiers idxs p = (Val ids, p) /\
    length ids = length idxs /\
    ids_at bbl_tiers idxs = Some ids.
Proof.
  intros Hsub Hdecode.
  destruct (ids_at_in_range bbl_tiers idxs) as (ids & Hids & Hlen).
  { intros t i Hin. destruct (makeBBLindexes_in_range bbl_tiers t i (Hsub t i Hin))
      as (_ & tier & entry & Ht & Hi).
    exists tier, entry. split; [exact Ht |]. split; [exact Hi |].
    apply (Hdecode tier entry).
    - apply list_elem_of_In. apply (list_elem_of_lookup_2 _ _ _ Ht).
    - apply list_elem_of_In. apply (list_elem_of_lookup_2 _ _ _ Hi). }
  exists ids. pose proof (fromIndexes_run bbl_tiers idxs p) as Hrun.
  rewrite Hids in Hrun. auto.
Qed.


(** *** Disqualifications that refer to a block above the list *)

Lemma future_block_out_of_history (height disq_height depth : Z) :
  is_uint64 height -> is_uint64 disq_height -> height < disq_height ->
  depth <= U64_MODULUS - (disq_height - height) ->
  (depth <=? sub64 height disq_height) = true.
Proof.
  intros Hh Hd Hlt Hdepth. rewrite (sub64_underflow _ _ Hh Hd Hlt).
  apply Z.leb_le. lia.
Qed.

(** X5: a version 123 record whose block is known to the chain but lies
    above the block the list has reached is never accepted: the unsigned
    difference of the heights wraps to [2^64 - (disq - height)], which is no
    less than the history depth, and the transaction is answered [false]
    with the one warning "out of history". *)
Theorem check_disqualification_future_block (tx : transaction) (tx_hash : hash) (p : state)
    (l : bbl) (d : tx_extra_graft_disqualification) :
  version tx = 123 -> m_blockchain_based_list p = Some l ->
  graft_check_disqualification tx = Some d ->
  get_block_id_by_height (block_height_of (item d)) = Some (block_hash_of (item d)) ->
  is_uint64 (block_height l) -> is_uint64 (block_height_of (item d)) ->
  block_height l < block_height_of (item d) ->
  history_depth l <= U64_MODULUS - (block_height_of (item d) - block_height l) ->
  check_disqualification_transaction tx tx_hash p =
    (Val false,
     with_logged (MWARNING (String.append IGNORE_DISQUALIFICATION "; out of history ") [tx_hash]) p).
Proof.
  intros Hv Hl Hd Hhash Hh Hdh Hlt Hdepth. unfold check_disqualification_transaction.
  rewrite Hv, Hd. run. rewrite Hhash. run. rewrite Z.eqb_refl. run. rewrite Hl.
  rewrite (future_block_out_of_history _ _ _ Hh Hdh Hlt Hdepth). reflexivity.
Qed.

(** X6: the same for a version 124 record. *)
Theorem check_disqualification2_future_block (tx : transaction) (tx_hash : hash) (p : state)
    (l : bbl) (d : tx_extra_graft_disqualification2) :
  version tx = 124 -> m_blockchain_based_list p = Some l ->
  graft_check_disqualification2 tx = Some d ->
  get_block_id_by_height (block_height_of2 (item2 d)) = Some (block_hash_of2 (item2 d)) ->
  is_uint64 (block_height l) -> is_uint64 (block_height_of2 (item2 d)) ->
  block_height l < block_height_of2 (item2 d) ->
  history_depth l <= U64_MODULUS - (block_height_of2 (item2 d) - block_height l) ->
  check_disqualification2_transaction tx tx_hash p =
    (Val false,
     with_logged (MWARNING (String.append IGNORE_DISQUALIFICATION2 "; out of history ") [tx_hash]) p).
Proof.
  intros Hv Hl Hd Hhash Hh Hdh Hlt Hdepth. unfold check_disqualification2_transaction.
  rewrite Hv, Hd. run. rewrite Hhash. run. rewrite Z.eqb_refl. run. rewrite Hl.
  rewrite (future_block_out_of_history _ _ _ Hh Hdh Hlt Hdepth). reflexivity.
Qed.


(** *** The transactions of a block, one after the other *)

Lemma stake_of_acceptable (block_index : Z) (tx : transaction) (r : stake_transaction) :
  stake_of block_index tx = Some r <->
  version tx <> 123 /\ version tx <> 124 /\
  exists e amount,
    stake_acceptable block_index tx e /\
    get_transaction_amount tx (extra_supernode_public_address e) (extra_tx_secret_key e)
      = Some amount /\
    r = stake_record block_index tx e amount.
Proof.
  unfold stake_of, stake_acceptable.
  destruct (Z.eqb_spec (version tx) 123) as [H123 | H123]; cbn [orb];
    [split; [discriminate | intros [? _]; contradiction] |].
  destruct (Z.eqb_spec (version tx) 124) as [H124 | H124];
    [split; [discriminate | intros (_ & ? & _); contradiction] |].
  destruct (get_graft_stake_tx_extra_from_extra tx) as [e |];
    [| split; [discriminate | intros (_ & _ & e & amount & ([=] & _) & _)]].
  destruct (decode_public_id (extra_supernode_public_id e)) as [W |] eqn:Hdec.
  - apply decode_public_id_Some in Hdec. destruct Hdec as [Hhex Hkey].
    unfold stake_signed_hash.
    split.
    + destruct (check_signature _ W _) eqn:Hsig; cbn [andb]; [| discriminate].
      destruct (Z.leb_spec STAKE_MIN_UNLOCK_TIME (sub64 (unlock_time tx) block_index));
        cbn [andb]; [| discriminate].
      destruct (Z.leb_spec (sub64 (unlock_time tx) block_index) STAKE_MAX_UNLOCK_TIME);
        cbn [andb]; [| discriminate].
      destruct (get_transaction_amount tx (extra_supernode_public_address e)
                  (extra_tx_secret_key e)) as [amount |] eqn:Hamount; [| discriminate].
      destruct (Z.eqb_spec amount 0); [discriminate |].
      intros [= <-]. split; [exact H123 |]. split; [exact H124 |].
      exists e, amount. split; [| split; [exact Hamount | reflexivity]].
      split; [reflexivity |]. split; [exists W; auto |]. split; [lia |].
      exists amount. auto.
    + intros (_ & _ & e' & amount
              & ([= <-] & (W' & Hhex' & _ & Hsig) & Hrange & (a & Ha & Hnonzero)) & Hamount & ->).
      rewrite Hamount in Ha. injection Ha as <-.
      rewrite Hhex in Hhex'. injection Hhex' as <-. rewrite Hsig. cbn [andb].
      destruct (Z.leb_spec STAKE_MIN_UNLOCK_TIME (sub64 (unlock_time tx) block_index));
        [| lia].
      destruct (Z.leb_spec (sub64 (unlock_time tx) block_index) STAKE_MAX_UNLOCK_TIME);
        [| lia].
      cbn [andb]. rewrite Hamount.
      destruct (Z.eqb_spec amount 0); [contradiction | reflexivity].
  - split; [discriminate |].
    intros (_ & _ & e' & amount & ([= <-] & (W & Hhex & Hkey & _) & _) & _).
    rewrite (proj2 (decode_public_id_Some _ _) (conj Hhex Hkey)) in Hdec. discriminate.
Qed.

Lemma add_stakes_app (l1 l2 : list stake_transaction) (s : sts) :
  add_stakes (l1 ++ l2) s = add_stakes l2 (add_stakes l1 s).
Proof. unfold add_stakes. apply fold_left_app. Qed.

(** One turn of the loop: each vector grows by what the transaction adds to
    it, the storage by its stake record, and the rest is log. *)
Lemma process_transaction_effect (block_index : Z) (block_hash : hash) (tx : transaction)
    (acc : batches) (p : state) (s : sts) :
  rct_in_range tx ->
  m_storage p = Some s ->
  exists l,
    process_transaction block_index block_hash tx acc p =
    (Val (fst acc ++ option_list (disqualification_of block_index tx),
          snd acc ++ option_list (disqualification2_of block_index tx)),
     with_log l
       (with_storage (Some (add_stakes (option_list (stake_of block_index tx)) s)) p)).
Proof.
  intros Hrange Hs. unfold process_transaction, catch_std_exception,
    disqualification_of, disqualification2_of, stake_of.
  destruct (Z.eqb_spec (version tx) 123) as [H123 | H123]; cbn [orb andb negb].
  - unfold process_disqualification_transaction. rewrite H123. run.
    unfold add_stakes; cbn [option_list option_rect fold_left]; rewrite (with_storage_same s p Hs).
    destruct (graft_get_disqualification tx) as [d |]; run; cbn [option_list option_rect];
      rewrite ?app_nil_r; destruct acc as [disquals disquals2]; cbn [fst snd];
      eexists [_]; reflexivity.
  - destruct (Z.eqb_spec (version tx) 124) as [H124 | H124]; cbn [orb andb negb].
    + unfold process_disqualification2_transaction. rewrite H124. run.
      unfold add_stakes; cbn [option_list option_rect fold_left]; rewrite (with_storage_same s p Hs).
      destruct (graft_get_disqualification2 tx) as [d |]; run; cbn [option_list option_rect];
        rewrite ?app_nil_r; destruct acc as [disquals disquals2]; cbn [fst snd];
        eexists [_]; reflexivity.
    + assert (Hacc : (fst acc ++ option_list None, snd acc ++ option_list None) = acc)
        by (destruct acc; cbn; rewrite !app_nil_r; reflexivity).
      rewrite Hacc. unfold process_stake_transaction.
      assert (Hsame : forall r,
                with_logged r p = with_log [r] (with_storage (Some (add_stakes [] s)) p))
        by (intros r; unfold add_stakes; cbn [fold_left]; rewrite (with_storage_same s p Hs);
            reflexivity).
      destruct (get_graft_stake_tx_extra_from_extra tx) as [e |]; run;
        [| exists []; unfold add_stakes; cbn [option_list option_rect fold_left with_log];
           rewrite (with_storage_same s p Hs); reflexivity].
      destruct (decode_public_id (extra_supernode_public_id e)) as [W |]; run;
        [| eexists; cbn [option_list option_rect]; rewrite <- Hsame; reflexivity].
      destruct (check_signature (stake_signed_hash e) W (extra_supernode_signature e));
        cbn [negb andb]; run;
        [| eexists; cbn [option_list option_rect]; rewrite <- Hsame; reflexivity].
      destruct (Z.ltb_spec (sub64 (unlock_time tx) block_index) STAKE_MIN_UNLOCK_TIME)
        as [Hlt | Hmin]; run.
      { destruct (Z.leb_spec STAKE_MIN_UNLOCK_TIME (sub64 (unlock_time tx) block_index));
          [lia |]. cbn [andb option_list option_rect]. eexists. rewrite <- Hsame. reflexivity. }
      destruct (Z.leb_spec STAKE_MIN_UNLOCK_TIME (sub64 (unlock_time tx) block_index));
        [| lia]. cbn [andb].
      destruct (Z.gtb_spec (sub64 (unlock_time tx) block_index) STAKE_MAX_UNLOCK_TIME)
        as [Hgt | Hmax]; run.
      { destruct (Z.leb_spec (sub64 (unlock_time tx) block_index) STAKE_MAX_UNLOCK_TIME);
          [lia |]. cbn [andb option_list option_rect]. eexists. rewrite <- Hsame. reflexivity. }
      destruct (Z.leb_spec (sub64 (unlock_time tx) block_index) STAKE_MAX_UNLOCK_TIME);
        [| lia]. cbn [andb].
      destruct (get_transaction_amount_in_range tx (extra_supernode_public_address e)
                  (extra_tx_secret_key e) Hrange) as [amount Hamount].
      rewrite Hamount.
      destruct (Z.eqb_spec amount 0) as [Hzero | Hnonzero]; run;
        cbn [option_list option_rect];
        [eexists; rewrite <- Hsame; reflexivity |].
      rewrite Hs. eexists [_]. reflexivity.
Qed.

(** The loop, from any vectors. *)
Lemma process_transactions_exact (block_index : Z) (block_hash : hash)
    (txs : list transaction) (acc : batches) (p : state) (s : sts) :
  Forall rct_in_range txs ->
  m_storage p = Some s ->
  exists l,
    process_transactions block_index block_hash txs acc p =
    (Val (fst acc ++ omap (disqualification_of block_index) txs,
          snd acc ++ omap (disqualification2_of block_index) txs),
     with_log l (with_storage (Some (add_stakes (omap (stake_of block_index) txs) s)) p)).
Proof.
  revert acc p s. induction txs as [| tx rest IH]; intros acc p s Hrange Hs.
  - exists []. cbn. rewrite !app_nil_r, (with_storage_same s p Hs).
    destruct acc; reflexivity.
  - apply Forall_cons_1 in Hrange. destruct Hrange as [Htx Hrest].
    destruct (process_transaction_effect block_index block_hash tx acc p s Htx Hs)
      as [l1 Hrun1].
    set (s1 := add_stakes (option_list (stake_of block_index tx)) s) in *.
    set (p1 := with_log l1 (with_storage (Some s1) p)) in *.
    assert (Hs1 : m_storage p1 = Some s1).
    { unfold p1. destruct (with_log_fields l1 (with_storage (Some s1) p)) as (_ & -> & _).
      reflexivity. }
    destruct (IH (fst acc ++ option_list (disqualification_of block_index tx),
                  snd acc ++ option_list (disqualification2_of block_index tx)) p1 s1
                Hrest Hs1)
      as [l2 Hrun2].
    exists (l1 ++ l2). cbn [process_transactions]. unfold bind. rewrite Hrun1, Hrun2.
    cbn [fst snd]. rewrite <- !app_assoc.
    assert (Hcons : forall (B : Type) (f : transaction -> option B),
              option_list (f tx) ++ omap f rest = omap f (tx :: rest))
      by (intros B f; cbn; destruct (f tx); reflexivity).
    rewrite !Hcons. f_equal.
    unfold p1. rewrite with_storage_with_log, with_log_app. f_equal.
    assert (Hw : forall x y (q : state), with_storage x (with_storage y q) = with_storage x q)
      by (intros x y q; destruct q; reflexivity).
    rewrite Hw. f_equal. f_equal. unfold s1.
    rewrite <- add_stakes_app, Hcons. reflexivity.
Qed.

(** X7: on transactions whose RingCT data has an entry for each output
    (the amount is then decoded without reading a vector out of range), the
    loop over the transactions of a block returns.  The vectors [disquals]
    and [disquals2] grow by the records of the version 123 and 124
    transactions that decode, in the order of the block; the storage receives
    [add_tx] for exactly the stakes that pass the checks, in the order of the
    block; a transaction that is ignored changes only the log, and what comes
    after it is processed as if it were not there. *)
Theorem process_transactions_effect (block_index : Z) (block_hash : hash)
    (txs : list transaction) (p : state) (s : sts) :
  Forall rct_in_range txs ->
  m_storage p = Some s ->
  exists l,
    process_transactions block_index block_hash txs ([], []) p =
    (Val (omap (disqualification_of block_index) txs,
          omap (disqualification2_of block_index) txs),
     with_log l (with_storage (Some (add_stakes (omap (stake_of block_index) txs) s)) p)).
Proof.
  intros Hrange Hs.
  destruct (process_transactions_exact block_index block_hash txs ([], []) p s Hrange Hs)
    as [l Hrun].
  exists l. exact Hrun.
Qed.


(** *** A block, in full *)

Lemma with_storage_with_storage (x y : option sts) (p : state) :
  with_storage x (with_storage y p) = with_storage x p.
Proof. reflexivity. Qed.

Lemma with_storage_with_stakes_need_update (x : option sts) (b : bool) (p : state) :
  with_storage x (with_stakes_need_update b p) = with_stakes_need_update b (with_storage x p).
Proof. reflexivity. Qed.

Lemma with_stakes_need_update_with_log (b : bool) (l : list log_record) (p : state) :
  with_stakes_need_update b (with_log l p) = with_log l (with_stakes_need_update b p).
Proof.
  revert p. induction l as [| r l IH]; intros p; [reflexivity |].
  unfold with_log in *. cbn [fold_left]. rewrite IH. reflexivity.
Qed.

(** The storage after a new block at or above the threshold: the stakes of
    the block are added, then its disqualifications of either kind, then the
    supernode stakes are updated, and the block is recorded. *)
Lemma process_block_stake_transaction_exact (block_index : Z) (blk : block)
    (block_hash : hash) (update_storage : bool) (p : state) (s : sts)
    (txs : list transaction) (missed_txs : list hash) :
  m_storage p = Some s ->
  get_last_processed_block_index s < block_index ->
  STAKE_TRANSACTION_PROCESSING_DB_VERSION <= get_hard_fork_version block_index ->
  get_transactions (tx_hashes blk) = Some (txs, missed_txs) ->
  Forall rct_in_range txs ->
  exists l,
    process_block_stake_transaction block_index blk block_hash update_storage p =
    (Val tt,
     with_log l
       (with_stakes_need_update true
          (with_storage
             (Some (recorded block_index block_hash update_storage
                      (update_supernode_stakes block_index
                         (add_disquals2 (omap (disqualification2_of block_index) txs)
                            (add_disquals (omap (disqualification_of block_index) txs)
                               (add_stakes (omap (stake_of block_index) txs) s))))))
             p))).
Proof.
  intros Hs Hnew Hfork Hget Hrange.
  destruct (report_missed_run block_index missed_txs p) as (lm & Hmissed & _).
  assert (Hs1 : m_storage (with_log lm p) = Some s)
    by (rewrite <- Hs; apply with_log_fields).
  destruct (process_transactions_exact block_index block_hash txs ([], []) (with_log lm p) s
              Hrange Hs1)
    as [l2 Hloop].
  rewrite with_storage_with_log, with_log_app in Hloop. cbn [fst snd app] in Hloop.
  set (s2 := add_stakes (omap (stake_of block_index) txs) s) in *.
  set (d1 := omap (disqualification_of block_index) txs) in *.
  set (d2 := omap (disqualification2_of block_index) txs) in *.
  assert (Hs2 : m_storage (with_log (lm ++ l2) (with_storage (Some s2) p)) = Some s2).
  { destruct (with_log_fields (lm ++ l2) (with_storage (Some s2) p)) as (_ & -> & _).
    reflexivity. }
  exists (lm ++ l2).
  unfold process_block_stake_transaction, record_processed_block, recorded. run. rewrite Hs.
  destruct (Z.leb_spec block_index (get_last_processed_block_index s)) as [Hle | _]; [lia |].
  destruct (Z.geb_spec (get_hard_fork_version block_index)
              STAKE_TRANSACTION_PROCESSING_DB_VERSION) as [_ | Hlt]; [| lia].
  rewrite Hget, Hmissed, Hloop, Hs2.
  assert (Hread : forall (x : option sts) (q : state), m_storage (with_storage x q) = x)
    by reflexivity.
  assert (Hread' : forall (b : bool) (q : state),
            m_storage (with_stakes_need_update b q) = m_storage q) by reflexivity.
  destruct update_storage; repeat progress (run; rewrite ?Hread', ?Hread);
    repeat rewrite ?with_storage_with_log, ?with_stakes_need_update_with_log; reflexivity.
Qed.

(** X8: a new block at or above the hard-fork threshold whose transactions
    are fetched, their RingCT data having an entry for each output.
    [process_block_stake_transaction] returns; the storage is
    the old one after, in this order, [add_tx] for each stake of the block,
    [add_disquals], [add_disquals2], [update_supernode_stakes], then
    [add_last_processed_block] and, on request, [store]; the stakes flag is
    set; the list, its flag, the handlers and the calls made are as before,
    and the log is extended. *)
Theorem process_block_stake_transaction_new_block (block_index : Z) (blk : block)
    (block_hash : hash) (update_storage : bool) (p : state) (s : sts)
    (txs : list transaction) (missed_txs : list hash) :
  m_storage p = Some s ->
  get_last_processed_block_index s < block_index ->
  STAKE_TRANSACTION_PROCESSING_DB_VERSION <= get_hard_fork_version block_index ->
  get_transactions (tx_hashes blk) = Some (txs, missed_txs) ->
  Forall rct_in_range txs ->
  exists (p' : state) (l : list log_record),
    process_block_stake_transaction block_index blk block_hash update_storage p = (Val tt, p') /\
    m_storage p' =
      Some ((if update_storage then storage_store else id)
              (add_last_processed_block block_index block_hash
                 (update_supernode_stakes block_index
                    (add_disquals2 (omap (disqualification2_of block_index) txs)
                       (add_disquals (omap (disqualification_of block_index) txs)
                          (add_stakes (omap (stake_of block_index) txs) s)))))) /\
    m_stakes_need_update p' = true /\
    m_blockchain_based_list p' = m_blockchain_based_list p /\
    m_blockchain_based_list_need_update p' = m_blockchain_based_list_need_update p /\
    m_on_stakes_update p' = m_on_stakes_update p /\
    m_on_blockchain_based_list_update p' = m_on_blockchain_based_list_update p /\
    handler_calls p' = handler_calls p /\
    logged p' = logged p ++ l.
Proof.
  intros Hs Hnew Hfork Hget Hrange.
  destruct (process_block_stake_transaction_exact block_index blk block_hash update_storage
              p s txs missed_txs Hs Hnew Hfork Hget Hrange) as [l Hrun].
  eexists. exists l. split; [exact Hrun |].
  match goal with |- context [with_log l ?q] =>
    destruct (with_log_fields l q) as (_ & H2 & H3 & H4 & H5 & H6 & H7 & H8 & H9)
  end.
  rewrite H2, H3, H4, H5, H6, H7, H8, H9. fields. unfold recorded.
  destruct update_storage; repeat split.
Qed.

(** X9: a new block below the hard-fork threshold is only recorded: no
    transaction is fetched, nothing is logged, the stakes flag is not
    touched; the storage gets [add_last_processed_block] and, on request,
    [store]. *)
Theorem process_block_stake_transaction_below_threshold (block_index : Z) (blk : block)
    (block_hash : hash) (update_storage : bool) (p : state) (s : sts) :
  m_storage p = Some s ->
  get_last_processed_block_index s < block_index ->
  get_hard_fork_version block_index < STAKE_TRANSACTION_PROCESSING_DB_VERSION ->
  process_block_stake_transaction block_index blk block_hash update_storage p =
  (Val tt,
   with_storage
     (Some ((if update_storage then storage_store else id)
              (add_last_processed_block block_index block_hash s)))
     p).
Proof.
  intros Hs Hnew Hfork. unfold process_block_stake_transaction, record_processed_block.
  run. rewrite Hs.
  destruct (Z.leb_spec block_index (get_last_processed_block_index s)) as [Hle | _]; [lia |].
  destruct (Z.geb_spec (get_hard_fork_version block_index)
              STAKE_TRANSACTION_PROCESSING_DB_VERSION) as [Hge | _]; [lia |].
  fields. rewrite Hs. destruct update_storage; run; fields; reflexivity.
Qed.


(** *** What [process_block] leaves alone *)

Lemma publishes_nothing_refl (p : state) : publishes_nothing p p.
Proof. unfold publishes_nothing. repeat split; auto. exists []. rewrite app_nil_r. reflexivity. Qed.

Lemma publishes_nothing_trans (p q r : state) :
  publishes_nothing p q -> publishes_nothing q r -> publishes_nothing p r.
Proof.
  intros (H1 & H2 & H3 & H4 & H5 & [l1 H6]) (K1 & K2 & K3 & K4 & K5 & [l2 K6]).
  unfold publishes_nothing. rewrite K1, K2, K3, H1, H2, H3.
  repeat split; auto. exists (l1 ++ l2). rewrite K6, H6, app_assoc. reflexivity.
Qed.

Lemma quiet_ret {A : Type} (a : A) : quiet (ret a : M state A).
Proof. intros p. apply publishes_nothing_refl. Qed.

Lemma quiet_raise {A : Type} (e : exn) : quiet (raise e : M state A).
Proof. intros p. apply publishes_nothing_refl. Qed.

Lemma quiet_abort {A : Type} (why : string) : quiet (abort why : M state A).
Proof. intros p. apply publishes_nothing_refl. Qed.

Lemma quiet_get : quiet (get : M state state).
Proof. intros p. apply publishes_nothing_refl. Qed.

Lemma quiet_storage : quiet (storage : M state sts).
Proof. intros p. unfold storage. destruct (m_storage p); apply publishes_nothing_refl. Qed.

Lemma quiet_blockchain_based_list : quiet (blockchain_based_list : M state bbl).
Proof.
  intros p. unfold blockchain_based_list.
  destruct (m_blockchain_based_list p); apply publishes_nothing_refl.
Qed.

Lemma quiet_logged (r : log_record) : quiet (modify (with_logged r) : M state unit).
Proof.
  intros p. unfold publishes_nothing. cbn. repeat split; auto. exists [r]. reflexivity.
Qed.

Lemma quiet_with_storage (x : option sts) : quiet (modify (with_storage x) : M state unit).
Proof. intros p. apply (publishes_nothing_refl p). Qed.

Lemma quiet_with_blockchain_based_list (x : option bbl) :
  quiet (modify (with_blockchain_based_list x) : M state unit).
Proof. intros p. apply (publishes_nothing_refl p). Qed.

Lemma quiet_with_stakes_need_update :
  quiet (modify (with_stakes_need_update true) : M state unit).
Proof.
  intros p. unfold publishes_nothing. cbn. repeat split; auto.
  exists []. rewrite app_nil_r. reflexivity.
Qed.

Lemma quiet_with_blockchain_based_list_need_update :
  quiet (modify (with_blockchain_based_list_need_update true) : M state unit).
Proof.
  intros p. unfold publishes_nothing. cbn. repeat split; auto.
  exists []. rewrite app_nil_r. reflexivity.
Qed.

Lemma quiet_bind {A B : Type} (m : M state A) (k : A -> M state B) :
  quiet m -> (forall a, quiet (k a)) -> quiet (bind m k).
Proof.
  intros Hm Hk p. unfold bind. specialize (Hm p).
  destruct (m p) as [[a | e | why |] p']; cbn [snd] in *; try exact Hm.
  apply (publishes_nothing_trans p p' _ Hm). apply Hk.
Qed.

Lemma quiet_catch_std_exception {A : Type} (m : M state A) (h : exn -> M state A) :
  quiet m -> (forall e, quiet (h e)) -> quiet (catch_std_exception m h).
Proof.
  intros Hm Hh p. unfold catch_std_exception. specialize (Hm p).
  destruct (m p) as [[a | e | why |] p']; cbn [snd] in *; try exact Hm.
  apply (publishes_nothing_trans p p' _ Hm). apply Hh.
Qed.

Create HintDb quiet discriminated.
#[local] Hint Resolve quiet_ret quiet_raise quiet_abort quiet_get quiet_storage
  quiet_blockchain_based_list quiet_logged quiet_with_storage quiet_with_blockchain_based_list
  quiet_with_stakes_need_update quiet_with_blockchain_based_list_need_update : quiet.

Ltac quiet_step :=
  first
    [ progress intros
    | solve [eauto with quiet]
    | apply quiet_bind
    | apply quiet_catch_std_exception
    | match goal with
      | |- quiet (if ?c then _ else _) => destruct c
      | |- quiet (match ?x with _ => _ end) => destruct x
      | |- quiet (let '(_, _) := ?x in _) => destruct x
      end
    | progress unfold assert, warning, debug, error, on_storage, on_blockchain_based_list ].

Ltac quiet := repeat quiet_step.

Lemma quiet_process_transactions (block_index : Z) (block_hash : hash)
    (txs : list transaction) (acc : batches) :
  @quiet sts bbl _ (process_transactions block_index block_hash txs acc).
Proof.
  revert acc. induction txs as [| tx rest IH]; intros acc; cbn [process_transactions].
  - quiet.
  - apply quiet_bind; [| exact IH].
    unfold process_transaction, process_disqualification_transaction,
      process_disqualification2_transaction, process_stake_transaction.
    quiet.
Qed.

Lemma quiet_report_missed (block_index : Z) (missed_txs : list hash) :
  @quiet sts bbl _ (report_missed block_index missed_txs).
Proof.
  unfold report_missed. destruct (bool_decide (missed_txs = [])); [quiet |].
  apply quiet_bind; [quiet | intros _].
  induction missed_txs as [| h rest IH]; cbn [fold_right]; quiet.
Qed.

(** X10: whatever the block and however [process_block] ends (it returns,
    or something in it throws or is undefined), it publishes nothing: no
    handler is called, no handler is replaced, a need-update flag that was
    set is still set, and the log only grows. *)
Theorem process_block_publishes_nothing (block_index : Z) (blk : block) (block_hash : hash)
    (update_storage : bool) (p : state) :
  let p' := snd (process_block block_index blk block_hash update_storage p) in
  handler_calls p' = handler_calls p /\
  m_on_stakes_update p' = m_on_stakes_update p /\
  m_on_blockchain_based_list_update p' = m_on_blockchain_based_list_update p /\
  (m_stakes_need_update p = true -> m_stakes_need_update p' = true) /\
  (m_blockchain_based_list_need_update p = true ->
   m_blockchain_based_list_need_update p' = true) /\
  exists lg, logged p' = logged p ++ lg.
Proof.
  revert p. change (@quiet sts bbl _ (process_block block_index blk block_hash update_storage)).
  pose proof quiet_report_missed. pose proof quiet_process_transactions.
  unfold process_block, process_block_stake_transaction, process_block_blockchain_based_list,
    record_processed_block.
  quiet.
Qed.


(** *** Synchronisation, case by case *)

(** X11: on an empty blockchain, or when the block at the top is below the
    hard-fork threshold, [synchronize] returns at once: the stores are not
    opened, nothing is logged, no handler is called, whatever the processor
    and the budget of the unroll loop.  On an empty blockchain the version is
    not even asked for ([height - 1] would wrap). *)
Theorem synchronize_idle (fuel : nat) (p : state) :
  get_current_blockchain_height = 0 \/
  get_hard_fork_version (sub64 get_current_blockchain_height 1)
    < STAKE_TRANSACTION_PROCESSING_DB_VERSION ->
  synchronize fuel p = (Val tt, p).
Proof.
  intros Hidle. unfold synchronize.
  destruct (Z.eqb_spec get_current_blockchain_height 0) as [Hzero | Hpos]; [reflexivity |].
  destruct Hidle as [Hzero | Hfork]; [contradiction |].
  destruct (Z.ltb_spec (get_hard_fork_version (sub64 get_current_blockchain_height 1))
              STAKE_TRANSACTION_PROCESSING_DB_VERSION); [reflexivity | lia].
Qed.

(** How a turn of the unroll loop stops the loop for the forward loop to
    start: nothing is changed, and the storage has no processed block or its
    last one is below the height and is the block of the blockchain. *)
Lemma unroll_step_done (height : Z) (p p' : state) :
  unroll_step height p = (Val (unroll_stop unroll_done), p') ->
  p' = p /\
  exists s, m_storage p = Some s /\
    (has_last_processed_block s = false \/
     get_last_processed_block_index s < height /\
     get_block_id_by_height (get_last_processed_block_index s) =
       Some (get_last_processed_block_hash s)).
Proof.
  unfold unroll_step. run. destruct (m_storage p) as [s |] eqn:Hs; [| discriminate].
  destruct (has_last_processed_block s) eqn:Hhas; cbn [negb].
  2:{ intros [= <-]. split; [reflexivity |]. exists s. auto. }
  rewrite probe_last_processed_block_run.
  destruct (Z.ltb_spec (get_last_processed_block_index s) height) as [Hlt | Hge].
  - destruct (get_block_id_by_height (get_last_processed_block_index s)) as [h |] eqn:Hh;
      [| discriminate].
    destruct (Z.eqb_spec (get_last_processed_block_hash s) h) as [<- | Hne].
    + intros [= <-]. split; [reflexivity |]. exists s. auto.
    + destruct (unroll_last_processed_block _ _ _ p) as [[] q]; discriminate.
  - destruct (unroll_last_processed_block _ _ _ p) as [[] q]; discriminate.
Qed.

(** X12: when the unroll loop is left for the forward loop, the storage is
    the one it started from with some number of blocks unrolled, at most as
    many as the loop was given turns; and what is left has no processed
    block, or its last processed block is below the height of the blockchain
    and carries the hash the blockchain has at that index. *)
Theorem unroll_done_agrees (fuel : nat) (height : Z) (p p' : state) (s : sts) :
  m_storage p = Some s ->
  unroll fuel height p = (Val unroll_done, p') ->
  exists k : nat,
    (k < fuel)%nat /\
    m_storage p' = Some (Nat.iter k unrolled_storage s) /\
    (has_last_processed_block (Nat.iter k unrolled_storage s) = false \/
     get_last_processed_block_index (Nat.iter k unrolled_storage s) < height /\
     get_block_id_by_height (get_last_processed_block_index (Nat.iter k unrolled_storage s)) =
       Some (get_last_processed_block_hash (Nat.iter k unrolled_storage s))).
Proof.
  revert p s. induction fuel as [| fuel IH]; intros p s Hs Hrun; [discriminate |].
  cbn [unroll] in Hrun. unfold bind in Hrun.
  destruct (unroll_step height p) as [[[e |] | | |] p1] eqn:Hstep; try discriminate.
  - unfold ret in Hrun. injection Hrun as -> <-.
    apply unroll_step_done in Hstep. destruct Hstep as (-> & s0 & Hs0 & Hend).
    rewrite Hs in Hs0. injection Hs0 as <-.
    exists O. split; [lia |]. split; [exact Hs | exact Hend].
  - destruct (unroll_step_again height p p1 Hstep) as (s0 & Hs0 & _ & Hs1).
    rewrite Hs in Hs0. injection Hs0 as <-.
    destruct (IH p1 (unrolled_storage s) Hs1 Hrun) as (k & Hk & Hs' & Hend).
    exists (S k). rewrite Nat.iter_succ_r. split; [lia |]. split; [exact Hs' | exact Hend].
Qed.


Lemma sync_iterations_first (first_block_index height : Z) :
  (0 < sync_iterations first_block_index height)%nat -> first_block_index <> height.
Proof.
  unfold sync_iterations, last_block_index_for_sync_of. intros Hpos ->.
  unfold sub64, wrap64 in Hpos. rewrite Z.sub_diag in Hpos.
  change (0 mod U64_MODULUS >? MAX_ITERATIONS_COUNT) with false in Hpos.
  cbn iota in Hpos. rewrite Z.sub_diag in Hpos. cbn in Hpos. lia.
Qed.

(** X14: the blockchain does not have the first block to apply yet.  The
    forward loop is left at once; the two stores are saved when they ask for
    it; and since the height was not reached nothing is published: no
    handler is called and both flags stay as they were. *)
Theorem apply_new_waits_for_block (height : Z) (p : state) (s : sts) (l : bbl) :
  m_storage p = Some s -> m_blockchain_based_list p = Some l ->
  (0 < sync_iterations (first_block_index_of s l) height)%nat ->
  get_block_id_by_height (first_block_index_of s l) = None ->
  exists (p' : state) (lg : list log_record),
    apply_new height p = (Val tt, p') /\
    m_storage p' = Some (if storage_need_store s then storage_store s else s) /\
    m_blockchain_based_list p' = Some (if list_need_store l then list_store l else l) /\
    m_stakes_need_update p' = m_stakes_need_update p /\
    m_blockchain_based_list_need_update p' = m_blockchain_based_list_need_update p /\
    handler_calls p' = handler_calls p /\
    logged p' = logged p ++ lg.
Proof.
  intros Hs Hl Hpos Hdne. pose proof (sync_iterations_first _ _ Hpos) as Hne.
  unfold apply_new. run. rewrite Hs, Hl.
  destruct (sync_iterations (first_block_index_of s l) height) as [| n]; [lia |].
  destruct (apply_new_blocks_BLOCK_DNE n (first_block_index_of s l) height p Hdne)
    as (p1 & Hrun & [lg ->] & _).
  rewrite Hrun.
  destruct (with_log_fields lg p) as (_ & H2 & H3 & _ & _ & H6 & H7 & H8 & H9).
  rewrite Hs in H2. rewrite Hl in H3.
  unfold store_and_publish. run. rewrite H3.
  destruct (Z.eqb_spec (first_block_index_of s l) height) as [| _]; [contradiction |].
  destruct (list_need_store l); repeat progress (run; fields; rewrite ?H2, ?H3);
    (destruct (storage_need_store s); repeat progress (run; fields; rewrite ?H2, ?H3));
    (eexists; exists lg; split; [reflexivity |]; fields;
     rewrite ?H2, ?H3, ?H6, ?H7, ?H8, ?H9; repeat split).
Qed.

Lemma clamp_depth_zero (l : bbl) : Z.to_nat (clamp_depth l 0) = O.
Proof.
  unfold clamp_depth.
  destruct (Z.gtb_spec 0 (history_depth l));
    match goal with |- context [?d >? SUPERNODE_HISTORY_SIZE] =>
      destruct (Z.gtb_spec d SUPERNODE_HISTORY_SIZE) end; lia.
Qed.

(** X15: the processor is up to date (the first block to apply is the
    height of the blockchain) and has nothing to save, the stakes are
    published, the list is waiting to be published and a handler is
    registered.  [synchronize] then asks for the snapshots of
    [last_block_index - first_block_index = 0] blocks: the list flag is
    cleared and the handler has not been called. *)
Theorem apply_new_up_to_date (height : Z) (p : state) (s : sts) (l : bbl)
    (handler : blockchain_based_list_update_handler) :
  m_storage p = Some s -> m_blockchain_based_list p = Some l ->
  first_block_index_of s l = height ->
  storage_need_store s = false -> list_need_store l = false ->
  m_stakes_need_update p = false ->
  m_blockchain_based_list_need_update p = true ->
  m_on_blockchain_based_list_update p = Some handler ->
  block_height l <> 0 ->
  apply_new height p = (Val tt, with_blockchain_based_list_need_update false p).
Proof.
  intros Hs Hl Hfirst Hsn Hln Hstakes Hflag Hhandler Hheight.
  unfold apply_new. run. rewrite Hs, Hl, Hfirst.
  assert (Hzero : sync_iterations height height = O).
  { unfold sync_iterations, last_block_index_for_sync_of, sub64, wrap64.
    rewrite Z.sub_diag.
    change (0 mod U64_MODULUS >? MAX_ITERATIONS_COUNT) with false.
    cbn iota. rewrite Z.sub_diag. reflexivity. }
  rewrite Hzero. cbn [apply_new_blocks]. run.
  unfold store_and_publish. run. rewrite Hl, Hln. run. rewrite Hs, Hsn. run.
  assert (Hsome : bool_decide (is_Some (Some handler)) = true)
    by (apply bool_decide_eq_true; eauto).
  rewrite Z.eqb_refl. run. rewrite Hstakes. cbn [andb]. run.
  rewrite Hflag, Hhandler, Hsome. cbn [andb negb]. unfold invoke_update_blockchain_based_list_handler_impl. run. rewrite Hl.
  destruct (Z.eqb_spec (block_height l) 0) as [| _]; [contradiction |].
  assert (Hdepth : sub64 height height = 0)
    by (unfold sub64, wrap64; rewrite Z.sub_diag; reflexivity).
  rewrite Hdepth, clamp_depth_zero. cbn [publish_snapshots]. run. reflexivity.
Qed.

(** X13: the blockchain knows the hash of the first block to apply but
    cannot give the block.  The error thrown in the forward loop is caught
    at the end of [synchronize], which returns; on the way the stores are not
    saved, no handler is called and no flag is touched: the processor after
    the unroll loop only gets log records, the last two of them the warning
    about the block and the text of the error. *)
Theorem synchronize_block_not_found (fuel : nat) (p p1 : state) (s : sts) (l : bbl)
    (block_hash : hash) :
  get_current_blockchain_height <> 0 ->
  STAKE_TRANSACTION_PROCESSING_DB_VERSION
    <= get_hard_fork_version (sub64 get_current_blockchain_height 1) ->
  is_Some (m_storage p) -> is_Some (m_blockchain_based_list p) ->
  unroll fuel get_current_blockchain_height p = (Val unroll_done, p1) ->
  m_storage p1 = Some s -> m_blockchain_based_list p1 = Some l ->
  (0 < sync_iterations (first_block_index_of s l) get_current_blockchain_height)%nat ->
  get_block_id_by_height (first_block_index_of s l) = Some block_hash ->
  get_block_by_hash block_hash = None ->
  exists lg : list log_record,
    synchronize fuel p =
    (Val tt,
     with_log
       (lg ++ [MWARNING "Block with hash {} has not been found" [block_hash];
               MWARNING "Error at parsing blockchain. Block hash has not been found" []])
       p1).
Proof.
  intros Hheight Hfork Hsts Hbbl Hunroll Hs Hl Hpos Hid Hbody. unfold synchronize.
  destruct (Z.eqb_spec get_current_blockchain_height 0) as [| _]; [contradiction |].
  destruct (Z.ltb_spec (get_hard_fork_version (sub64 get_current_blockchain_height 1))
              STAKE_TRANSACTION_PROCESSING_DB_VERSION) as [| _]; [lia |].
  cbn [orb]. run.
  rewrite (bool_decide_eq_true_2 _ Hsts), (bool_decide_eq_true_2 _ Hbbl). run.
  rewrite Hunroll. unfold apply_new. run. rewrite Hs, Hl.
  destruct (sync_iterations (first_block_index_of s l) get_current_blockchain_height)
    as [| n]; [lia |].
  cbn [apply_new_blocks]. unfold apply_block_at.
  destruct ((first_block_index_of s l mod SYNC_DEBUG_LOG_STEP =? 0)
            || (first_block_index_of s l =? sub64 get_current_blockchain_height 1));
    run; rewrite Hid; run; rewrite Hbody; run.
  - exists [MDEBUG "RTA block sync {}/{}"
              [first_block_index_of s l; sub64 get_current_blockchain_height 1]].
    reflexivity.
  - exists []. reflexivity.
Qed.


(** *** What the handlers are given *)

Lemma clamp_depth_min (l : bbl) (depth : Z) :
  clamp_depth l depth = Z.min (Z.min depth (history_depth l)) SUPERNODE_HISTORY_SIZE.
Proof.
  unfold clamp_depth.
  destruct (Z.gtb_spec depth (history_depth l));
    match goal with |- context [?d >? SUPERNODE_HISTORY_SIZE] =>
      destruct (Z.gtb_spec d SUPERNODE_HISTORY_SIZE) end; lia.
Qed.

(** The loop that publishes the snapshots, when the blockchain has every
    block asked for and every call of the handler returns. *)
Lemma publish_snapshots_exact (l : bbl) (height : Z) (hash_at : nat -> hash)
    (handler : blockchain_based_list_update_handler) (n k : nat) (p : state) :
  m_on_blockchain_based_list_update p = Some handler ->
  (forall j, (k <= j < k + n)%nat ->
     get_block_id_by_height (sub64 height (Z.of_nat j)) = Some (hash_at j) /\
     handler (sub64 height (Z.of_nat j)) (hash_at j) (tiers (Z.of_nat j) l) = handler_returns) ->
  publish_snapshots l height (Z.of_nat k) n p =
  (Val tt,
   with_calls
     (map (fun j => blockchain_based_list_update_call (sub64 height (Z.of_nat j)) (hash_at j)
                      (tiers (Z.of_nat j) l))
          (seq k n))
     p).
Proof.
  revert k p. induction n as [| n IH]; intros k p Hh Hall; [reflexivity |].
  cbn [publish_snapshots seq map]. unfold call_on_blockchain_based_list_update.
  destruct (Hall k ltac:(lia)) as [Hid Hcall]. run. rewrite Hid. run. rewrite Hh. run.
  rewrite Hcall. run.
  replace (Z.of_nat k + 1) with (Z.of_nat (S k)) by lia.
  rewrite IH; [reflexivity | exact Hh | intros j Hj; apply Hall; lia].
Qed.

(** X17: what a successful publication of the list is.  The depth asked for
    is cut down to the history the list keeps and to
    [SUPERNODE_HISTORY_SIZE]; the handler is called once per snapshot, from
    the tip of the list downwards, with the height [block_height - i], the
    hash the blockchain has at that height and the tiers at depth [i]; the
    flag is cleared after the last call and nothing else changes. *)
Theorem invoke_update_blockchain_based_list_handler_impl_publishes (depth : Z) (p : state)
    (l : bbl) (handler : blockchain_based_list_update_handler) (hash_at : nat -> hash) :
  m_blockchain_based_list p = Some l -> block_height l <> 0 ->
  m_on_blockchain_based_list_update p = Some handler ->
  (forall j, (j < Z.to_nat (Z.min (Z.min depth (history_depth l)) SUPERNODE_HISTORY_SIZE))%nat ->
     get_block_id_by_height (sub64 (block_height l) (Z.of_nat j)) = Some (hash_at j) /\
     handler (sub64 (block_height l) (Z.of_nat j)) (hash_at j) (tiers (Z.of_nat j) l)
       = handler_returns) ->
  invoke_update_blockchain_based_list_handler_impl depth p =
  (Val tt,
   with_blockchain_based_list_need_update false
     (with_calls
        (map (fun j => blockchain_based_list_update_call
                         (sub64 (block_height l) (Z.of_nat j)) (hash_at j)
                         (tiers (Z.of_nat j) l))
             (seq 0 (Z.to_nat (Z.min (Z.min depth (history_depth l)) SUPERNODE_HISTORY_SIZE))))
        p)).
Proof.
  intros Hl Hheight Hh Hall. unfold invoke_update_blockchain_based_list_handler_impl.
  run. rewrite Hl. destruct (Z.eqb_spec (block_height l) 0) as [| _]; [contradiction |].
  rewrite clamp_depth_min. run.
  rewrite (publish_snapshots_exact l (block_height l) hash_at handler _ O p Hh);
    [reflexivity | intros j Hj; apply Hall; lia].
Qed.

(** X18: the stakes handler.  With a storage and a handler that returns, a
    forced call hands the handler the stakes and the disqualifications the
    storage has for block [db_height - 1] (unsigned), once, and clears the
    flag; a call that is not forced, made right after, does nothing. *)
Theorem invoke_update_stakes_handler_publishes (p : state) (s : sts)
    (handler : supernode_stakes_update_handler) :
  m_storage p = Some s -> m_on_stakes_update p = Some handler ->
  handler (sub64 get_db_height 1) (get_supernode_stakes (sub64 get_db_height 1) s)
    (get_supernode_disqualiications (sub64 get_db_height 1) s) = handler_returns ->
  let published :=
    with_stakes_need_update false
      (with_handler_call
         (stakes_update_call (sub64 get_db_height 1)
            (get_supernode_stakes (sub64 get_db_height 1) s)
            (get_supernode_disqualiications (sub64 get_db_height 1) s))
         p) in
  invoke_update_stakes_handler true p = (Val tt, published) /\
  invoke_update_stakes_handler false published = (Val tt, published).
Proof.
  intros Hs Hh Hcall published.
  assert (Hsome : bool_decide (is_Some (Some handler)) = true)
    by (apply bool_decide_eq_true; eauto).
  split.
  - unfold invoke_update_stakes_handler, invoke_update_stakes_handler_impl,
      call_on_stakes_update. run. rewrite Hh, Hsome. cbn [negb andb].
    rewrite andb_false_r. run. rewrite Hs. run. rewrite Hh. run. rewrite Hcall. reflexivity.
  - unfold invoke_update_stakes_handler. run. unfold published. fields.
    rewrite Hh, Hsome. reflexivity.
Qed.


(** *** The life of the two stores *)

(** X19: on a processor without stores, [init_storages] sets the directory
    and [init_storages_impl] opens both stores on files of that directory,
    from the block before the first block of the hard fork (from block 0
    when that is block 0); from then on both functions throw and leave the
    processor as it is, so the stores are opened once and the directory
    cannot be changed under them. *)
Theorem init_storages_once (config_dir config_dir' : string) (p : state) :
  m_storage p = None -> m_blockchain_based_list p = None ->
  let first_block_number :=
    get_earliest_ideal_height_for_version STAKE_TRANSACTION_PROCESSING_DB_VERSION in
  let first_block_number :=
    if first_block_number =? 0 then 0 else first_block_number - 1 in
  let p1 := with_config_dir config_dir p in
  let p2 :=
    with_blockchain_based_list
      (Some (list_open (storage_file config_dir BLOCKCHAIN_BASED_LIST_FILE_NAME)
               first_block_number))
      (with_storage
         (Some (storage_open (storage_file config_dir STAKE_TRANSACTION_STORAGE_FILE_NAME)
                  first_block_number))
         (with_logged
            (MDEBUG "Initialize stake processing storages. First block height is "
               [first_block_number])
            p1)) in
  init_storages config_dir p = (Val tt, p1) /\
  init_storages_impl p1 = (Val tt, p2) /\
  init_storages config_dir' p2 = (Exc (std_runtime_error ALREADY_INITIALIZED), p2) /\
  init_storages_impl p2 = (Exc (std_runtime_error ALREADY_INITIALIZED), p2).
Proof.
  intros Hs Hl. cbv zeta.
  assert (Hnone : bool_decide (is_Some (@None sts)) = false)
    by (apply bool_decide_eq_false; intros [? [=]]).
  assert (Hnone' : bool_decide (is_Some (@None bbl)) = false)
    by (apply bool_decide_eq_false; intros [? [=]]).
  assert (Hsome : forall x : sts, bool_decide (is_Some (Some x)) = true)
    by (intros x; apply bool_decide_eq_true; eauto).
  split; [| split; [| split]].
  - unfold init_storages, storages_initialized. run. rewrite Hs, Hl, Hnone, Hnone'. reflexivity.
  - unfold init_storages_impl, storages_initialized. run. fields.
    rewrite Hs, Hl, Hnone, Hnone'. cbn [orb].
    destruct (Z.eqb_spec (get_earliest_ideal_height_for_version
                            STAKE_TRANSACTION_PROCESSING_DB_VERSION) 0) as [-> | _];
      reflexivity.
  - unfold init_storages, storages_initialized. run. fields. rewrite Hsome. reflexivity.
  - unfold init_storages_impl, storages_initialized. run. fields. rewrite Hsome. reflexivity.
Qed.

(** X21: with exactly one of the two stores open, [synchronize] on a
    blockchain at or above the threshold does not return: it calls
    [init_storages_impl] before its [try] block, and the error thrown there
    leaves [synchronize]; the processor is not changed. *)
Theorem synchronize_stores_unpaired (fuel : nat) (p : state) :
  get_current_blockchain_height <> 0 ->
  STAKE_TRANSACTION_PROCESSING_DB_VERSION
    <= get_hard_fork_version (sub64 get_current_blockchain_height 1) ->
  ~ stores_paired p ->
  synchronize fuel p = (Exc (std_runtime_error ALREADY_INITIALIZED), p).
Proof.
  intros Hheight Hfork Hunpaired. unfold synchronize.
  destruct (Z.eqb_spec get_current_blockchain_height 0) as [| _]; [contradiction |].
  destruct (Z.ltb_spec (get_hard_fork_version (sub64 get_current_blockchain_height 1))
              STAKE_TRANSACTION_PROCESSING_DB_VERSION) as [| _]; [lia |].
  cbn [orb]. run. unfold init_storages_impl, storages_initialized. run.
  assert (Hnone : bool_decide (is_Some (@None sts)) = false)
    by (apply bool_decide_eq_false; intros [? [=]]).
  assert (Hnone' : bool_decide (is_Some (@None bbl)) = false)
    by (apply bool_decide_eq_false; intros [? [=]]).
  assert (Hsome : forall x : sts, bool_decide (is_Some (Some x)) = true)
    by (intros x; apply bool_decide_eq_true; eauto).
  assert (Hsome' : forall x : bbl, bool_decide (is_Some (Some x)) = true)
    by (intros x; apply bool_decide_eq_true; eauto).
  destruct (m_storage p) as [s |] eqn:Hs; destruct (m_blockchain_based_list p) as [l |] eqn:Hl.
  - exfalso. apply Hunpaired. right. unfold stores_open. rewrite Hs, Hl. eauto.
  - repeat progress (run; cbn [negb orb]; rewrite ?Hs, ?Hl, ?Hsome, ?Hsome', ?Hnone, ?Hnone').
    reflexivity.
  - repeat progress (run; cbn [negb orb]; rewrite ?Hs, ?Hl, ?Hsome, ?Hsome', ?Hnone, ?Hnone').
    reflexivity.
  - exfalso. apply Hunpaired. left. auto.
Qed.

End ProcessorFacts.


(** ** The scenario *)

Section ScenarioRuns.
Import Scenario.
#[local] Existing Instance config.
#[local] Existing Instance codec.
#[local] Existing Instance crypto.
#[local] Existing Instance generator.
#[local] Existing Instance storage_ops.
#[local] Existing Instance list_ops.

(** A first synchronisation over the three blocks finds the stake of block
    1, records blocks 1 and 2 as processed and applies them to the list. *)
Example synchronize_fresh :
  let r := synchronize_on chain1 1 new_processor in
  fst r = Val tt /\
  (StorageModel.txs <$> m_storage (snd r)) = Some [sample_stake] /\
  (StorageModel.processed_chain <$> m_storage (snd r)) = Some [(2, 102); (1, 101)] /\
  (ListModel.height <$> m_blockchain_based_list (snd r)) = Some 2.
Proof. vm_compute. repeat split. Qed.

(** A synchronisation over a fork: block 2 is unrolled and applied again
    with the hash of the chain. *)
Example synchronize_forked :
  let r := synchronize_on chain1 3 forked in
  fst r = Val tt /\
  (StorageModel.processed_chain <$> m_storage (snd r)) = Some [(2, 102); (1, 101)] /\
  (map fst <$> (ListModel.history <$> m_blockchain_based_list (snd r)))
    = Some [(2, 102); (1, 101)].
Proof. vm_compute. repeat split. Qed.

(** The disqualifications of the scenario: the first two pass, the third
    names an identifier outside the auth sample. *)
Example check_disqualification_runs :
  fst (check_disqualification_transaction (chain := net1) disq1 7 staffed) = Val true /\
  fst (check_disqualification2_transaction (chain := net1) disq2 7 staffed) = Val true /\
  fst (check_disqualification2_transaction (chain := net1) disq2_outside 7 staffed) = Val false.
Proof. vm_compute. repeat split. Qed.

Lemma stake1_acceptable : stake_acceptable (chain := net1) 1 stake1 stake1_extra.
Proof.
  split; [reflexivity |]. split; [exists 170; repeat split |].
  split; [vm_compute; split; discriminate |].
  exists 1000. split; [reflexivity | discriminate].
Qed.

Lemma stake_appended_iff_witness :
  exists amount,
    get_transaction_amount stake1 (extra_supernode_public_address stake1_extra)
      (extra_tx_secret_key stake1_extra) = Some amount /\
    amount <> 0 /\
    exists p',
      process_transaction (chain := net1) 1 101 stake1 ([], []) ready = (Val ([], []), p') /\
      m_storage p' = Some (add_tx (stake_record 1 stake1 stake1_extra amount) empty_storage).
Proof.
  destruct (proj1 (stake_appended_iff (chain := net1) 1 101 stake1 ([], []) ready
                     empty_storage ltac:(discriminate) ltac:(discriminate) eq_refl
                     (or_introl eq_refl))
              stake1_extra stake1_acceptable)
    as (amount & Hamount & Hnonzero & Hadded & _).
  exists amount. split; [exact Hamount |]. split; [exact Hnonzero | exact Hadded].
Defined.

Lemma unlock_time_underflow_rejected_witness :
  sub64 (unlock_time stake_underflow) 10 = U64_MODULUS - (10 - unlock_time stake_underflow) /\
  STAKE_MAX_UNLOCK_TIME < sub64 (unlock_time stake_underflow) 10 /\
  (forall e, ~ stake_acceptable (chain := net1) 10 stake_underflow e) /\
  exists acc' p',
    process_transaction (chain := net1) 10 110 stake_underflow ([], []) ready = (Val acc', p') /\
    logs_only ready p'.
Proof.
  apply (unlock_time_underflow_rejected (chain := net1) 10 110 stake_underflow ([], []) ready).
  - unfold is_uint64, U64_MODULUS. simpl. lia.
  - unfold is_uint64, U64_MODULUS. lia.
  - simpl. lia.
  - unfold U64_MODULUS. simpl. lia.
Defined.

Lemma check_disqualification_iff_witness :
  (fst (check_disqualification_transaction (chain := net1) disq1 7 staffed) = Val true <->
   exists d, graft_check_disqualification disq1 = Some d /\
             disqualification_accepted (chain := net1) list_staffed d) /\
  logs_only staffed (snd (check_disqualification_transaction (chain := net1) disq1 7 staffed)).
Proof.
  apply (check_disqualification_iff (chain := net1) disq1 7 staffed list_staffed).
  - reflexivity.
  - reflexivity.
Defined.

Lemma check_disqualification2_iff_witness :
  fst (check_disqualification2_transaction (chain := net1) disq2 7 staffed) = Val true <->
  exists d, graft_check_disqualification2 disq2 = Some d /\
            disqualification2_accepted (chain := net1) list_staffed d.
Proof.
  refine (proj1 (check_disqualification2_iff (chain := net1) disq2 7 staffed list_staffed _ _)).
  - reflexivity.
  - reflexivity.
Defined.


Lemma unroll_cases_witness :
  exists p' : state,
    m_storage p' = Some (unrolled_storage storage_forked) /\
    m_blockchain_based_list p' = Some (unrolled_list storage_forked list_forked) /\
    logged p' = logged forked ++
      [MWARNING "Stake transactions processing: unroll block {} (height={})" [2; 3]] /\
    unroll (chain := net1) 3 3 forked = unroll (chain := net1) 2 3 p' /\
    synchronize (chain := net1) 3 forked = synchronize (chain := net1) 2 p'.
Proof.
  assert (Hlast : has_last_processed_block storage_forked = true) by reflexivity.
  destruct (proj2 (proj2 (proj2 (unroll_cases (chain := net1) 2 3 forked storage_forked
                                   list_forked eq_refl eq_refl Hlast))))
    as (p' & Hs & Hl & Hlog & Hloop & Hsync).
  - intros [_ Hagree]. vm_compute in Hagree. discriminate.
  - intros [_ Hmissing]. vm_compute in Hmissing. discriminate.
  - exists p'. split; [exact Hs |]. split; [exact Hl |]. split; [exact Hlog |].
    split; [exact Hloop |]. apply Hsync.
    split; [reflexivity |]. split; [discriminate | vm_compute; discriminate].
Defined.


Lemma process_block_already_processed_witness :
  exists p',
    process_block (chain := net1) 2 {| tx_hashes := [] |} 102 false lagging = (Val tt, p') /\
    m_storage p' = Some storage_at_2 /\
    m_stakes_need_update p' = m_stakes_need_update lagging /\
    logged p' = logged lagging /\
    handler_calls p' = handler_calls lagging /\
    m_blockchain_based_list p' = Some (list_after 2 102 false storage_at_2 list_at_1) /\
    m_blockchain_based_list_need_update p' =
      m_blockchain_based_list_need_update lagging || list_changed 2 102 storage_at_2 list_at_1.
Proof.
  apply (process_block_already_processed (chain := net1) 2 {| tx_hashes := [] |} 102 false
           lagging storage_at_2 list_at_1).
  - reflexivity.
  - reflexivity.
  - vm_compute. discriminate.
Defined.

(** C4, as stated, fails: block 2 is at the last processed index of the
    storage, and [process_block] changes the blockchain based list, which had
    only applied block 1. *)
Lemma process_block_already_processed_changes_list :
  2 <= get_last_processed_block_index storage_at_2 /\
  m_storage lagging = Some storage_at_2 /\
  m_blockchain_based_list
    (snd (process_block (chain := net1) 2 {| tx_hashes := [] |} 102 false lagging))
  <> m_blockchain_based_list lagging.
Proof.
  split; [vm_compute; discriminate |]. split; [reflexivity |].
  vm_compute. discriminate.
Qed.

Lemma process_block_records_block_witness :
  exists (s' : storage_state) (disquals : list disqualification)
         (disquals2 : list disqualification2_storage_item) (p' : state),
    process_block (chain := net1) 1 {| tx_hashes := [1023; 555] |} 101 false ready
      = (Val tt, p') /\
    m_storage p' =
      Some (recorded 1 101 false
              (update_supernode_stakes 1 (add_disquals2 disquals2 (add_disquals disquals s')))) /\
    ([555] <> [] ->
       In (MWARNING "Some transactions for block #{} have been missed:" [1]) (logged p')) /\
    (forall tx_hash, In tx_hash [555] -> In (MWARNING "  {}" [tx_hash]) (logged p')).
Proof.
  refine (process_block_records_block (chain := net1) 1 {| tx_hashes := [1023; 555] |} 101
            false ready empty_storage empty_list _ _ _ _ _).
  - reflexivity.
  - reflexivity.
  - vm_compute. reflexivity.
  - vm_compute. discriminate.
  - apply Forall_cons. split; [left; reflexivity | apply Forall_nil_2].
Defined.

(** C5, as stated, fails: block 1 is new and at the hard-fork threshold, the
    fetch of its transactions fails, and after [process_block] the storage has
    no processed block: [add_last_processed_block] was not executed. *)
Lemma process_block_fetch_failure_not_recorded :
  get_last_processed_block_index empty_storage < 1 /\
  STAKE_TRANSACTION_PROCESSING_DB_VERSION <= get_hard_fork_version (Blockchain := net_db_down) 1 /\
  get_transactions (Blockchain := net_db_down) [1023] = None /\
  let r := process_block (chain := net_db_down) 1 {| tx_hashes := [1023] |} 101 false ready in
  fst r = Val tt /\
  m_storage (snd r) = Some empty_storage /\
  has_last_processed_block empty_storage = false /\
  logged (snd r) = [MWARNING "Unable to get transactions for block #{}" [1]].
Proof.
  split; [vm_compute; reflexivity |]. split; [vm_compute; discriminate |].
  split; [reflexivity |]. vm_compute. repeat split.
Qed.

(** The handlers of the scenario.  A first invocation finds the flag set,
    calls the handler and clears the flag; a second one, nothing having
    changed, makes no call. *)
Example invoke_update_stakes_handler_once :
  let r1 := invoke_update_stakes_handler (chain := net1) false watched in
  let r2 := invoke_update_stakes_handler (chain := net1) false (snd r1) in
  handler_calls (snd r1) = [stakes_update_call 2 [] []] /\
  m_stakes_need_update (snd r1) = false /\
  snd r2 = snd r1.
Proof. vm_compute. repeat split. Qed.

(** A handler that throws: the exception is logged, the flag stays set. *)
Example invoke_update_handlers_failing :
  let r := invoke_update_stakes_handler (chain := net1) false watched_failing in
  let r' := invoke_update_blockchain_based_list_handler (chain := net1) false 1
              watched_failing in
  fst r = Val tt /\ m_stakes_need_update (snd r) = true /\
  logged (snd r) = [MERROR (String.append STAKES_HANDLER_EXCEPTION "observer failed") []] /\
  fst r' = Val tt /\ m_blockchain_based_list_need_update (snd r') = true /\
  logged (snd r') = [MERROR (String.append LIST_HANDLER_EXCEPTION "observer failed") []].
Proof. vm_compute. repeat split. Qed.

(** The list handler gets the snapshot at the tip; with [depth = 0] the
    loop over the snapshots is empty: the flag is cleared and no call is
    made. *)
Example invoke_update_blockchain_based_list_handler_depths :
  let r1 := invoke_update_blockchain_based_list_handler (chain := net1) false 1 watched in
  let r0 := invoke_update_blockchain_based_list_handler (chain := net1) false 0 watched in
  handler_calls (snd r1) = [blockchain_based_list_update_call 2 102 tiers_at_2] /\
  m_blockchain_based_list_need_update (snd r1) = false /\
  handler_calls (snd r0) = [] /\
  m_blockchain_based_list_need_update (snd r0) = false.
Proof. vm_compute. repeat split. Qed.




(** *** The remaining functions on the scenario *)

Lemma rct_output_amount_nonzero_witness :
  exists derivation ecdh_info decoded C,
    generate_key_derivation 3 2 = Some derivation /\
    ecdhInfo (rct_signatures stake_rct) !! Z.to_nat 0 = Some ecdh_info /\
    ecdhDecode ecdh_info (sk2rct (derivation_to_scalar derivation 0)) = Some decoded /\
    outPk (rct_signatures stake_rct) !! Z.to_nat 0 = Some C /\
    C = addKeys2 (ecdh_mask decoded) (ecdh_amount decoded) rct_H /\
    1000 = h2d (ecdh_amount decoded).
Proof.
  apply (rct_output_amount_nonzero stake_rct (extra_supernode_public_address stake1_extra) 2 0
           1000).
  - reflexivity.
  - discriminate.
Defined.

Lemma stake_without_owned_output_rejected_witness :
  get_transaction_amount stake_elsewhere (extra_supernode_public_address stake1_extra)
    (extra_tx_secret_key stake1_extra) = Some 0 /\
  exists p',
    process_transaction (chain := net1) 1 101 stake_elsewhere ([], []) ready
      = (Val ([], []), p') /\
    logs_only ready p'.
Proof.
  apply (stake_without_owned_output_rejected (chain := net1) 1 101 stake_elsewhere
           stake1_extra ([], []) ready).
  - discriminate.
  - discriminate.
  - reflexivity.
  - intros derivation i out Hd Hout. vm_compute in Hd. injection Hd as <-.
    destruct i as [| [| i]]; cbn in Hout; [| | discriminate];
      injection Hout as <-; reflexivity.
Defined.

Lemma fromIndexes_of_makeBBLindexes_witness :
  exists ids,
    fromIndexes tiers_at_2 [(0, 0); (1, 0)]%nat staffed = (Val ids, staffed) /\
    length ids = 2%nat /\
    ids_at tiers_at_2 [(0, 0); (1, 0)]%nat = Some ids.
Proof.
  apply (fromIndexes_of_makeBBLindexes tiers_at_2 [(0, 0); (1, 0)]%nat staffed).
  - intros t i [[= <- <-] | [[= <- <-] | []]]; vm_compute; auto.
  - intros tier entry [<- | [<- | []]] Hin; cbn in Hin;
      repeat (destruct Hin as [<- | Hin]; [vm_compute; eauto |]); destruct Hin.
Defined.

Lemma check_disqualification_future_block_witness :
  check_disqualification_transaction (chain := net1) disq1 7 lagging =
  (Val false,
   with_logged (MWARNING (String.append IGNORE_DISQUALIFICATION "; out of history ") [7])
     lagging).
Proof.
  refine (check_disqualification_future_block (chain := net1) disq1 7 lagging list_at_1
            {| item := {| block_height_of := 2; block_hash_of := 102; id_of := 204 |};
               signers := signers_of [170; 187] |} _ _ _ _ _ _ _ _).
  - reflexivity.
  - reflexivity.
  - reflexivity.
  - reflexivity.
  - vm_compute. split; [discriminate | reflexivity].
  - vm_compute. split; [discriminate | reflexivity].
  - vm_compute. reflexivity.
  - vm_compute. discriminate.
Defined.

Lemma check_disqualification2_future_block_witness :
  check_disqualification2_transaction (chain := net1) disq2 7 lagging =
  (Val false,
   with_logged (MWARNING (String.append IGNORE_DISQUALIFICATION2 "; out of history ") [7])
     lagging).
Proof.
  refine (check_disqualification2_future_block (chain := net1) disq2 7 lagging list_at_1
            {| item2 := {| payment_id := "payment"; block_height_of2 := 2;
                           block_hash_of2 := 102; ids := [204; 187] |};
               signers2 := signers_of [170; 187] |} _ _ _ _ _ _ _ _).
  - reflexivity.
  - reflexivity.
  - reflexivity.
  - reflexivity.
  - vm_compute. split; [discriminate | reflexivity].
  - vm_compute. split; [discriminate | reflexivity].
  - vm_compute. reflexivity.
  - vm_compute. discriminate.
Defined.

Lemma process_transactions_effect_witness :
  exists l,
    process_transactions (chain := net1) 1 101 [stake1; disq1; stake_underflow] ([], []) ready =
    (Val (omap (disqualification_of 1) [stake1; disq1; stake_underflow],
          omap (disqualification2_of 1) [stake1; disq1; stake_underflow]),
     with_log l
       (with_storage
          (Some (add_stakes (omap (stake_of (chain := net1) 1) [stake1; disq1; stake_underflow])
                   empty_storage))
          ready)).
Proof.
  apply (process_transactions_effect (chain := net1) 1 101 [stake1; disq1; stake_underflow]
           ready empty_storage).
  - apply Forall_cons. split; [left; reflexivity |].
    apply Forall_cons. split; [right; cbn; lia |].
    apply Forall_cons. split; [left; reflexivity | apply Forall_nil_2].
  - reflexivity.
Defined.


Lemma process_block_stake_transaction_new_block_witness :
  exists (p' : state) (l : list log_record),
    process_block_stake_transaction (chain := net1) 1 {| tx_hashes := [1023] |} 101 false ready
      = (Val tt, p') /\
    m_storage p' =
      Some (add_last_processed_block 1 101
              (update_supernode_stakes 1
                 (add_disquals2 (omap (disqualification2_of 1) [stake1])
                    (add_disquals (omap (disqualification_of 1) [stake1])
                       (add_stakes (omap (stake_of (chain := net1) 1) [stake1])
                          empty_storage))))) /\
    m_stakes_need_update p' = true.
Proof.
  destruct (process_block_stake_transaction_new_block (chain := net1) 1
              {| tx_hashes := [1023] |} 101 false ready empty_storage [stake1] [])
    as (p' & l & Hrun & Hs & Hflag & _).
  - reflexivity.
  - vm_compute. reflexivity.
  - vm_compute. discriminate.
  - reflexivity.
  - apply Forall_cons. split; [left; reflexivity | apply Forall_nil_2].
  - exists p', l. split; [exact Hrun |]. split; [exact Hs | exact Hflag].
Defined.

Lemma process_block_stake_transaction_below_threshold_witness :
  process_block_stake_transaction (chain := net_old) 1 {| tx_hashes := [1023] |} 101 true ready =
  (Val tt,
   with_storage (Some (storage_store (add_last_processed_block 1 101 empty_storage))) ready).
Proof.
  apply (process_block_stake_transaction_below_threshold (chain := net_old) 1
           {| tx_hashes := [1023] |} 101 true ready empty_storage).
  - reflexivity.
  - vm_compute. reflexivity.
  - vm_compute. reflexivity.
Defined.

Lemma synchronize_idle_witness :
  synchronize (chain := net_old) 0 new_processor = (Val tt, (new_processor : state)).
Proof.
  apply (synchronize_idle (chain := net_old) 0 new_processor).
  right. vm_compute. reflexivity.
Defined.

Lemma unroll_done_agrees_witness :
  exists k : nat,
    (k < 3)%nat /\
    m_storage (snd (unroll (chain := net1) 3 3 forked))
      = Some (Nat.iter k unrolled_storage storage_forked) /\
    (has_last_processed_block (Nat.iter k unrolled_storage storage_forked) = false \/
     get_last_processed_block_index (Nat.iter k unrolled_storage storage_forked) < 3 /\
     get_block_id_by_height (Blockchain := net1)
       (get_last_processed_block_index (Nat.iter k unrolled_storage storage_forked)) =
       Some (get_last_processed_block_hash (Nat.iter k unrolled_storage storage_forked))).
Proof.
  apply (unroll_done_agrees (chain := net1) 3 3 forked
           (snd (unroll (chain := net1) 3 3 forked)) storage_forked).
  - reflexivity.
  - vm_compute. reflexivity.
Defined.

Lemma synchronize_block_not_found_witness :
  exists lg : list log_record,
    synchronize (chain := net_pruned) 1 ready =
    (Val tt,
     with_log
       (lg ++ [MWARNING "Block with hash {} has not been found" [101];
               MWARNING "Error at parsing blockchain. Block hash has not been found" []])
       ready).
Proof.
  apply (synchronize_block_not_found (chain := net_pruned) 1 ready ready empty_storage
           empty_list 101).
  - discriminate.
  - vm_compute. discriminate.
  - eexists. reflexivity.
  - eexists. reflexivity.
  - reflexivity.
  - reflexivity.
  - reflexivity.
  - vm_compute. lia.
  - reflexivity.
  - reflexivity.
Defined.

Lemma apply_new_waits_for_block_witness :
  exists (p' : state) (lg : list log_record),
    apply_new (chain := net_behind) 3 ready = (Val tt, p') /\
    m_storage p' =
      Some (if storage_need_store empty_storage then storage_store empty_storage
            else empty_storage) /\
    m_blockchain_based_list p' =
      Some (if list_need_store empty_list then list_store empty_list else empty_list) /\
    m_stakes_need_update p' = m_stakes_need_update ready /\
    m_blockchain_based_list_need_update p' = m_blockchain_based_list_need_update ready /\
    handler_calls p' = handler_calls ready /\
    logged p' = logged ready ++ lg.
Proof.
  apply (apply_new_waits_for_block (chain := net_behind) 3 ready empty_storage empty_list).
  - reflexivity.
  - reflexivity.
  - vm_compute. lia.
  - reflexivity.
Defined.

Lemma apply_new_up_to_date_witness :
  apply_new (chain := net1) 3 up_to_date =
  (Val tt, with_blockchain_based_list_need_update false up_to_date).
Proof.
  apply (apply_new_up_to_date (chain := net1) 3 up_to_date storage_saved list_staffed
           quiet_list_handler).
  - reflexivity.
  - reflexivity.
  - vm_compute. reflexivity.
  - reflexivity.
  - reflexivity.
  - reflexivity.
  - reflexivity.
  - reflexivity.
  - vm_compute. discriminate.
Defined.

Lemma apply_new_blocks_last_witness :
  fst (apply_new_blocks (chain := net1) 2 1 3 ready) = Val 3 /\
  3 = 1 + Z.of_nat (blocks_processed (chain := net1) 2 1 3 ready).
Proof.
  split; [vm_compute; reflexivity |].
  apply (apply_new_blocks_last (chain := net1) 2 1 3 ready
           (snd (apply_new_blocks (chain := net1) 2 1 3 ready)) 3).
  - lia.
  - unfold U64_MODULUS. simpl. lia.
  - vm_compute. reflexivity.
Defined.


Lemma invoke_update_blockchain_based_list_handler_impl_publishes_witness :
  invoke_update_blockchain_based_list_handler_impl (chain := net1) 5 watched =
  (Val tt,
   with_blockchain_based_list_need_update false
     (with_calls
        (map (fun j => blockchain_based_list_update_call
                         (sub64 (block_height list_staffed) (Z.of_nat j)) (102 - Z.of_nat j)
                         (tiers (Z.of_nat j) list_staffed))
             (seq 0 (Z.to_nat (Z.min (Z.min 5 (history_depth list_staffed))
                                 SUPERNODE_HISTORY_SIZE))))
        watched)).
Proof.
  apply (invoke_update_blockchain_based_list_handler_impl_publishes (chain := net1) 5 watched
           list_staffed quiet_list_handler (fun j => 102 - Z.of_nat j)).
  - reflexivity.
  - vm_compute. discriminate.
  - reflexivity.
  - intros j Hj. assert (Hone : Z.to_nat (Z.min (Z.min 5 (history_depth list_staffed))
                                          SUPERNODE_HISTORY_SIZE) = 1%nat) by reflexivity.
    rewrite Hone in Hj. destruct j as [| j]; [| lia]. split; reflexivity.
Defined.

Lemma invoke_update_stakes_handler_publishes_witness :
  invoke_update_stakes_handler (chain := net1) true watched =
    (Val tt,
     with_stakes_need_update false
       (with_handler_call
          (stakes_update_call (sub64 3 1) (get_supernode_stakes (sub64 3 1) storage_at_2)
             (get_supernode_disqualiications (sub64 3 1) storage_at_2))
          watched)).
Proof.
  apply (invoke_update_stakes_handler_publishes (chain := net1) watched storage_at_2
           quiet_stakes_handler).
  - reflexivity.
  - reflexivity.
  - reflexivity.
Defined.

Lemma init_storages_once_witness :
  init_storages "data" (new_processor : state) = (Val tt, with_config_dir "data" new_processor) /\
  fst (init_storages_impl (chain := net1) (with_config_dir "data" (new_processor : state)))
    = Val tt.
Proof.
  pose proof (init_storages_once (chain := net1) "data" "other" (new_processor : state)
                eq_refl eq_refl) as (Hset & Hopen & _).
  split; [exact Hset |]. rewrite Hopen. reflexivity.
Defined.

Lemma synchronize_stores_unpaired_witness :
  synchronize (chain := net1) 1 half_open =
  (Exc (std_runtime_error ALREADY_INITIALIZED), half_open).
Proof.
  apply (synchronize_stores_unpaired (chain := net1) 1 half_open).
  - discriminate.
  - vm_compute. discriminate.
  - intros [[Hs _] | [_ [l Hl]]]; discriminate.
Defined.

End ScenarioRuns.
